(** * alvillain/geocoder: a rate-limited, signed reverse-geocoding client

    A shallow embedding of the two variants of the client found in the
    repository,

      - [GeocGo]   : src/geoc.go            (string-built URL, signature
                                             appended by [ReverseGeocode]);
      - [Part000]  : src/unnamed/part_000   ([url.Values] query, signature
                                             added by [buildURL], observer),

    together with the parts of the Go standard library they call
    (strings.ReplaceAll, encoding/base64, crypto/sha1, crypto/hmac,
    net/url escaping and [Values.Encode], fmt's [%.8f]).

    Go strings are byte strings and are modelled by [string]; a [[]byte] is a
    list of integers in [0, 256); a pointer that may be nil is an [option];
    a Go [(T, error)] result is a pair whose second component is an
    [option error]; a run-time panic is an explicit outcome. *)

From Stdlib Require Import ZArith List String Ascii Bool Lia SpecFloat.
From Stdlib Require DecimalPos.
Import ListNotations.

Local Open Scope string_scope.
Local Open Scope list_scope.
Local Open Scope Z_scope.

(** Go's [+] on strings; [++] is kept for lists. *)
Infix "+++" := String.append (right associativity, at level 60).

Set Implicit Arguments.

(* ================================================================== *)
(** * Bytes and strings *)
(* ================================================================== *)

Definition byte_of_ascii (c : ascii) : Z := Z.of_N (N_of_ascii c).
Definition ascii_of_byte (b : Z) : ascii := ascii_of_N (Z.to_N b).

(** [[]byte(s)] *)
Definition bytes_of_string (s : string) : list Z :=
  List.map byte_of_ascii (list_ascii_of_string s).

(** [string(b)] *)
Definition string_of_bytes (b : list Z) : string :=
  string_of_list_ascii (List.map ascii_of_byte b).

Fixpoint string_map (f : ascii -> ascii) (s : string) : string :=
  match s with
  | EmptyString => EmptyString
  | String c s' => String (f c) (string_map f s')
  end.

Fixpoint string_forall (p : ascii -> bool) (s : string) : bool :=
  match s with
  | EmptyString => true
  | String c s' => p c && string_forall p s'
  end.

(** ** strings.ReplaceAll

    Non-overlapping occurrences of [old] are replaced from the left.  The
    scan is structural on [s]: [skip] counts the bytes of a match still to be
    dropped.  (With an empty [old] Go inserts [new] around every rune; the
    program only ever passes one-byte patterns, and that case is left as the
    identity here.) *)
Fixpoint replaceFrom (old new : string) (skip : nat) (s : string) : string :=
  match s with
  | EmptyString => EmptyString
  | String c s' =>
      match skip with
      | S k => replaceFrom old new k s'
      | O =>
          match old with
          | EmptyString => String c (replaceFrom old new O s')
          | String _ _ =>
              if String.prefix old s
              then new +++ replaceFrom old new (Nat.pred (String.length old)) s'
              else String c (replaceFrom old new O s')
          end
      end
  end.

Definition ReplaceAll (s old new : string) : string := replaceFrom old new O s.

(* ================================================================== *)
(** * Errors and panics *)
(* ================================================================== *)

(** The error values the program can see.  [ErrorsNew] is [errors.New];
    [CorruptInputError] is the one of encoding/base64 (its byte offset is not
    kept); the remaining ones are produced by the collaborators the client
    is handed and are opaque to it. *)
Inductive error : Type :=
| ErrorsNew (msg : string)
| CorruptInputError
| UrlError (msg : string)
| ContextError (msg : string)
| TransportError (msg : string)
| JsonError (msg : string).

(* ================================================================== *)
(** * encoding/base64, [StdEncoding] *)
(* ================================================================== *)

Module base64.

Definition encodeStd : string :=
  "ABCDEFGHIJKLMNOPQRSTUVWXYZabcdefghijklmnopqrstuvwxyz0123456789+/".

Definition padChar : ascii := "="%char.

(** [enc.encode[i]] *)
Definition encodeChar (i : Z) : ascii :=
  match String.get (Z.to_nat i) encodeStd with
  | Some c => c
  | None => padChar
  end.

(** [enc.decodeMap[c]]: the 6-bit value of [c], [None] standing for the
    0xff entries of the table. *)
Definition decodeMap (c : ascii) : option Z :=
  let n := byte_of_ascii c in
  if (65 <=? n) && (n <=? 90) then Some (n - 65)
  else if (97 <=? n) && (n <=? 122) then Some (n - 97 + 26)
  else if (48 <=? n) && (n <=? 57) then Some (n - 48 + 52)
  else if n =? 43 then Some 62
  else if n =? 47 then Some 63
  else None.

(** [Encoding.EncodeToString]: three bytes give four characters, the last
    group is padded with [=]. *)
Fixpoint encode (src : list Z) : list ascii :=
  match src with
  | [] => []
  | [a] =>
      let val := Z.shiftl a 16 in
      [encodeChar (Z.land (Z.shiftr val 18) 63);
       encodeChar (Z.land (Z.shiftr val 12) 63);
       padChar; padChar]
  | [a; b] =>
      let val := Z.lor (Z.shiftl a 16) (Z.shiftl b 8) in
      [encodeChar (Z.land (Z.shiftr val 18) 63);
       encodeChar (Z.land (Z.shiftr val 12) 63);
       encodeChar (Z.land (Z.shiftr val 6) 63);
       padChar]
  | a :: b :: c :: rest =>
      let val := Z.lor (Z.lor (Z.shiftl a 16) (Z.shiftl b 8)) c in
      encodeChar (Z.land (Z.shiftr val 18) 63)
      :: encodeChar (Z.land (Z.shiftr val 12) 63)
      :: encodeChar (Z.land (Z.shiftr val 6) 63)
      :: encodeChar (Z.land val 63)
      :: encode rest
  end.

Definition EncodeToString (src : list Z) : string :=
  string_of_list_ascii (encode src).

Definition isNewline (c : ascii) : bool :=
  (byte_of_ascii c =? 10) || (byte_of_ascii c =? 13).

(** The bytes of a quantum whose first [dlen] 6-bit digits are [dbuf]
    (missing digits are zero; the encoding is not strict, so the unused
    low bits are not inspected): [dlen - 1] bytes come out. *)
Definition quantumBytes (dbuf : list Z) : list Z :=
  let d i := nth i dbuf 0 in
  let val := Z.lor (Z.lor (Z.lor (Z.shiftl (d 0%nat) 18) (Z.shiftl (d 1%nat) 12))
                          (Z.shiftl (d 2%nat) 6)) (d 3%nat) in
  firstn (Nat.pred (List.length dbuf))
         [Z.land (Z.shiftr val 16) 255; Z.land (Z.shiftr val 8) 255; Z.land val 255].

(** After the padding of the last quantum only newlines may follow. *)
Definition onlyNewlines (s : list ascii) : bool := forallb isNewline s.

(** Skips newlines, then expects the second [=] of a two-character
    padding; what follows it is returned. *)
Fixpoint secondPad (s : list ascii) : option (list ascii) :=
  match s with
  | [] => None
  | c :: s' =>
      if isNewline c then secondPad s'
      else if Ascii.eqb c padChar then Some s'
      else None
  end.

(** The last, padded quantum: its bytes are written, and anything but
    newlines after the padding is reported as trailing garbage. *)
Definition padded (dbuf out : list Z) (rest : list ascii) : list Z * option error :=
  (out ++ quantumBytes dbuf,
   if onlyNewlines rest then None else Some CorruptInputError).

(** [Encoding.Decode], as the loop over [decodeQuantum]: [dbuf] holds the
    digits of the current quantum (in order), [out] the bytes decoded so
    far.  Newlines are skipped everywhere; input may only end between
    quanta; padding ends the input. *)
Fixpoint decodeFrom (s : list ascii) (dbuf : list Z) (out : list Z)
  : list Z * option error :=
  match s with
  | [] =>
      match dbuf with
      | [] => (out, None)
      | _ => (out, Some CorruptInputError)
      end
  | c :: s' =>
      match decodeMap c with
      | Some v =>
          let dbuf' := dbuf ++ [v] in
          if Nat.eqb (List.length dbuf') 4
          then decodeFrom s' [] (out ++ quantumBytes dbuf')
          else decodeFrom s' dbuf' out
      | None =>
          if isNewline c then decodeFrom s' dbuf out
          else if negb (Ascii.eqb c padChar) then (out, Some CorruptInputError)
          else
            match List.length dbuf with
            | 2%nat =>
                match secondPad s' with
                | Some rest => padded dbuf out rest
                | None => (out, Some CorruptInputError)
                end
            | 3%nat => padded dbuf out s'
            | _ => (out, Some CorruptInputError)
            end
      end
  end.

Definition DecodeString (s : string) : list Z * option error :=
  decodeFrom (list_ascii_of_string s) [] [].

End base64.

(* ================================================================== *)
(** * crypto/sha1 and crypto/hmac *)
(* ================================================================== *)

Module sha1.

Definition Size : nat := 20.
Definition BlockSize : nat := 64.

(** 32-bit words: a [uint32] is a [Z] in [0, 2^32), every operation that
    can leave the range is followed by the wrap-around. *)
Definition wrap32 (x : Z) : Z := x mod 2 ^ 32.
Definition add32 (x y : Z) : Z := wrap32 (x + y).
Definition not32 (x : Z) : Z := Z.lxor x 4294967295.
Definition RotateLeft32 (x : Z) (k : Z) : Z :=
  wrap32 (Z.lor (Z.shiftl x k) (Z.shiftr x (32 - k))).

Definition K0 : Z := 1518500249.  (* 0x5A827999 *)
Definition K1 : Z := 1859775393.  (* 0x6ED9EBA1 *)
Definition K2 : Z := 2400959708.  (* 0x8F1BBCDC *)
Definition K3 : Z := 3395469782.  (* 0xCA62C1D6 *)

Definition init : list Z :=
  [1732584193; 4023233417; 2562383102; 271733878; 3285377520].

(** Big-endian words of a block. *)
Fixpoint words (p : list Z) : list Z :=
  match p with
  | a :: b :: c :: d :: rest =>
      Z.lor (Z.lor (Z.lor (Z.shiftl a 24) (Z.shiftl b 16)) (Z.shiftl c 8)) d
      :: words rest
  | _ => []
  end.

(** The message schedule, most recent word first: [w i] is the rotation
    of [w (i-3) xor w (i-8) xor w (i-14) xor w (i-16)]. *)
Fixpoint schedule (n : nat) (rw : list Z) : list Z :=
  match n with
  | O => rw
  | S n' =>
      let tmp := Z.lxor (Z.lxor (Z.lxor (nth 2 rw 0) (nth 7 rw 0)) (nth 13 rw 0))
                        (nth 15 rw 0) in
      schedule n' (RotateLeft32 tmp 1 :: rw)
  end.

Definition roundF (i : nat) (b c d : Z) : Z :=
  if (i <? 20)%nat then Z.lor (Z.land b c) (Z.land (not32 b) d)
  else if (i <? 40)%nat then Z.lxor (Z.lxor b c) d
  else if (i <? 60)%nat then Z.lor (Z.land (Z.lor b c) d) (Z.land b c)
  else Z.lxor (Z.lxor b c) d.

Definition roundK (i : nat) : Z :=
  if (i <? 20)%nat then K0
  else if (i <? 40)%nat then K1
  else if (i <? 60)%nat then K2
  else K3.

Record regs : Type := Regs { ra : Z; rb : Z; rc : Z; rd : Z; re : Z }.

Fixpoint rounds (i : nat) (ws : list Z) (r : regs) : regs :=
  match ws with
  | [] => r
  | w :: ws' =>
      let '(Regs a b c d e) := r in
      let t := add32 (add32 (add32 (add32 (RotateLeft32 a 5) (roundF i b c d)) e) w)
                     (roundK i) in
      rounds (S i) ws' (Regs t a (RotateLeft32 b 30) c d)
  end.

(** One 64-byte chunk. *)
Definition block (h : list Z) (p : list Z) : list Z :=
  let ws := List.rev (schedule 64 (List.rev (words p))) in
  let h' i := nth i h 0 in
  let '(Regs a b c d e) :=
    rounds 0 ws (Regs (h' 0%nat) (h' 1%nat) (h' 2%nat) (h' 3%nat) (h' 4%nat)) in
  [add32 (h' 0%nat) a; add32 (h' 1%nat) b; add32 (h' 2%nat) c;
   add32 (h' 3%nat) d; add32 (h' 4%nat) e].

Fixpoint blocks (fuel : nat) (h : list Z) (p : list Z) : list Z :=
  match fuel with
  | O => h
  | S fuel' =>
      match p with
      | [] => h
      | _ => blocks fuel' (block h (firstn BlockSize p)) (skipn BlockSize p)
      end
  end.

Definition bigEndian (n : nat) (x : Z) : list Z :=
  List.map (fun i => Z.land (Z.shiftr x (8 * Z.of_nat i)) 255) (List.rev (seq 0 n)).

(** Padding: 0x80, zeros up to 56 mod 64, the bit length on 64 bits. *)
Definition pad (msg : list Z) : list Z :=
  let len := Z.of_nat (List.length msg) in
  msg ++ [128] ++ repeat 0 (Z.to_nat ((55 - len) mod 64))
      ++ bigEndian 8 ((8 * len) mod 2 ^ 64).

(** [sha1.Sum] as a list of 20 bytes. *)
Definition Sum (msg : list Z) : list Z :=
  let p := pad msg in
  flat_map (bigEndian 4) (blocks (List.length p) init p).

End sha1.

Module hmac.

(** The state of [hmac.New(sha1.New, key)]: the two pads and what has been
    written to the inner hash after the inner pad. *)
Record HMAC : Type := { ipad : list Z; opad : list Z; written : list Z }.

Definition New (key : list Z) : HMAC :=
  let blocksize := sha1.BlockSize in
  let key := if (blocksize <? List.length key)%nat then sha1.Sum key else key in
  let padded := key ++ repeat 0 (blocksize - List.length key) in
  {| ipad := List.map (fun b => Z.lxor b 54) padded;   (* 0x36 *)
     opad := List.map (fun b => Z.lxor b 92) padded;   (* 0x5c *)
     written := [] |}.

(** [h.Write(p)]: a hash never fails to absorb its input. *)
Definition Write (h : HMAC) (p : list Z) : HMAC * (nat * option error) :=
  ({| ipad := ipad h; opad := opad h; written := written h ++ p |},
   (List.length p, None)).

(** [h.Sum(nil)] *)
Definition Sum (h : HMAC) : list Z :=
  sha1.Sum (opad h ++ sha1.Sum (ipad h ++ written h)).

End hmac.

(* ================================================================== *)
(** * fmt: the verb [%.8f] on a [float64] *)
(* ================================================================== *)

(** A [float64] is an IEEE-754 binary64 datum: [S754_finite s m e] is
    [(-1)^s * m * 2^e]. *)
Definition float64 : Type := spec_float.

Definition float64_valid (x : float64) : bool := valid_binary 53 1024 x.

Definition isFinite (x : float64) : bool :=
  match x with
  | S754_zero _ | S754_finite _ _ _ => true
  | S754_infinity _ | S754_nan => false
  end.

Module fmt.

Definition digitChar (d : Z) : ascii := ascii_of_byte (48 + d).

(** The decimal digits of a natural number, most significant first, ["0"]
    for zero. *)
Fixpoint uintDigits (d : Decimal.uint) : string :=
  match d with
  | Decimal.Nil => EmptyString
  | Decimal.D0 d' => String "0" (uintDigits d')
  | Decimal.D1 d' => String "1" (uintDigits d')
  | Decimal.D2 d' => String "2" (uintDigits d')
  | Decimal.D3 d' => String "3" (uintDigits d')
  | Decimal.D4 d' => String "4" (uintDigits d')
  | Decimal.D5 d' => String "5" (uintDigits d')
  | Decimal.D6 d' => String "6" (uintDigits d')
  | Decimal.D7 d' => String "7" (uintDigits d')
  | Decimal.D8 d' => String "8" (uintDigits d')
  | Decimal.D9 d' => String "9" (uintDigits d')
  end.

Definition decimal (n : Z) : string :=
  match n with
  | Zpos p => uintDigits (Pos.to_uint p)
  | _ => "0"
  end.

(** Exactly [k] decimal digits of [n], zero-padded on the left. *)
Fixpoint fixedDigits (k : nat) (n : Z) : string :=
  match k with
  | O => EmptyString
  | S k' => fixedDigits k' (n / 10) +++ String (digitChar (n mod 10)) EmptyString
  end.

(** [m * 2^e * 10^8] rounded to the nearest integer, ties to even: the
    conversion works on the exact decimal expansion of the datum. *)
Definition scaled8 (m : positive) (e : Z) : Z :=
  let n := Zpos m * 10 ^ 8 in
  if 0 <=? e then n * 2 ^ e
  else
    let d := 2 ^ (- e) in
    let q := n / d in
    let r := n mod d in
    match 2 * r ?= d with
    | Lt => q
    | Gt => q + 1
    | Eq => if Z.even q then q else q + 1
    end.

Definition sign (s : bool) : string := if s then "-" else "".

(** [fmt.Sprintf("%.8f", x)] *)
Definition Sprintf_8f (x : float64) : string :=
  match x with
  | S754_nan => "NaN"
  | S754_infinity false => "+Inf"
  | S754_infinity true => "-Inf"
  | S754_zero s => sign s +++ "0.00000000"
  | S754_finite s m e =>
      let q := scaled8 m e in
      sign s +++ decimal (q / 10 ^ 8) +++ "." +++ fixedDigits 8 (q mod 10 ^ 8)
  end.

(** [fmt.Sprintf("%.8f,%.8f", lat, lng)] *)
Definition Sprintf_latlng (lat lng : float64) : string :=
  Sprintf_8f lat +++ "," +++ Sprintf_8f lng.

End fmt.

(* ================================================================== *)
(** * net/url *)
(* ================================================================== *)

Module url.

(** The fields of [url.URL] the program reads or writes, and the ones
    [String] prints. *)
Record URL : Type := {
  Scheme : string;
  Opaque : string;
  Host : string;
  Path : string;
  RawPath : string;
  ForceQuery : bool;
  RawQuery : string;
  Fragment : string
}.

Definition setRawQuery (u : URL) (q : string) : URL :=
  {| Scheme := Scheme u; Opaque := Opaque u; Host := Host u; Path := Path u;
     RawPath := RawPath u; ForceQuery := ForceQuery u; RawQuery := q;
     Fragment := Fragment u |}.

Definition isAlnum (c : ascii) : bool :=
  let n := byte_of_ascii c in
  ((97 <=? n) && (n <=? 122)) || ((65 <=? n) && (n <=? 90))
  || ((48 <=? n) && (n <=? 57)).

(** [shouldEscape(c, encodeQueryComponent)]: only the unreserved
    characters of RFC 3986 go through. *)
Definition shouldEscape (c : ascii) : bool :=
  if isAlnum c then false
  else
    match c with
    | "-"%char | "_"%char | "."%char | "~"%char => false
    | _ => true
    end.

Definition upperhex (d : Z) : ascii :=
  match String.get (Z.to_nat d) "0123456789ABCDEF" with
  | Some c => c
  | None => "0"%char
  end.

(** What [escape] writes for one byte in mode [encodeQueryComponent]. *)
Definition escapeByte (c : ascii) : string :=
  if Ascii.eqb c " "%char then "+"
  else if shouldEscape c then
    String "%" (String (upperhex (Z.shiftr (byte_of_ascii c) 4))
                  (String (upperhex (Z.land (byte_of_ascii c) 15)) EmptyString))
  else String c EmptyString.

(** [url.QueryEscape] *)
Fixpoint QueryEscape (s : string) : string :=
  match s with
  | EmptyString => EmptyString
  | String c s' => escapeByte c +++ QueryEscape s'
  end.

Definition ishex (c : ascii) : bool :=
  let n := byte_of_ascii c in
  ((48 <=? n) && (n <=? 57)) || ((97 <=? n) && (n <=? 102))
  || ((65 <=? n) && (n <=? 70)).

Definition unhex (c : ascii) : Z :=
  let n := byte_of_ascii c in
  if (48 <=? n) && (n <=? 57) then n - 48
  else if (97 <=? n) && (n <=? 102) then n - 97 + 10
  else if (65 <=? n) && (n <=? 70) then n - 65 + 10
  else 0.

(** [url.QueryUnescape]; [None] is its [EscapeError]. *)
Fixpoint QueryUnescape (s : string) : option string :=
  match s with
  | EmptyString => Some EmptyString
  | String c s' =>
      if Ascii.eqb c "%"%char then
        match s' with
        | String h1 (String h2 s'') =>
            if ishex h1 && ishex h2 then
              option_map
                (String (ascii_of_byte (Z.lor (Z.shiftl (unhex h1) 4) (unhex h2))))
                (QueryUnescape s'')
            else None
        | _ => None
        end
      else if Ascii.eqb c "+"%char then option_map (String " ") (QueryUnescape s')
      else option_map (String c) (QueryUnescape s')
  end.

(** [strings.Cut] at a byte: the text before the first [sep], and the
    text after it when there is one. *)
Fixpoint cutAt (sep : ascii) (s : string) : string * option string :=
  match s with
  | EmptyString => (EmptyString, None)
  | String c s' =>
      if Ascii.eqb c sep then (EmptyString, Some s')
      else let '(before, after) := cutAt sep s' in (String c before, after)
  end.

(** [strings.Split] at a byte. *)
Fixpoint splitOn (sep : ascii) (s : string) : list string :=
  match s with
  | EmptyString => [EmptyString]
  | String c s' =>
      if Ascii.eqb c sep then EmptyString :: splitOn sep s'
      else
        match splitOn sep s' with
        | piece :: pieces => String c piece :: pieces
        | [] => [String c EmptyString]
        end
  end.

Definition keyValue (piece : string) : string * string :=
  let '(key, value) := cutAt "=" piece in
  (key, match value with Some v => v | None => EmptyString end).

(** The [key=value] pairs of a query string as they stand on the wire,
    in order and still escaped: the query is cut at every [&], empty
    pieces are skipped, each piece is cut at its first [=] (the splitting
    [url.ParseQuery] performs before it unescapes). *)
Definition rawParams (query : string) : list (string * string) :=
  List.map keyValue
    (List.filter (fun piece => negb (String.eqb piece "")) (splitOn "&" query)).

(** The pairs written back with [=] and [&]. *)
Definition joinRaw (ps : list (string * string)) : string :=
  String.concat "&" (List.map (fun kv => fst kv +++ "=" +++ snd kv) ps).


(** [url.Values] is a [map[string][]string]; the model keeps one entry
    per key, and no operation depends on the order of the entries. *)
Definition Values : Type := list (string * list string).

Fixpoint Add (v : Values) (key value : string) : Values :=
  match v with
  | [] => [(key, [value])]
  | (k, vs) :: v' =>
      if String.eqb k key then (k, vs ++ [value]) :: v'
      else (k, vs) :: Add v' key value
  end.

Fixpoint lookup (v : Values) (key : string) : list string :=
  match v with
  | [] => []
  | (k, vs) :: v' => if String.eqb k key then vs else lookup v' key
  end.

(** [slices.Sort] on strings (byte-wise lexicographic order). *)
Fixpoint insertSorted (k : string) (ks : list string) : list string :=
  match ks with
  | [] => [k]
  | k' :: ks' => if String.leb k k' then k :: ks else k' :: insertSorted k ks'
  end.

Definition sortStrings (ks : list string) : list string :=
  fold_right insertSorted [] ks.

(** One [key=value] pair written to the buffer of [Encode]. *)
Definition writePair (buf : string) (keyEscaped value : string) : string :=
  (if (0 <? String.length buf)%nat then buf +++ "&" else buf)
    +++ keyEscaped +++ "=" +++ QueryEscape value.

(** [Values.Encode]: keys in sorted order, the values of a key in the
    order they were added. *)
Definition Encode (v : Values) : string :=
  match v with
  | [] => ""
  | _ =>
      fold_left
        (fun buf k => fold_left (fun buf value => writePair buf (QueryEscape k) value)
                                (lookup v k) buf)
        (sortStrings (List.map fst v)) ""
  end.

End url.

(* ================================================================== *)
(** * types.go *)
(* ================================================================== *)

Record Coordinate : Type := { Lat : float64; Lng : float64 }.

Record Geometry : Type := { Location : Coordinate; LocationType : string }.

Record AddressComponent : Type := {
  LongName : string;
  ShortName : string;
  ac_Types : list string
}.

Record ResultSet : Type := {
  AddressComponents : list AddressComponent;
  FormattedAddress : string;
  rs_Geometry : Geometry;
  PlaceID : string;
  rs_Types : list string
}.

Definition GoogleResponseStatus : Type := string.

Record GoogleResponse : Type := {
  Results : list (option ResultSet);
  Status : GoogleResponseStatus
}.

Record BusinessKey : Type := {
  ClientID : string;
  SigningKey : string;
  Channel : string
}.

Definition GRS_ZERO_RESULTS : GoogleResponseStatus := "ZERO_RESULTS".
Definition GRS_REQUEST_DENIED : GoogleResponseStatus := "REQUEST_DENIED".
Definition GRS_INVALID_REQUEST : GoogleResponseStatus := "INVALID_REQUEST".
Definition GRS_UNKNOWN_ERROR : GoogleResponseStatus := "UNKNOWN_ERROR".
Definition GRS_OVER_QUERY_LIMIT : GoogleResponseStatus := "OVER_QUERY_LIMIT".
Definition GRS_OK : GoogleResponseStatus := "OK".

(* ================================================================== *)
(** * The collaborators: limiter, clock, transport, observer *)
(* ================================================================== *)

(** [time.Duration] and [time.Time] count nanoseconds. *)
Definition Duration : Type := Z.
Definition Time : Type := Z.

(** Values behind the interfaces the client is handed; the client only
    passes them on. *)
Inductive Context : Type := ContextHandle (id : nat).
Inductive HTTPClient : Type := HTTPClientHandle (id : nat).
Inductive RequestObserver : Type := RequestObserverHandle (id : nat).

(** [*http.Response], of which only the body is read. *)
Record Response : Type := { Body : string }.

Module rate.

(** [rate.Limit] is a [float64]; [rate.Limit(n)] converts a Go [int]
    (round to nearest even, exact up to 2^53). *)
Definition Limit : Type := float64.

Definition Limit_of_int (n : Z) : Limit := binary_normalize 53 1024 n 0 false.

(** A limit below zero: sign bit set on a non-zero datum. *)
Definition negative (l : Limit) : bool :=
  match l with
  | S754_finite true _ _ | S754_infinity true => true
  | _ => false
  end.

(** The configuration of a [rate.Limiter].  Its token count and time
    stamps belong to the clock-driven part of golang.org/x/time/rate and
    are not represented: [Wait] is an effect answered from outside. *)
Record Limiter : Type := { limit : Limit; burst : Z }.

Definition NewLimiter (r : Limit) (b : Z) : Limiter := {| limit := r; burst := b |}.

Definition SetLimit (lim : Limiter) (newLimit : Limit) : Limiter :=
  {| limit := newLimit; burst := burst lim |}.

End rate.

(* ================================================================== *)
(** * Programs with effects and panics *)
(* ================================================================== *)

(** The calls a [ReverseGeocode] makes to the outside, each with the type
    of its answer. *)
Inductive Effect : Type -> Type :=
| LimiterWait (ctx : Context) : Effect (option error)
| LimiterSetLimit (newLimit : rate.Limit) : Effect unit
| TimeSleep (d : Duration) : Effect unit
| TimeNow : Effect Time
| TimeSince (t : Time) : Effect Duration
| ClientGet (c : HTTPClient) (targetURL : string)
    : Effect (option Response * option error)
| ObserveHTTPRequest (o : RequestObserver) (label : string) (d : Duration)
    : Effect unit
| BodyClose (r : Response) : Effect unit.

(** A Go function body: it returns, panics, or performs a call and goes on
    with the answer. *)
Inductive Prog (A : Type) : Type :=
| Ret (a : A)
| Panic (msg : string)
| Vis (X : Type) (e : Effect X) (k : X -> Prog A).

Arguments Ret {A} a.
Arguments Panic {A} msg.
Arguments Vis {A X} e k.

Fixpoint bind {A B : Type} (p : Prog A) (f : A -> Prog B) : Prog B :=
  match p with
  | Ret a => f a
  | Panic msg => Panic msg
  | Vis e k => Vis e (fun x => bind (k x) f)
  end.

Definition perform {X : Type} (e : Effect X) : Prog X := Vis e Ret.

Declare Scope prog_scope.
Delimit Scope prog_scope with prog.
Notation "x <- p ;; q" := (bind p (fun x => q))
  (at level 61, p at next level, right associativity) : prog_scope.
Notation "' pat <- p ;; q" := (bind p (fun x => match x with pat => q end))
  (at level 61, pat pattern, p at next level, right associativity) : prog_scope.
Notation "p ;;; q" := (bind p (fun _ => q))
  (at level 61, right associativity) : prog_scope.

Definition nilDereference : string :=
  "runtime error: invalid memory address or nil pointer dereference".

(** [*p] on a pointer that may be nil. *)
Definition deref {A : Type} (p : option A) : Prog A :=
  match p with
  | Some a => Ret a
  | None => Panic nilDereference
  end.

(** ** Running a program

    An [Oracle] answers every call; [Event] records a call with its answer.
    The only call that changes the limiter's configuration is [SetLimit]. *)
Definition Oracle : Type := forall X : Type, Effect X -> X.

Inductive Event : Type := Ev (X : Type) (e : Effect X) (x : X).
Arguments Ev {X} e x.

Definition effectOn {X : Type} (e : Effect X) (lim : rate.Limiter) : rate.Limiter :=
  match e with
  | LimiterSetLimit newLimit => rate.SetLimit lim newLimit
  | _ => lim
  end.

Inductive Outcome (A : Type) : Type :=
| Returned (a : A)
| Panicked (msg : string).
Arguments Returned {A} a.
Arguments Panicked {A} msg.

Record Run (A : Type) : Type := {
  outcome : Outcome A;
  limiterAfter : rate.Limiter;
  trace : list Event
}.

Fixpoint runFrom {A : Type} (env : Oracle) (p : Prog A) (lim : rate.Limiter)
  (tr : list Event) : Run A :=
  match p with
  | Ret a => {| outcome := Returned a; limiterAfter := lim; trace := tr |}
  | Panic msg => {| outcome := Panicked msg; limiterAfter := lim; trace := tr |}
  | Vis e k => runFrom env (k (env _ e)) (effectOn e lim) (tr ++ [Ev e (env _ e)])
  end.

Definition run {A : Type} (env : Oracle) (p : Prog A) (lim : rate.Limiter) : Run A :=
  runFrom env p lim [].

(** ** encoding/json

    [json.NewDecoder(body).Decode(&res)] with [res] a nil [*GoogleResponse].
    The JSON literal [null] sets the pointer to nil and is no error; the
    decoding of any other document is the library's business and is a
    parameter [unmarshal] of the development. *)
Module json.

Definition isSpace (c : ascii) : bool :=
  let n := byte_of_ascii c in
  (n =? 32) || (n =? 9) || (n =? 13) || (n =? 10).

Fixpoint skipSpace (s : string) : string :=
  match s with
  | String c s' => if isSpace c then skipSpace s' else s
  | EmptyString => EmptyString
  end.

Definition isNullLiteral (body : string) : bool :=
  String.prefix "null" (skipSpace body).

Definition Decode (unmarshal : string -> GoogleResponse + error) (body : string)
  : option GoogleResponse * option error :=
  if isNullLiteral body then (None, None)
  else
    match unmarshal body with
    | inl res => (Some res, None)
    | inr err => (None, Some err)
    end.

End json.

Local Open Scope prog_scope.

(** [defer cleanup] followed by [body]: the deferred call runs when the
    function returns and also when it panics. *)
Fixpoint deferred {A : Type} (cleanup : Prog unit) (body : Prog A) : Prog A :=
  match body with
  | Ret a => cleanup ;;; Ret a
  | Panic msg => cleanup ;;; Panic msg
  | Vis e k => Vis e (fun x => deferred cleanup (k x))
  end.

(** The over-limit pause, lines 97-99 of geoc.go and 101-103 of part_000. *)
Definition cooldown (rps : Z) (overQuerySleepDuration : Duration) : Prog unit :=
  perform (LimiterSetLimit (rate.Limit_of_int 0)) ;;;
  perform (TimeSleep overQuerySleepDuration) ;;;
  perform (LimiterSetLimit (rate.Limit_of_int rps)).

(* ================================================================== *)
(** * src/geoc.go *)
(* ================================================================== *)

Module GeocGo.

Record Geocoder : Type := {
  businessKey : option BusinessKey;
  baseURL : string;
  language : string;
  client : option HTTPClient;
  rps : Z;
  overQuerySleepDuration : Duration;
  limiter : rate.Limiter
}.

Definition NewGeocoder (bkey : option BusinessKey) (baseURL language : string)
  (client : option HTTPClient) (requestPerSecond : Z)
  (overQuerySleepDuration : Duration) : option Geocoder * option error :=
  match bkey with
  | None => (None, Some (ErrorsNew "empty BusinessKey"))
  | Some _ =>
      if String.eqb baseURL "" then
        (None, Some (ErrorsNew
           "empty baseURL, use https://maps.googleapis.com/maps/api/geocode/json"))
      else
        match client with
        | None => (None, Some (ErrorsNew "empty HTTPClient"))
        | Some _ =>
            if requestPerSecond <=? 0 then
              (None, Some (ErrorsNew "requestPerSecond must be a positive number"))
            else
              (Some {| businessKey := bkey;
                       baseURL := baseURL;
                       language := language;
                       client := client;
                       rps := requestPerSecond;
                       overQuerySleepDuration := overQuerySleepDuration;
                       limiter := rate.NewLimiter (rate.Limit_of_int requestPerSecond) 1 |},
               None)
        end
  end.

Definition buildURL (g : Geocoder) (lat lng : float64) : string :=
  let result := baseURL g +++ "?latlng=" +++ fmt.Sprintf_latlng lat lng +++ "&sensor=false" in
  let result :=
    if negb (String.eqb (language g) "")
    then result +++ "&language=" +++ url.QueryEscape (language g)
    else result in
  match businessKey g with
  | Some bk =>
      let result := result +++ "&client=" +++ url.QueryEscape (ClientID bk) in
      if negb (String.eqb (Channel bk) "")
      then result +++ "&channel=" +++ url.QueryEscape (Channel bk)
      else result
  | None => result
  end.

Definition getSignature (g : Geocoder) (targetURL : string)
  : Prog (string * option error) :=
  bk <- deref (businessKey g) ;;
  let sKey := ReplaceAll (SigningKey bk) "-" "+" in
  let sKey := ReplaceAll sKey "_" "/" in
  let '(signingKeyBytes, err) := base64.DecodeString sKey in
  match err with
  | Some _ => Ret ("", err)
  | None =>
      let h := hmac.New signingKeyBytes in
      let '(h, (_, err)) := hmac.Write h (bytes_of_string targetURL) in
      let hash := base64.EncodeToString (hmac.Sum h) in
      let hash := ReplaceAll hash "+" "-" in
      let hash := ReplaceAll hash "/" "_" in
      Ret (hash, err)
  end.

Section Collaborators.

(** [url.Parse] and the decoding of a JSON document other than [null]. *)
Variable url_Parse : string -> url.URL + error.
Variable unmarshal : string -> GoogleResponse + error.

(** Lines 72-83 of [ReverseGeocode]: the URL that is requested. *)
Definition signedURL (g : Geocoder) (lat lng : float64)
  : Prog (string * option error) :=
  let targetURL := buildURL g lat lng in
  match url_Parse targetURL with
  | inr err => Ret ("", Some err)
  | inl ur =>
      ' (signature, err) <- getSignature g (url.Path ur +++ "?" +++ url.RawQuery ur) ;;
      match err with
      | Some _ => Ret ("", err)
      | None => Ret (targetURL +++ "&signature=" +++ signature, None)
      end
  end.

Definition ReverseGeocode (g : Geocoder) (ctx : Context) (lat lng : float64)
  : Prog (option GoogleResponse * option error) :=
  err <- perform (LimiterWait ctx) ;;
  match err with
  | Some _ => Ret (None, err)
  | None =>
      ' (targetURL, err) <- signedURL g lat lng ;;
      match err with
      | Some _ => Ret (None, err)
      | None =>
          c <- deref (client g) ;;
          ' (resp, err) <- perform (ClientGet c targetURL) ;;
          match err with
          | Some _ => Ret (None, err)
          | None =>
              resp <- deref resp ;;
              let '(res, err) := json.Decode unmarshal (Body resp) in
              match err with
              | Some _ => Ret (None, err)
              | None =>
                  deferred (perform (BodyClose resp))
                    (res <- deref res ;;
                     (if String.eqb (Status res) GRS_OVER_QUERY_LIMIT
                      then cooldown (rps g) (overQuerySleepDuration g)
                      else Ret tt) ;;;
                     Ret (Some res, None))
              end
          end
      end
  end.

End Collaborators.

End GeocGo.

(* ================================================================== *)
(** * src/unnamed/part_000 *)
(* ================================================================== *)

Module Part000.

Record Geocoder : Type := {
  businessKey : option BusinessKey;
  baseURL : string;
  language : string;
  client : option HTTPClient;
  rps : Z;
  overQuerySleepDuration : Duration;
  observer : option RequestObserver;
  limiter : rate.Limiter
}.

Definition NewGeocoder (bkey : option BusinessKey) (baseURL language : string)
  (client : option HTTPClient) (requestPerSecond : Z)
  (overQuerySleepDuration : Duration) (observer : option RequestObserver)
  : option Geocoder * option error :=
  match bkey with
  | None => (None, Some (ErrorsNew "empty BusinessKey"))
  | Some _ =>
      if String.eqb baseURL "" then
        (None, Some (ErrorsNew
           "empty baseURL, use https://maps.googleapis.com/maps/api/geocode/json"))
      else
        match client with
        | None => (None, Some (ErrorsNew "empty HTTPClient"))
        | Some _ =>
            if requestPerSecond <=? 0 then
              (None, Some (ErrorsNew "requestPerSecond must be a positive number"))
            else
              (Some {| businessKey := bkey;
                       baseURL := baseURL;
                       language := language;
                       client := client;
                       rps := requestPerSecond;
                       overQuerySleepDuration := overQuerySleepDuration;
                       observer := observer;
                       limiter := rate.NewLimiter (rate.Limit_of_int requestPerSecond) 1 |},
               None)
        end
  end.

Definition getSignature (g : Geocoder) (targetURL : string)
  : Prog (string * option error) :=
  bk <- deref (businessKey g) ;;
  let sKey := ReplaceAll (SigningKey bk) "-" "+" in
  let sKey := ReplaceAll sKey "_" "/" in
  let '(signingKeyBytes, err) := base64.DecodeString sKey in
  match err with
  | Some _ => Ret ("", err)
  | None =>
      let h := hmac.New signingKeyBytes in
      let '(h, (_, err)) := hmac.Write h (bytes_of_string targetURL) in
      match err with
      | Some _ => Ret ("", err)
      | None =>
          let hash := base64.EncodeToString (hmac.Sum h) in
          let hash := ReplaceAll hash "+" "-" in
          let hash := ReplaceAll hash "/" "_" in
          Ret (hash, None)
      end
  end.

(** Lines 116-127 of [buildURL]: the query before it is signed. *)
Definition unsignedQuery (g : Geocoder) (lat lng : float64) : url.Values :=
  let query : url.Values := [] in
  let query := url.Add query "latlng" (fmt.Sprintf_latlng lat lng) in
  let query := url.Add query "sensor" "false" in
  let query :=
    if negb (String.eqb (language g) "")
    then url.Add query "language" (language g)
    else query in
  match businessKey g with
  | Some bk =>
      let query := url.Add query "client" (ClientID bk) in
      if negb (String.eqb (Channel bk) "")
      then url.Add query "channel" (Channel bk)
      else query
  | None => query
  end.

Section Collaborators.

(** [url.Parse], [URL.String] and the decoding of a JSON document other
    than [null]. *)
Variable url_Parse : string -> url.URL + error.
Variable URL_String : url.URL -> string.
Variable unmarshal : string -> GoogleResponse + error.

Definition buildURL (g : Geocoder) (lat lng : float64)
  : Prog (option url.URL * option error) :=
  match url_Parse (baseURL g) with
  | inr err => Ret (None, Some err)
  | inl ur =>
      let query := unsignedQuery g lat lng in
      let ur := url.setRawQuery ur (url.Encode query) in
      ' (signature, err) <- getSignature g (url.Path ur +++ "?" +++ url.RawQuery ur) ;;
      match err with
      | Some _ => Ret (None, err)
      | None =>
          let query := url.Add query "signature" signature in
          let ur := url.setRawQuery ur (url.Encode query) in
          Ret (Some ur, None)
      end
  end.

Definition ReverseGeocode (g : Geocoder) (ctx : Context) (lat lng : float64)
  : Prog (option GoogleResponse * option error) :=
  err <- perform (LimiterWait ctx) ;;
  match err with
  | Some _ => Ret (None, err)
  | None =>
      ' (ur, err) <- buildURL g lat lng ;;
      match err with
      | Some _ => Ret (None, err)
      | None =>
          t <- perform TimeNow ;;
          ur <- deref ur ;;
          c <- deref (client g) ;;
          ' (resp, err) <- perform (ClientGet c (URL_String ur)) ;;
          match err with
          | Some _ => Ret (None, err)
          | None =>
              resp <- deref resp ;;
              deferred (perform (BodyClose resp))
                (match observer g with
                 | Some o =>
                     d <- perform (TimeSince t) ;;
                     perform (ObserveHTTPRequest o "google" d)
                 | None => Ret tt
                 end ;;;
                 let '(res, err) := json.Decode unmarshal (Body resp) in
                 match err with
                 | Some _ => Ret (None, err)
                 | None =>
                     res <- deref res ;;
                     (if String.eqb (Status res) GRS_OVER_QUERY_LIMIT
                      then cooldown (rps g) (overQuerySleepDuration g)
                      else Ret tt) ;;;
                     Ret (Some res, None)
                 end)
          end
      end
  end.

End Collaborators.

End Part000.

(* ================================================================== *)
(** * The signer as section 4.2 of the specification words it *)
(* ================================================================== *)

Module Reference.

(** Step 1: URL-safe alphabet to standard alphabet. *)
Definition toStandard (c : ascii) : ascii :=
  if Ascii.eqb c "-" then "+"%char
  else if Ascii.eqb c "_" then "/"%char
  else c.

(** Step 3: standard alphabet to URL-safe alphabet. *)
Definition toURLSafe (c : ascii) : ascii :=
  if Ascii.eqb c "+" then "-"%char
  else if Ascii.eqb c "/" then "_"%char
  else c.

(** Step 2: HMAC (RFC 2104) with SHA-1, whose digest has 160 bits:
    [H((K xor opad) || H((K xor ipad) || text))], the key being hashed
    first when it is longer than a block and then zero-filled. *)
Definition HMAC_SHA1 (key text : list Z) : list Z :=
  let k := if (64 <? List.length key)%nat then sha1.Sum key else key in
  let k := k ++ repeat 0 (64 - List.length k) in
  sha1.Sum (List.map (Z.lxor 92) k ++ sha1.Sum (List.map (Z.lxor 54) k ++ text)).

(** [sign]: an error when the key does not decode, the signature
    otherwise; the padding is kept. *)
Definition sign (secretKey input : string) : error + string :=
  match base64.DecodeString (string_map toStandard secretKey) with
  | (_, Some err) => inl err
  | (key, None) =>
      inr (string_map toURLSafe
             (base64.EncodeToString (HMAC_SHA1 key (bytes_of_string input))))
  end.

(** The way a Go function hands back an error or a value. *)
Definition asGoResult (r : error + string) : string * option error :=
  match r with
  | inl err => ("", Some err)
  | inr signature => (signature, None)
  end.

End Reference.

(** The fixture of the test suites. *)
Definition fixtureKey : BusinessKey :=
  {| ClientID := "my_test_client"; SigningKey := "bXlfdGVzdF9rZXk="; Channel := "grg-local" |}.

Definition fixtureInput : string :=
  "/maps/api/geocode/xml?latlng=49.17584440,7.30196070&sensor=false&client=my_test_client&channel=grg-local".

Definition fixtureEndpoint : string := "https://maps.googleapis.com/maps/api/geocode/json".

(* ================================================================== *)
(** * Vocabulary of the properties *)
(* ================================================================== *)

Definition isDigit (c : ascii) : bool :=
  (48 <=? byte_of_ascii c) && (byte_of_ascii c <=? 57).



(** Keys in strictly ascending byte-wise lexicographic order. *)
Fixpoint ascending (ks : list string) : bool :=
  match ks with
  | k :: ((k' :: _) as ks') => String.ltb k k' && ascending ks'
  | _ => true
  end.

Definition Result : Type := option GoogleResponse * option error.

(** The calls of a trace that touch the throttle: [SetLimit] and [Sleep]. *)
Definition isThrottleEvent (ev : Event) : bool :=
  match ev with
  | Ev (LimiterSetLimit _) _ | Ev (TimeSleep _) _ => true
  | Ev _ _ => false
  end.

Definition throttleEvents (tr : list Event) : list Event :=
  List.filter isThrottleEvent tr.

(** The URLs handed to the transport, in order. *)
Definition requestedURL (ev : Event) : option string :=
  match ev with
  | Ev (ClientGet _ targetURL) _ => Some targetURL
  | Ev _ _ => None
  end.

Fixpoint requestedURLs (tr : list Event) : list string :=
  match tr with
  | [] => []
  | ev :: tr' =>
      match requestedURL ev with
      | Some targetURL => targetURL :: requestedURLs tr'
      | None => requestedURLs tr'
      end
  end.

(** The trace of the over-limit pause. *)
Definition cooldownEvents (rps : Z) (d : Duration) : list Event :=
  [Ev (LimiterSetLimit (rate.Limit_of_int 0)) tt;
   Ev (TimeSleep d) tt;
   Ev (LimiterSetLimit (rate.Limit_of_int rps)) tt].

(** ** A client and the calls in flight

    The limiter is shared by all the calls made on one client.  A client
    either starts a call or lets one call in flight perform its next effect,
    whatever the answer; calls interleave freely. *)
Record Client : Type := {
  throttle : rate.Limiter;
  calls : list (Prog Result)
}.

Fixpoint setNth {A : Type} (i : nat) (a : A) (l : list A) {struct l} : list A :=
  match l with
  | [] => []
  | b :: l' =>
      match i with
      | O => a :: l'
      | S i' => b :: setNth i' a l'
      end
  end.

Inductive clientStep (call : Context -> float64 -> float64 -> Prog Result)
  : Client -> option Event -> Client -> Prop :=
| step_start (s : Client) (ctx : Context) (lat lng : float64) :
    clientStep call s None
      {| throttle := throttle s; calls := calls s ++ [call ctx lat lng] |}
| step_effect (s : Client) (i : nat) (X : Type) (e : Effect X) (k : X -> Prog Result)
    (x : X) :
    nth_error (calls s) i = Some (Vis e k) ->
    clientStep call s (Some (Ev e x))
      {| throttle := effectOn e (throttle s); calls := setNth i (k x) (calls s) |}.

Inductive reachable (call : Context -> float64 -> float64 -> Prog Result)
  (lim0 : rate.Limiter) : Client -> Prop :=
| reachable_new : reachable call lim0 {| throttle := lim0; calls := [] |}
| reachable_step (s s' : Client) (ev : option Event) :
    reachable call lim0 s -> clientStep call s ev s' -> reachable call lim0 s'.

(** The limit an effect installs, when it is a [SetLimit]. *)
Definition installs {X : Type} (e : Effect X) : option rate.Limit :=
  match e with
  | LimiterSetLimit newLimit => Some newLimit
  | _ => None
  end.

(** Every [SetLimit] a program can ever perform carries a limit from [ok]. *)
Fixpoint setsOnly (ok : rate.Limit -> Prop) {A : Type} (p : Prog A) : Prop :=
  match p with
  | Ret _ | Panic _ => True
  | Vis e k => (forall l, installs e = Some l -> ok l) /\ (forall x, setsOnly ok (k x))
  end.

(** A program that performs no effect: it returns or panics at once. *)
Definition isPure {A : Type} (p : Prog A) : Prop :=
  match p with
  | Vis _ _ => False
  | _ => True
  end.

(** ** The canonical query of part_000, pair by pair

    The parameters [Part000.unsignedQuery] holds, listed in the order
    [Values.Encode] writes them. *)
Definition canonicalPairs (g : Part000.Geocoder) (lat lng : float64)
  : list (string * string) :=
  match Part000.businessKey g with
  | Some bk =>
      (if String.eqb (Channel bk) "" then [] else [("channel", Channel bk)])
        ++ [("client", ClientID bk)]
  | None => []
  end
  ++ (if String.eqb (Part000.language g) "" then []
      else [("language", Part000.language g)])
  ++ [("latlng", fmt.Sprintf_latlng lat lng); ("sensor", "false")].

Definition escapePair (kv : string * string) : string * string :=
  (url.QueryEscape (fst kv), url.QueryEscape (snd kv)).

(** A byte that can stand inside a key or a value without being taken for
    a separator. *)
Definition wireSafe (c : ascii) : bool :=
  negb (Ascii.eqb c "&") && negb (Ascii.eqb c "=").

Definition wireSafePair (kv : string * string) : Prop :=
  string_forall wireSafe (fst kv) = true /\ string_forall wireSafe (snd kv) = true.

(** ** The query of geoc.go, pair by pair

    The [key=value] pairs [GeocGo.buildURL] writes after the [?], as they
    stand on the wire. *)
Definition writtenPairs (g : GeocGo.Geocoder) (lat lng : float64)
  : list (string * string) :=
  [("latlng", fmt.Sprintf_latlng lat lng); ("sensor", "false")]
  ++ (if String.eqb (GeocGo.language g) "" then []
      else [("language", url.QueryEscape (GeocGo.language g))])
  ++ match GeocGo.businessKey g with
     | Some bk =>
         [("client", url.QueryEscape (ClientID bk))]
           ++ (if String.eqb (Channel bk) "" then []
               else [("channel", url.QueryEscape (Channel bk))])
     | None => []
     end.

(* ================================================================== *)
(** * Sample data: the fixtures of the test suites *)
(* ================================================================== *)

(** 45.32, 12.67, 49.17584440 and 7.30196070 as binary64 data. *)
Definition f45_32 : float64 := S754_finite false 6378222972263465 (-47).
Definition f12_67 : float64 := S754_finite false 7132575909848023 (-49).
Definition f49_1758444 : float64 := S754_finite false 6920884828608422 (-47).
Definition f7_3019607 : float64 := S754_finite false 8221276871898502 (-50).

(** What [url.Parse] answers on the endpoint of the tests, bare or followed
    by a query; this sample refuses everything else. *)
Definition sampleParse (rawURL : string) : url.URL + error :=
  let '(u, q) := url.cutAt "?" rawURL in
  if String.eqb u fixtureEndpoint then
    inl {| url.Scheme := "https";
           url.Opaque := "";
           url.Host := "maps.googleapis.com";
           url.Path := "/maps/api/geocode/json";
           url.RawPath := "";
           url.ForceQuery := false;
           url.RawQuery := match q with Some q => q | None => "" end;
           url.Fragment := "" |}
  else inr (UrlError "parse").

(** [URL.String] on the results of [sampleParse]. *)
Definition sampleString (u : url.URL) : string :=
  url.Scheme u +++ "://" +++ url.Host u +++ url.Path u
    +++ (if String.eqb (url.RawQuery u) "" then "" else "?" +++ url.RawQuery u).

Definition quote : string := String "034"%char EmptyString.

(** The body [{"status":"OVER_QUERY_LIMIT"}] of the tests. *)
Definition overLimitBody : string :=
  "{" +++ quote +++ "status" +++ quote +++ ":" +++ quote +++ "OVER_QUERY_LIMIT" +++ quote +++ "}".

Definition okBody : string :=
  "{" +++ quote +++ "status" +++ quote +++ ":" +++ quote +++ "OK" +++ quote +++ "}".

(** The decoding of the two bodies above; this sample refuses everything
    else. *)
Definition sampleUnmarshal (body : string) : GoogleResponse + error :=
  if String.eqb body overLimitBody then
    inl {| Results := []; Status := GRS_OVER_QUERY_LIMIT |}
  else if String.eqb body okBody then
    inl {| Results := []; Status := GRS_OK |}
  else inr (JsonError "unexpected end of JSON input").

(** The clients of [Test_ReverseGeocode]: five requests per second, a pause
    of 100 ms. *)
Definition sampleGeocGo : GeocGo.Geocoder :=
  {| GeocGo.businessKey := Some fixtureKey;
     GeocGo.baseURL := fixtureEndpoint;
     GeocGo.language := "en";
     GeocGo.client := Some (HTTPClientHandle 0);
     GeocGo.rps := 5;
     GeocGo.overQuerySleepDuration := 100000000;
     GeocGo.limiter := rate.NewLimiter (rate.Limit_of_int 5) 1 |}.

Definition samplePart000 : Part000.Geocoder :=
  {| Part000.businessKey := Some fixtureKey;
     Part000.baseURL := fixtureEndpoint;
     Part000.language := "en";
     Part000.client := Some (HTTPClientHandle 0);
     Part000.rps := 5;
     Part000.overQuerySleepDuration := 100000000;
     Part000.observer := None;
     Part000.limiter := rate.NewLimiter (rate.Limit_of_int 5) 1 |}.

(** An outside world in which the limiter lets the call through after
    answering [wait] and the transport answers [got]. *)
Definition answering (wait : option error) (got : option Response * option error)
  : Oracle :=
  fun X e =>
    match e in Effect X return X with
    | LimiterWait _ => wait
    | LimiterSetLimit _ => tt
    | TimeSleep _ => tt
    | TimeNow => 0
    | TimeSince _ => 0
    | ClientGet _ _ => got
    | ObserveHTTPRequest _ _ _ => tt
    | BodyClose _ => tt
    end.





(** ** Calls that get as far as decoding

    The limiter lets the call through, the URL is built, the transport
    answers without an error, and the decoder yields [res] and [err]. *)
Definition decodesGeocGo (url_Parse : string -> url.URL + error)
  (unmarshal : string -> GoogleResponse + error) (env : Oracle)
  (g : GeocGo.Geocoder) (ctx : Context) (lat lng : float64)
  (resp : Response) (res : option GoogleResponse) (err : option error) : Prop :=
  env _ (LimiterWait ctx) = None
  /\ exists (targetURL : string) (c : HTTPClient),
       GeocGo.signedURL url_Parse g lat lng = Ret (targetURL, None)
       /\ GeocGo.client g = Some c
       /\ env _ (ClientGet c targetURL) = (Some resp, None)
       /\ json.Decode unmarshal (Body resp) = (res, err).

Definition decodesPart000 (url_Parse : string -> url.URL + error)
  (URL_String : url.URL -> string)
  (unmarshal : string -> GoogleResponse + error) (env : Oracle)
  (g : Part000.Geocoder) (ctx : Context) (lat lng : float64)
  (resp : Response) (res : option GoogleResponse) (err : option error) : Prop :=
  env _ (LimiterWait ctx) = None
  /\ exists (ur : url.URL) (c : HTTPClient),
       Part000.buildURL url_Parse g lat lng = Ret (Some ur, None)
       /\ Part000.client g = Some c
       /\ env _ (ClientGet c (URL_String ur)) = (Some resp, None)
       /\ json.Decode unmarshal (Body resp) = (res, err).

(** The two limits the client ever installs. *)
Definition steadyOrSuspended (rps : Z) (l : rate.Limit) : Prop :=
  l = rate.Limit_of_int rps \/ l = rate.Limit_of_int 0.

(** The invariant of the throttle, with what keeps it inductive: the calls
    in flight can only install one of the two limits. *)
Definition throttleInvariant (rps : Z) (s : Client) : Prop :=
  steadyOrSuspended rps (rate.limit (throttle s))
  /\ rate.burst (throttle s) = 1
  /\ Forall (setsOnly (steadyOrSuspended rps)) (calls s).

(** What is claimed of the throttle of a client whose limiter starts as
    [lim0] and whose calls are [call]: in every reachable state the limit is
    the configured rate or 0, it is not negative, the burst is 1, and a step
    either leaves the limiter alone or is a [SetLimit] to one of the two
    limits; and within one call the throttle is either not touched at all or
    goes through exactly [SetLimit 0], [Sleep d], [SetLimit rps], in this
    order. *)
Definition throttleLaw (rps : Z) (d : Duration) (lim0 : rate.Limiter)
  (call : Context -> float64 -> float64 -> Prog Result) : Prop :=
  (forall s : Client,
      reachable call lim0 s ->
      steadyOrSuspended rps (rate.limit (throttle s))
      /\ rate.negative (rate.limit (throttle s)) = false
      /\ rate.burst (throttle s) = 1
      /\ forall (ev : option Event) (s' : Client),
           clientStep call s ev s' ->
           throttle s' = throttle s
           \/ exists l : rate.Limit,
                steadyOrSuspended rps l
                /\ ev = Some (Ev (LimiterSetLimit l) tt)
                /\ throttle s' = rate.SetLimit (throttle s) l)
  /\ (forall (env : Oracle) (ctx : Context) (lat lng : float64) (lim : rate.Limiter),
         let tr := throttleEvents (trace (run env (call ctx lat lng) lim)) in
         tr = [] \/ tr = cooldownEvents rps d).

(** The text after the first [?] of a URL. *)
Definition queryOf (rawURL : string) : string :=
  match snd (url.cutAt "?" rawURL) with
  | Some q => q
  | None => ""
  end.

(** What [Test_buildURL] expects for (45.32, 12.67). *)
Definition expectedQuery : string :=
  "channel=grg-local&client=my_test_client&language=en&latlng=45.32000000%2C12.67000000&sensor=false&signature=bdwh-bmlibC2w2N_A2tgt7pSuAE%3D".

Definition expectedURL : url.URL :=
  {| url.Scheme := "https";
     url.Opaque := "";
     url.Host := "maps.googleapis.com";
     url.Path := "/maps/api/geocode/json";
     url.RawPath := "";
     url.ForceQuery := false;
     url.RawQuery := expectedQuery;
     url.Fragment := "" |}.



Definition requestedGeocGo : string :=
  "https://maps.googleapis.com/maps/api/geocode/json?latlng=45.32000000,12.67000000&sensor=false&language=en&client=my_test_client&channel=grg-local&signature=SXFwcnryrwDrxCKy6j34WHLrK_s=".

Definition overLimitResponse : GoogleResponse :=
  {| Results := []; Status := GRS_OVER_QUERY_LIMIT |}.

(** The outside worlds of [Test_ReverseGeocode]: a transport that fails
    (and hands a response back all the same), one that answers
    OVER_QUERY_LIMIT, and one that answers the JSON literal [null]. *)
Definition failingTransport : Oracle :=
  answering None (Some {| Body := "" |}, Some (ErrorsNew "failed")).

Definition overLimitTransport : Oracle :=
  answering None (Some {| Body := overLimitBody |}, None).

Definition nullTransport : Oracle :=
  answering None (Some {| Body := "null" |}, None).

(* ================================================================== *)
(** * Vocabulary of the further properties *)
(* ================================================================== *)

(** The responses whose body a trace closes, in order. *)
Definition closedBody (ev : Event) : option Response :=
  match ev with
  | Ev (BodyClose r) _ => Some r
  | Ev _ _ => None
  end.

Fixpoint closedBodies (tr : list Event) : list Response :=
  match tr with
  | [] => []
  | ev :: tr' =>
      match closedBody ev with
      | Some r => r :: closedBodies tr'
      | None => closedBodies tr'
      end
  end.

(** What a trace reports to observers, in order. *)
Definition observation (ev : Event) : option (RequestObserver * string * Duration) :=
  match ev with
  | Ev (ObserveHTTPRequest o label d) _ => Some (o, label, d)
  | Ev _ _ => None
  end.

Fixpoint observations (tr : list Event) : list (RequestObserver * string * Duration) :=
  match tr with
  | [] => []
  | ev :: tr' =>
      match observation ev with
      | Some o => o :: observations tr'
      | None => observations tr'
      end
  end.

(** ** Calls that get as far as the transport

    The limiter lets the call through, the URL is built and signed, the
    client has a transport, and the transport gives [answer]. *)
Definition answersGeocGo (url_Parse : string -> url.URL + error) (env : Oracle)
  (g : GeocGo.Geocoder) (ctx : Context) (lat lng : float64)
  (answer : option Response * option error) : Prop :=
  env _ (LimiterWait ctx) = None
  /\ exists (targetURL : string) (c : HTTPClient),
       GeocGo.signedURL url_Parse g lat lng = Ret (targetURL, None)
       /\ GeocGo.client g = Some c
       /\ env _ (ClientGet c targetURL) = answer.

Definition answersPart000 (url_Parse : string -> url.URL + error)
  (URL_String : url.URL -> string) (env : Oracle)
  (g : Part000.Geocoder) (ctx : Context) (lat lng : float64)
  (answer : option Response * option error) : Prop :=
  env _ (LimiterWait ctx) = None
  /\ exists (ur : url.URL) (c : HTTPClient),
       Part000.buildURL url_Parse g lat lng = Ret (Some ur, None)
       /\ Part000.client g = Some c
       /\ env _ (ClientGet c (URL_String ur)) = answer.

(** The characters of the URL-safe base64 alphabet, padding apart. *)
Definition urlSafeChar (c : ascii) : bool :=
  url.isAlnum c || Ascii.eqb c "-" || Ascii.eqb c "_".

(** The shape of a signature: 27 URL-safe characters and one [=]. *)
Definition isSignatureText (s : string) : bool :=
  Nat.eqb (String.length s) 28
  && string_forall urlSafeChar (String.substring 0 27 s)
  && String.eqb (String.substring 27 1 s) "=".

(** Keys and values of wire pairs, unescaped; [None] when one of them is
    not a well-formed escape. *)
Fixpoint unescapePairs (ps : list (string * string)) : option (list (string * string)) :=
  match ps with
  | [] => Some []
  | (k, v) :: ps' =>
      match url.QueryUnescape k, url.QueryUnescape v, unescapePairs ps' with
      | Some k', Some v', Some ps'' => Some ((k', v') :: ps'')
      | _, _, _ => None
      end
  end.

(** The values a list of pairs gives to [key], in order. *)
Definition valuesOf (key : string) (ps : list (string * string)) : list string :=
  List.map snd (List.filter (fun kv => String.eqb (fst kv) key) ps).

(** [p] gets to [p'] by effects that leave the limiter alone, for some
    answers of the outside world. *)
Inductive advances {A : Type} : Prog A -> Prog A -> Prop :=
| advances_refl (p : Prog A) : advances p p
| advances_step (X : Type) (e : Effect X) (k : X -> Prog A) (x : X) (p' : Prog A) :
    installs e = None -> advances (k x) p' -> advances (Vis e k) p'.

(** A call that has set the limit to 0 and has its sleep and its resume
    still ahead. *)
Definition pausing (rps : Z) (d : Duration) (p : Prog Result) : Prop :=
  exists k : unit -> Prog Result,
    p = Vis (TimeSleep d) (fun _ => Vis (LimiterSetLimit (rate.Limit_of_int rps)) k).

(** Two calls on one client can overlap so that the resume of one ends the
    suspension while the other has its whole sleep still ahead: some
    reachable state [s1] has the limit at 0 and a call [j] pausing, and one
    step of another call takes it to a state [s2] where the limit is the
    configured rate again and call [j] has not moved. *)
Definition resumedEarly (call : Context -> float64 -> float64 -> Prog Result)
  (lim0 : rate.Limiter) (rps : Z) (d : Duration) : Prop :=
  exists (s1 s2 : Client) (ev : option Event) (j : nat) (p : Prog Result),
    reachable call lim0 s1
    /\ clientStep call s1 ev s2
    /\ rate.limit (throttle s1) = rate.Limit_of_int 0
    /\ rate.limit (throttle s2) = rate.Limit_of_int rps
    /\ nth_error (calls s1) j = Some p
    /\ nth_error (calls s2) j = Some p
    /\ pausing rps d p.

(** The contexts a trace waits on the limiter with, in order. *)
Definition waitedOn (ev : Event) : option Context :=
  match ev with
  | Ev (LimiterWait ctx) _ => Some ctx
  | Ev _ _ => None
  end.

Fixpoint waits (tr : list Event) : list Context :=
  match tr with
  | [] => []
  | ev :: tr' =>
      match waitedOn ev with
      | Some ctx => ctx :: waits tr'
      | None => waits tr'
      end
  end.

(** Calls made one after the other on one limiter, each in an outside
    world of its own and run to its end (a panic being recovered by the
    caller): the limiter a call finds is the one the previous call left. *)
Fixpoint limiterAfterCalls (call : Context -> float64 -> float64 -> Prog Result)
  (lim : rate.Limiter) (cs : list (Oracle * (Context * (float64 * float64))))
  : rate.Limiter :=
  match cs with
  | [] => lim
  | (env, (ctx, (lat, lng))) :: cs' =>
      limiterAfterCalls call (limiterAfter (run env (call ctx lat lng) lim)) cs'
  end.

(* ================================================================== *)
(** * Sample data of the further properties *)
(* ================================================================== *)

(** A credential whose signing key is not base64, and the clients built
    on it. *)
Definition malformedKey : BusinessKey :=
  {| ClientID := "my_test_client"; SigningKey := "not*base64"; Channel := "" |}.

Definition malformedKeyGeocGo : GeocGo.Geocoder :=
  {| GeocGo.businessKey := Some malformedKey;
     GeocGo.baseURL := fixtureEndpoint;
     GeocGo.language := "en";
     GeocGo.client := Some (HTTPClientHandle 0);
     GeocGo.rps := 5;
     GeocGo.overQuerySleepDuration := 100000000;
     GeocGo.limiter := rate.NewLimiter (rate.Limit_of_int 5) 1 |}.

Definition malformedKeyPart000 : Part000.Geocoder :=
  {| Part000.businessKey := Some malformedKey;
     Part000.baseURL := fixtureEndpoint;
     Part000.language := "en";
     Part000.client := Some (HTTPClientHandle 0);
     Part000.rps := 5;
     Part000.overQuerySleepDuration := 100000000;
     Part000.observer := None;
     Part000.limiter := rate.NewLimiter (rate.Limit_of_int 5) 1 |}.

(** A client whose base URL [sampleParse] refuses. *)
Definition strayPart000 : Part000.Geocoder :=
  {| Part000.businessKey := Some fixtureKey;
     Part000.baseURL := "http://[::1";
     Part000.language := "en";
     Part000.client := Some (HTTPClientHandle 0);
     Part000.rps := 5;
     Part000.overQuerySleepDuration := 100000000;
     Part000.observer := None;
     Part000.limiter := rate.NewLimiter (rate.Limit_of_int 5) 1 |}.

(** The client of the tests with an observer. *)
Definition observedPart000 : Part000.Geocoder :=
  {| Part000.businessKey := Some fixtureKey;
     Part000.baseURL := fixtureEndpoint;
     Part000.language := "en";
     Part000.client := Some (HTTPClientHandle 0);
     Part000.rps := 5;
     Part000.overQuerySleepDuration := 100000000;
     Part000.observer := Some (RequestObserverHandle 0);
     Part000.limiter := rate.NewLimiter (rate.Limit_of_int 5) 1 |}.

(** One key written in the URL-safe and in the standard alphabet, and a
    client on each. *)
Definition urlSafeKey : BusinessKey :=
  {| ClientID := "my_test_client"; SigningKey := "bXlf-GVz_F9rZXk="; Channel := "" |}.

Definition standardKey : BusinessKey :=
  {| ClientID := "my_test_client"; SigningKey := "bXlf+GVz/F9rZXk="; Channel := "" |}.

Definition urlSafeKeyGeocGo : GeocGo.Geocoder :=
  {| GeocGo.businessKey := Some urlSafeKey;
     GeocGo.baseURL := fixtureEndpoint;
     GeocGo.language := "en";
     GeocGo.client := Some (HTTPClientHandle 0);
     GeocGo.rps := 5;
     GeocGo.overQuerySleepDuration := 100000000;
     GeocGo.limiter := rate.NewLimiter (rate.Limit_of_int 5) 1 |}.

Definition standardKeyPart000 : Part000.Geocoder :=
  {| Part000.businessKey := Some standardKey;
     Part000.baseURL := fixtureEndpoint;
     Part000.language := "en";
     Part000.client := Some (HTTPClientHandle 0);
     Part000.rps := 5;
     Part000.overQuerySleepDuration := 100000000;
     Part000.observer := None;
     Part000.limiter := rate.NewLimiter (rate.Limit_of_int 5) 1 |}.

Definition okResponse : GoogleResponse := {| Results := []; Status := GRS_OK |}.

(** Transports that answer the OK body and a body cut short. *)
Definition okTransport : Oracle :=
  answering None (Some {| Body := okBody |}, None).

Definition truncatedTransport : Oracle :=
  answering None (Some {| Body := "{" |}, None).

(** What [sampleParse] makes of the bare endpoint. *)
Definition parsedEndpoint : url.URL :=
  {| url.Scheme := "https";
     url.Opaque := "";
     url.Host := "maps.googleapis.com";
     url.Path := "/maps/api/geocode/json";
     url.RawPath := "";
     url.ForceQuery := false;
     url.RawQuery := "";
     url.Fragment := "" |}.

(* ================================================================== *)
(** * Vocabulary of the signature round trip in geoc.go *)
(* ================================================================== *)

(** What [url.Parse] takes for the raw query of [rawURL]: [Parse] cuts the
    fragment off at the first [#], and [parse] cuts what is left at its
    first [?]. *)
Definition parsedRawQuery (rawURL : string) : string :=
  queryOf (fst (url.cutAt "#" rawURL)).

(** A character that starts neither a query nor a fragment. *)
Definition endpointChar (c : ascii) : bool :=
  negb (Ascii.eqb c "?") && negb (Ascii.eqb c "#").

Definition noHash (c : ascii) : bool := negb (Ascii.eqb c "#").

(** [url.Parse] on the endpoint of the tests followed by a query, a
    fragment or both: the fragment is cut off first and kept as it is. *)
Definition sampleParseFragment (rawURL : string) : url.URL + error :=
  let '(u, frag) := url.cutAt "#" rawURL in
  match sampleParse u with
  | inl ur =>
      inl {| url.Scheme := url.Scheme ur;
             url.Opaque := url.Opaque ur;
             url.Host := url.Host ur;
             url.Path := url.Path ur;
             url.RawPath := url.RawPath ur;
             url.ForceQuery := url.ForceQuery ur;
             url.RawQuery := url.RawQuery ur;
             url.Fragment := match frag with Some f => f | None => "" end |}
  | inr err => inr err
  end.

(** The client of the tests on a base URL that ends in a fragment. *)
Definition fragmentGeocGo : GeocGo.Geocoder :=
  {| GeocGo.businessKey := Some fixtureKey;
     GeocGo.baseURL := "https://maps.googleapis.com/maps/api/geocode/json#v1";
     GeocGo.language := "en";
     GeocGo.client := Some (HTTPClientHandle 0);
     GeocGo.rps := 5;
     GeocGo.overQuerySleepDuration := 100000000;
     GeocGo.limiter := rate.NewLimiter (rate.Limit_of_int 5) 1 |}.

(** The URL that client requests for (45.32, 12.67), and what
    [sampleParseFragment] makes of the URL it builds. *)
Definition fragmentRequested : string :=
  "https://maps.googleapis.com/maps/api/geocode/json#v1?latlng=45.32000000,12.67000000&sensor=false&language=en&client=my_test_client&channel=grg-local&signature=ugYjcHwmCGDPhvXxkIo6rMzi5NE=".

Definition fragmentParsed : url.URL :=
  {| url.Scheme := "https";
     url.Opaque := "";
     url.Host := "maps.googleapis.com";
     url.Path := "/maps/api/geocode/json";
     url.RawPath := "";
     url.ForceQuery := false;
     url.RawQuery := "";
     url.Fragment :=
       "v1?latlng=45.32000000,12.67000000&sensor=false&language=en&client=my_test_client&channel=grg-local" |}.

(** What [sampleParse] makes of the URL geoc.go builds for (45.32, 12.67). *)
Definition parsedBuiltURL : url.URL :=
  {| url.Scheme := "https";
     url.Opaque := "";
     url.Host := "maps.googleapis.com";
     url.Path := "/maps/api/geocode/json";
     url.RawPath := "";
     url.ForceQuery := false;
     url.RawQuery :=
       "latlng=45.32000000,12.67000000&sensor=false&language=en&client=my_test_client&channel=grg-local";
     url.Fragment := "" |}.

(** A transport that returns neither a response nor an error. *)
Definition silentTransport : Oracle := answering None (None, None).

(* ================================================================== *)
(** * Strings: replacement, splitting *)
(* ================================================================== *)

Lemma prefix_byte (c a : ascii) (s : string) :
  String.prefix (String c EmptyString) (String a s) = Ascii.eqb a c.
Proof.
  simpl. destruct (ascii_dec c a) as [->|Hne].
  - rewrite Ascii.eqb_refl. now destruct s.
  - symmetry. apply Ascii.eqb_neq. congruence.
Qed.

(** Replacing a one-byte pattern by a one-byte string is a translation of
    the bytes. *)
Lemma ReplaceAll_byte (c d : ascii) (s : string) :
  ReplaceAll s (String c EmptyString) (String d EmptyString)
  = string_map (fun x => if Ascii.eqb x c then d else x) s.
Proof.
  unfold ReplaceAll. induction s as [|a s IH]; [reflexivity|].
  cbn [replaceFrom]. rewrite prefix_byte.
  destruct (Ascii.eqb a c) eqn:E; cbn; rewrite E; now rewrite IH.
Qed.

Lemma string_map_map (f g : ascii -> ascii) (s : string) :
  string_map f (string_map g s) = string_map (fun c => f (g c)) s.
Proof. induction s; cbn; congruence. Qed.

Lemma string_map_ext (f g : ascii -> ascii) (s : string) :
  (forall c, f c = g c) -> string_map f s = string_map g s.
Proof. intros H. induction s; cbn; congruence. Qed.

Lemma ReplaceAll_toStandard (s : string) :
  ReplaceAll (ReplaceAll s "-" "+") "_" "/" = string_map Reference.toStandard s.
Proof.
  rewrite !ReplaceAll_byte, string_map_map. apply string_map_ext.
  intros c. unfold Reference.toStandard.
  destruct (Ascii.eqb c "-") eqn:E; [reflexivity|].
  reflexivity.
Qed.

Lemma ReplaceAll_toURLSafe (s : string) :
  ReplaceAll (ReplaceAll s "+" "-") "/" "_" = string_map Reference.toURLSafe s.
Proof.
  rewrite !ReplaceAll_byte, string_map_map. apply string_map_ext.
  intros c. unfold Reference.toURLSafe.
  destruct (Ascii.eqb c "+") eqn:E; [reflexivity|].
  reflexivity.
Qed.

Lemma map_lxor_comm (k : Z) (l : list Z) :
  List.map (fun b => Z.lxor b k) l = List.map (Z.lxor k) l.
Proof. apply map_ext. intros. apply Z.lxor_comm. Qed.

(** The object built by [hmac.New], fed once and summed, computes the
    HMAC of RFC 2104. *)
Lemma hmac_Sum_Write_New (key text : list Z) :
  hmac.Sum (fst (hmac.Write (hmac.New key) text)) = Reference.HMAC_SHA1 key text.
Proof.
  unfold hmac.Sum, hmac.Write, hmac.New, Reference.HMAC_SHA1.
  cbv [fst hmac.ipad hmac.opad hmac.written sha1.BlockSize].
  rewrite app_nil_l, !map_lxor_comm.
  change 64%nat with sha1.BlockSize.
  destruct (sha1.BlockSize <? List.length key)%nat; reflexivity.
Qed.

(* ================================================================== *)
(** * The signer *)
(* ================================================================== *)

Lemma GeocGo_getSignature_sign (g : GeocGo.Geocoder) (bk : BusinessKey) (targetURL : string) :
  GeocGo.businessKey g = Some bk ->
  GeocGo.getSignature g targetURL
  = Ret (Reference.asGoResult (Reference.sign (SigningKey bk) targetURL)).
Proof.
  intros Hbk. unfold GeocGo.getSignature, Reference.sign. rewrite Hbk. cbn [deref bind].
  rewrite ReplaceAll_toStandard.
  destruct (base64.DecodeString _) as [key [err|]]; [reflexivity|].
  cbv beta iota zeta delta [hmac.Write Reference.asGoResult].
  rewrite ReplaceAll_toURLSafe, <- hmac_Sum_Write_New. reflexivity.
Qed.

Lemma Part000_getSignature_sign (g : Part000.Geocoder) (bk : BusinessKey) (targetURL : string) :
  Part000.businessKey g = Some bk ->
  Part000.getSignature g targetURL
  = Ret (Reference.asGoResult (Reference.sign (SigningKey bk) targetURL)).
Proof.
  intros Hbk. unfold Part000.getSignature, Reference.sign. rewrite Hbk. cbn [deref bind].
  rewrite ReplaceAll_toStandard.
  destruct (base64.DecodeString _) as [key [err|]]; [reflexivity|].
  cbv beta iota zeta delta [hmac.Write Reference.asGoResult].
  rewrite ReplaceAll_toURLSafe, <- hmac_Sum_Write_New. reflexivity.
Qed.

Lemma sign_fixture :
  Reference.sign (SigningKey fixtureKey) fixtureInput = inr "fGNFKf3Yt6Syb9dRF42E7vm1FwM=".
Proof. vm_compute. reflexivity. Qed.

(** C1.  In both variants [getSignature] is the signer of section 4.2 read
    as an error-or-value function: the key is translated from the URL-safe
    to the standard alphabet and base64-decoded, a decoding failure is
    returned as the error with the empty string for a signature, otherwise
    the HMAC-SHA1 of the bytes of the input is base64-encoded with the
    standard alphabet and translated to the URL-safe one, padding kept;
    with the key [bXlfdGVzdF9rZXk=] and the fixture input the result is
    [fGNFKf3Yt6Syb9dRF42E7vm1FwM=] and no error. *)
Theorem C1_getSignature_is_reference_signer
  (g1 : GeocGo.Geocoder) (g2 : Part000.Geocoder) (bk : BusinessKey) (targetURL : string) :
  GeocGo.businessKey g1 = Some bk ->
  Part000.businessKey g2 = Some bk ->
  GeocGo.getSignature g1 targetURL
    = Ret (Reference.asGoResult (Reference.sign (SigningKey bk) targetURL))
  /\ Part000.getSignature g2 targetURL
    = Ret (Reference.asGoResult (Reference.sign (SigningKey bk) targetURL))
  /\ (SigningKey bk = "bXlfdGVzdF9rZXk=" ->
      GeocGo.getSignature g1 fixtureInput = Ret ("fGNFKf3Yt6Syb9dRF42E7vm1FwM=", None)
      /\ Part000.getSignature g2 fixtureInput = Ret ("fGNFKf3Yt6Syb9dRF42E7vm1FwM=", None)).
Proof.
  intros H1 H2. split; [|split].
  - now apply GeocGo_getSignature_sign.
  - now apply Part000_getSignature_sign.
  - intros Hkey.
    rewrite (GeocGo_getSignature_sign g1 fixtureInput H1).
    rewrite (Part000_getSignature_sign g2 fixtureInput H2).
    rewrite Hkey. change "bXlfdGVzdF9rZXk=" with (SigningKey fixtureKey).
    rewrite sign_fixture. split; reflexivity.
Qed.

(* ================================================================== *)
(** * The constructor *)
(* ================================================================== *)

(** C5.  In both variants [NewGeocoder] returns an error and a nil client
    exactly when the business key is nil, the base URL is empty, the HTTP
    client is nil or [requestPerSecond] is not positive, and a client with
    a nil error for every other combination of arguments; being a total
    function of its arguments it has no panicking path. *)
Theorem C5_NewGeocoder_validates
  (bkey : option BusinessKey) (baseURL language : string) (client : option HTTPClient)
  (requestPerSecond : Z) (overQuerySleepDuration : Duration)
  (observer : option RequestObserver) :
  let invalid :=
    bkey = None \/ baseURL = "" \/ client = None \/ requestPerSecond <= 0 in
  let r1 := GeocGo.NewGeocoder bkey baseURL language client requestPerSecond
              overQuerySleepDuration in
  let r2 := Part000.NewGeocoder bkey baseURL language client requestPerSecond
              overQuerySleepDuration observer in
  (invalid <-> exists err, r1 = (None, Some err))
  /\ (invalid <-> exists err, r2 = (None, Some err))
  /\ (~ invalid <-> exists g, r1 = (Some g, None))
  /\ (~ invalid <-> exists g, r2 = (Some g, None)).
Proof.
  cbv zeta. unfold GeocGo.NewGeocoder, Part000.NewGeocoder.
  destruct bkey as [bk|], client as [c|];
    destruct (String.eqb_spec baseURL "") as [Hb|Hb];
    destruct (Z.leb_spec requestPerSecond 0) as [Hr|Hr];
    repeat split;
    try (intros _; eexists; reflexivity);
    try (intros [e He]; discriminate He);
    try (intros [g Hg]; discriminate Hg);
    try (intros _; tauto);
    try (intros [H|[H|[H|H]]]; (discriminate H || contradiction || lia));
    try (intros H; exfalso; apply H; tauto);
    try (intros H; exfalso; apply H; right; right; right; lia);
    try (intros _ [H|[H|[H|H]]]; (discriminate H || contradiction || lia)).
Qed.

(* ================================================================== *)
(** * Query strings *)
(* ================================================================== *)

Lemma string_forall_app (p : ascii -> bool) (a b : string) :
  string_forall p (a +++ b) = string_forall p a && string_forall p b.
Proof. induction a as [|c a IH]; cbn; [reflexivity|]. now rewrite IH, andb_assoc. Qed.

Lemma append_assoc (a b c : string) : (a +++ b) +++ c = a +++ b +++ c.
Proof. induction a; cbn; congruence. Qed.

Lemma escapeByte_wireSafe (c : ascii) : string_forall wireSafe (url.escapeByte c) = true.
Proof. destruct c as [[] [] [] [] [] [] [] []]; reflexivity. Qed.

Lemma QueryEscape_wireSafe (s : string) : string_forall wireSafe (url.QueryEscape s) = true.
Proof.
  induction s as [|c s IH]; [reflexivity|].
  cbn [url.QueryEscape]. now rewrite string_forall_app, escapeByte_wireSafe, IH.
Qed.

Lemma QueryUnescape_escapeByte (c : ascii) (rest : string) :
  url.QueryUnescape (url.escapeByte c +++ rest)
  = option_map (String c) (url.QueryUnescape rest).
Proof. destruct c as [[] [] [] [] [] [] [] []]; reflexivity. Qed.

(** Unescaping undoes escaping. *)
Lemma QueryUnescape_QueryEscape (s : string) :
  url.QueryUnescape (url.QueryEscape s) = Some s.
Proof.
  induction s as [|c s IH]; [reflexivity|].
  cbn [url.QueryEscape]. now rewrite QueryUnescape_escapeByte, IH.
Qed.

Lemma cutAt_sep (sep : ascii) (a b : string) :
  string_forall (fun c => negb (Ascii.eqb c sep)) a = true ->
  url.cutAt sep (a +++ String sep b) = (a, Some b).
Proof.
  induction a as [|c a IH]; cbn; intros H.
  - now rewrite Ascii.eqb_refl.
  - apply andb_prop in H as [Hc Ha]. apply negb_true_iff in Hc.
    now rewrite Hc, (IH Ha).
Qed.

Lemma splitOn_sep (sep : ascii) (a b : string) :
  string_forall (fun c => negb (Ascii.eqb c sep)) a = true ->
  url.splitOn sep (a +++ String sep b) = a :: url.splitOn sep b.
Proof.
  induction a as [|c a IH]; cbn; intros H.
  - now rewrite Ascii.eqb_refl.
  - apply andb_prop in H as [Hc Ha]. apply negb_true_iff in Hc.
    now rewrite Hc, (IH Ha).
Qed.

Lemma splitOn_none (sep : ascii) (a : string) :
  string_forall (fun c => negb (Ascii.eqb c sep)) a = true ->
  url.splitOn sep a = [a].
Proof.
  induction a as [|c a IH]; cbn; intros H; [reflexivity|].
  apply andb_prop in H as [Hc Ha]. apply negb_true_iff in Hc.
  now rewrite Hc, (IH Ha).
Qed.

Lemma wireSafe_no_amp (s : string) :
  string_forall wireSafe s = true ->
  string_forall (fun c => negb (Ascii.eqb c "&")) s = true.
Proof.
  induction s as [|c s IH]; cbn; [reflexivity|]. unfold wireSafe at 1.
  intros H. apply andb_prop in H as [Hc Hs]. apply andb_prop in Hc as [Hc _].
  now rewrite Hc, (IH Hs).
Qed.

Lemma wireSafe_no_eq (s : string) :
  string_forall wireSafe s = true ->
  string_forall (fun c => negb (Ascii.eqb c "=")) s = true.
Proof.
  induction s as [|c s IH]; cbn; [reflexivity|]. unfold wireSafe at 1.
  intros H. apply andb_prop in H as [Hc Hs]. apply andb_prop in Hc as [_ Hc].
  now rewrite Hc, (IH Hs).
Qed.

Lemma keyValue_pair (k v : string) :
  string_forall wireSafe k = true -> url.keyValue (k +++ "=" +++ v) = (k, v).
Proof.
  intros Hk. unfold url.keyValue.
  change (k +++ "=" +++ v) with (k +++ String "=" v).
  now rewrite (cutAt_sep _ _ _ (wireSafe_no_eq _ Hk)).
Qed.

Lemma piece_not_empty (k v : string) : String.eqb (k +++ "=" +++ v) "" = false.
Proof. destruct k; reflexivity. Qed.

(** A query written from separator-free pairs splits back into them. *)
Lemma rawParams_joinRaw (ps : list (string * string)) :
  Forall wireSafePair ps -> url.rawParams (url.joinRaw ps) = ps.
Proof.
  unfold url.rawParams, url.joinRaw.
  induction 1 as [|[k v] ps [Hk Hv] Hps IH]; [reflexivity|].
  cbn [fst snd] in Hk, Hv.
  assert (Hpiece : string_forall (fun c => negb (Ascii.eqb c "&")) (k +++ "=" +++ v) = true).
  { rewrite !string_forall_app, (wireSafe_no_amp _ Hk), (wireSafe_no_amp _ Hv). reflexivity. }
  destruct ps as [|p ps].
  - cbn [List.map String.concat fst snd].
    rewrite (splitOn_none _ _ Hpiece). cbn [List.filter].
    rewrite piece_not_empty. cbn [negb List.map]. now rewrite keyValue_pair.
  - change (String.concat "&" (List.map _ ((k, v) :: p :: ps)))
      with ((k +++ "=" +++ v) +++ "&" +++
            String.concat "&" (List.map (fun kv => fst kv +++ "=" +++ snd kv) (p :: ps))).
    change ("&" +++ ?x) with (String "&" x).
    rewrite (splitOn_sep _ _ _ Hpiece). cbn [List.filter].
    rewrite piece_not_empty. cbn [negb List.map].
    rewrite keyValue_pair by assumption. f_equal. exact IH.
Qed.

Lemma escapePair_wireSafe (ps : list (string * string)) :
  Forall wireSafePair (List.map escapePair ps).
Proof.
  induction ps as [|[k v] ps IH]; constructor; [|exact IH].
  split; apply QueryEscape_wireSafe.
Qed.

(** Re-associates string concatenations to the right and evaluates the
    literal parts. *)
Ltac norm_append := repeat (rewrite !append_assoc || (progress (cbn [String.append]))).

Lemma Encode_unsignedQuery (g : Part000.Geocoder) (lat lng : float64) :
  url.Encode (Part000.unsignedQuery g lat lng)
  = url.joinRaw (List.map escapePair (canonicalPairs g lat lng)).
Proof.
  unfold Part000.unsignedQuery, canonicalPairs.
  destruct (Part000.businessKey g) as [bk|];
    [destruct (String.eqb (Channel bk) "")|];
    destruct (String.eqb (Part000.language g) "");
    cbn; norm_append; reflexivity.
Qed.

Lemma Encode_signedQuery (g : Part000.Geocoder) (lat lng : float64) (signature : string) :
  url.Encode (url.Add (Part000.unsignedQuery g lat lng) "signature" signature)
  = url.joinRaw (List.map escapePair (canonicalPairs g lat lng ++ [("signature", signature)])).
Proof.
  unfold Part000.unsignedQuery, canonicalPairs.
  destruct (Part000.businessKey g) as [bk|];
    [destruct (String.eqb (Channel bk) "")|];
    destruct (String.eqb (Part000.language g) "");
    cbn; norm_append; reflexivity.
Qed.

Lemma canonicalPairs_ascending (g : Part000.Geocoder) (lat lng : float64) (signature : string) :
  ascending (List.map fst (canonicalPairs g lat lng ++ [("signature", signature)])) = true.
Proof.
  unfold canonicalPairs.
  destruct (Part000.businessKey g) as [bk|];
    [destruct (String.eqb (Channel bk) "")|];
    destruct (String.eqb (Part000.language g) "");
    reflexivity.
Qed.

(* ================================================================== *)
(** * The verb [%.8f] *)
(* ================================================================== *)

Lemma isDigit_digitChar (d : Z) : 0 <= d < 10 -> isDigit (fmt.digitChar d) = true.
Proof.
  intros H.
  assert (d = 0 \/ d = 1 \/ d = 2 \/ d = 3 \/ d = 4 \/ d = 5 \/ d = 6 \/ d = 7
          \/ d = 8 \/ d = 9) as Hd by lia.
  repeat (destruct Hd as [->|Hd]; [reflexivity|]). now subst.
Qed.

Lemma isDigit_uintDigits (d : Decimal.uint) : string_forall isDigit (fmt.uintDigits d) = true.
Proof. induction d; cbn; auto. Qed.


Lemma isDigit_decimal (n : Z) : string_forall isDigit (fmt.decimal n) = true.
Proof. destruct n; cbn; try reflexivity. apply isDigit_uintDigits. Qed.


Lemma isDigit_fixedDigits (k : nat) (n : Z) :
  string_forall isDigit (fmt.fixedDigits k n) = true.
Proof.
  revert n. induction k as [|k IH]; intros n; cbn; [reflexivity|].
  rewrite string_forall_app, IH. cbn.
  rewrite isDigit_digitChar; [reflexivity|]. apply Z.mod_pos_bound. lia.
Qed.







(** Whatever the datum, the text has no query separator in it. *)
Lemma Sprintf_8f_wireSafe (x : float64) : string_forall wireSafe (fmt.Sprintf_8f x) = true.
Proof.
  assert (Hd : forall s, string_forall isDigit s = true -> string_forall wireSafe s = true).
  { induction s as [|c s IH]; cbn; [reflexivity|]. intros H.
    apply andb_prop in H as [Hc Hs]. rewrite (IH Hs), andb_true_r.
    destruct c as [[] [] [] [] [] [] [] []]; cbn in *; congruence. }
  destruct x as [s|s| |s m e]; try (destruct s; reflexivity); try reflexivity.
  unfold fmt.Sprintf_8f. rewrite !string_forall_app.
  rewrite (Hd _ (isDigit_decimal _)), (Hd _ (isDigit_fixedDigits _ _)).
  destruct s; reflexivity.
Qed.

(* ================================================================== *)
(** * The URL builders *)
(* ================================================================== *)

Lemma setRawQuery_twice (u : url.URL) (q1 q2 : string) :
  url.setRawQuery (url.setRawQuery u q1) q2 = url.setRawQuery u q2.
Proof. reflexivity. Qed.

Lemma Sprintf_latlng_wireSafe (lat lng : float64) :
  string_forall wireSafe (fmt.Sprintf_latlng lat lng) = true.
Proof.
  unfold fmt.Sprintf_latlng.
  now rewrite !string_forall_app, !Sprintf_8f_wireSafe.
Qed.

(** geoc.go: the URL is the base URL, a [?] and the pairs in the order the
    function appends them. *)
Lemma GeocGo_buildURL_pairs (g : GeocGo.Geocoder) (lat lng : float64) :
  GeocGo.buildURL g lat lng = GeocGo.baseURL g +++ "?" +++ url.joinRaw (writtenPairs g lat lng).
Proof.
  unfold GeocGo.buildURL, writtenPairs.
  destruct (GeocGo.businessKey g) as [bk|];
    [destruct (String.eqb (Channel bk) "")|];
    destruct (String.eqb (GeocGo.language g) "");
    cbn; norm_append; reflexivity.
Qed.

Lemma writtenPairs_wireSafe (g : GeocGo.Geocoder) (lat lng : float64) :
  Forall wireSafePair (writtenPairs g lat lng).
Proof.
  assert (Hsafe : forall k v, string_forall wireSafe k = true ->
                              string_forall wireSafe v = true -> wireSafePair (k, v))
    by (intros; split; assumption).
  unfold writtenPairs.
  destruct (GeocGo.businessKey g) as [bk|];
    [destruct (String.eqb (Channel bk) "")|];
    destruct (String.eqb (GeocGo.language g) "");
    cbn [List.app];
    repeat (constructor; [apply Hsafe;
      first [reflexivity | apply Sprintf_latlng_wireSafe | apply QueryEscape_wireSafe]|]);
    constructor.
Qed.

Lemma rawParams_writtenPairs (g : GeocGo.Geocoder) (lat lng : float64) :
  url.rawParams (url.joinRaw (writtenPairs g lat lng)) = writtenPairs g lat lng.
Proof. apply rawParams_joinRaw, writtenPairs_wireSafe. Qed.

Section Builders.

Variable url_Parse : string -> url.URL + error.

(** part_000: what a successful [buildURL] has computed. *)
Lemma Part000_buildURL_ok (g : Part000.Geocoder) (lat lng : float64) (ur : url.URL) :
  Part000.buildURL url_Parse g lat lng = Ret (Some ur, None) ->
  exists (u0 : url.URL) (bk : BusinessKey) (signature : string),
    url_Parse (Part000.baseURL g) = inl u0
    /\ Part000.businessKey g = Some bk
    /\ Reference.sign (SigningKey bk)
         (url.Path u0 +++ "?" +++ url.Encode (Part000.unsignedQuery g lat lng))
       = inr signature
    /\ ur = url.setRawQuery u0
              (url.Encode (url.Add (Part000.unsignedQuery g lat lng) "signature" signature)).
Proof.
  unfold Part000.buildURL.
  destruct (url_Parse (Part000.baseURL g)) as [u0|err]; [|discriminate].
  destruct (Part000.businessKey g) as [bk|] eqn:Hbk.
  - rewrite (Part000_getSignature_sign g _ Hbk).
    cbn [url.Path url.RawQuery url.setRawQuery].
    destruct (Reference.sign _ _) as [err|signature] eqn:Hsign; cbn; [discriminate|].
    intros [= <-]. now exists u0, bk, signature.
  - unfold Part000.getSignature. rewrite Hbk. discriminate.
Qed.

(** part_000: the parameters of the built URL, as they stand on the wire,
    are the escaped canonical pairs followed by the signature. *)
Lemma Part000_buildURL_params (g : Part000.Geocoder) (lat lng : float64) (ur : url.URL) :
  Part000.buildURL url_Parse g lat lng = Ret (Some ur, None) ->
  exists signature : string,
    url.rawParams (url.RawQuery ur)
      = List.map escapePair (canonicalPairs g lat lng ++ [("signature", signature)])
    /\ url.RawQuery ur = url.joinRaw (url.rawParams (url.RawQuery ur))
    /\ Part000.getSignature g
         (url.Path ur +++ "?" +++ url.Encode (Part000.unsignedQuery g lat lng))
       = Ret (signature, None).
Proof.
  intros H. destruct (Part000_buildURL_ok _ _ _ H) as (u0 & bk & sig & _ & Hbk & Hsign & ->).
  exists sig. cbn [url.RawQuery url.Path url.setRawQuery].
  rewrite Encode_signedQuery, rawParams_joinRaw by apply escapePair_wireSafe.
  repeat split.
  rewrite (Part000_getSignature_sign g _ Hbk), Hsign. reflexivity.
Qed.

(** geoc.go: what a successful signing step of [ReverseGeocode] has
    computed. *)
Lemma GeocGo_signedURL_ok (g : GeocGo.Geocoder) (lat lng : float64) (targetURL : string) :
  GeocGo.signedURL url_Parse g lat lng = Ret (targetURL, None) ->
  exists (ur : url.URL) (signature : string),
    url_Parse (GeocGo.buildURL g lat lng) = inl ur
    /\ GeocGo.getSignature g (url.Path ur +++ "?" +++ url.RawQuery ur) = Ret (signature, None)
    /\ targetURL = GeocGo.buildURL g lat lng +++ "&signature=" +++ signature.
Proof.
  unfold GeocGo.signedURL.
  destruct (url_Parse (GeocGo.buildURL g lat lng)) as [ur|err]; [|discriminate].
  destruct (GeocGo.businessKey g) as [bk|] eqn:Hbk.
  - rewrite (GeocGo_getSignature_sign g _ Hbk).
    destruct (Reference.sign _ _) as [err|signature] eqn:Hsign; cbn; [discriminate|].
    intros [= <-]. exists ur, signature. repeat split.
    change (String "?" (url.RawQuery ur)) with ("?" +++ url.RawQuery ur).
    now rewrite (GeocGo_getSignature_sign g _ Hbk), Hsign.
  - unfold GeocGo.getSignature. rewrite Hbk. discriminate.
Qed.

End Builders.




Section BuilderClaims.

Variable url_Parse : string -> url.URL + error.



End BuilderClaims.

(* ================================================================== *)
(** * [ReverseGeocode] *)
(* ================================================================== *)

Lemma pure_cases {A : Type} (p : Prog A) :
  isPure p -> (exists a, p = Ret a) \/ (exists msg, p = Panic msg).
Proof. destruct p; cbn; [eauto|eauto|tauto]. Qed.

(** Unfolds the interpreter and the control operators, and nothing of the
    functions of the client. *)
Ltac step_run :=
  cbn [run runFrom bind perform deref deferred cooldown effectOn
       outcome limiterAfter trace List.app fst snd].

Section Calls.

Variable url_Parse : string -> url.URL + error.
Variable URL_String : url.URL -> string.
Variable unmarshal : string -> GoogleResponse + error.

Lemma GeocGo_signedURL_pure (g : GeocGo.Geocoder) (lat lng : float64) :
  isPure (GeocGo.signedURL url_Parse g lat lng).
Proof.
  unfold GeocGo.signedURL.
  destruct (url_Parse _) as [ur|err]; [|exact I].
  destruct (GeocGo.businessKey g) as [bk|] eqn:Hbk.
  - rewrite (GeocGo_getSignature_sign g _ Hbk).
    destruct (Reference.sign _ _); exact I.
  - unfold GeocGo.getSignature. rewrite Hbk. exact I.
Qed.

Lemma Part000_buildURL_pure (g : Part000.Geocoder) (lat lng : float64) :
  isPure (Part000.buildURL url_Parse g lat lng).
Proof.
  unfold Part000.buildURL.
  destruct (url_Parse _) as [ur|err]; [|exact I].
  destruct (Part000.businessKey g) as [bk|] eqn:Hbk.
  - rewrite (Part000_getSignature_sign g _ Hbk).
    destruct (Reference.sign _ _); exact I.
  - unfold Part000.getSignature. rewrite Hbk. exact I.
Qed.

(** A call hands the transport at most one URL, and it is the one that
    was built and signed. *)
Lemma GeocGo_requests (env : Oracle) (g : GeocGo.Geocoder) (ctx : Context)
  (lat lng : float64) (lim : rate.Limiter) :
  let urls := requestedURLs
                (trace (run env (GeocGo.ReverseGeocode url_Parse unmarshal g ctx lat lng) lim)) in
  urls = []
  \/ exists targetURL : string,
       GeocGo.signedURL url_Parse g lat lng = Ret (targetURL, None) /\ urls = [targetURL].
Proof.
  cbv zeta. unfold GeocGo.ReverseGeocode. step_run.
  destruct (env _ (LimiterWait ctx)) as [e|]; step_run; [now left|].
  destruct (pure_cases _ (GeocGo_signedURL_pure g lat lng)) as [[[t [e|]] Hurl]|[m Hurl]];
    rewrite Hurl; step_run; try (now left).
  destruct (GeocGo.client g) as [c|]; step_run; [|now left].
  right. exists t. split; [reflexivity|].
  destruct (env _ (ClientGet c t)) as [[resp|] [e|]]; step_run; try reflexivity.
  destruct (json.Decode unmarshal (Body resp)) as [[res|] [e|]]; step_run; try reflexivity.
  destruct (String.eqb (Status res) GRS_OVER_QUERY_LIMIT); reflexivity.
Qed.

Lemma Part000_requests (env : Oracle) (g : Part000.Geocoder) (ctx : Context)
  (lat lng : float64) (lim : rate.Limiter) :
  let urls := requestedURLs
                (trace (run env (Part000.ReverseGeocode url_Parse URL_String unmarshal
                                   g ctx lat lng) lim)) in
  urls = []
  \/ exists ur : url.URL,
       Part000.buildURL url_Parse g lat lng = Ret (Some ur, None)
       /\ urls = [URL_String ur].
Proof.
  cbv zeta. unfold Part000.ReverseGeocode. step_run.
  destruct (env _ (LimiterWait ctx)) as [e|]; step_run; [now left|].
  destruct (pure_cases _ (Part000_buildURL_pure g lat lng)) as [[[ur [e|]] Hurl]|[m Hurl]];
    rewrite Hurl; step_run; try (now left).
  destruct ur as [ur|]; step_run; [|now left].
  destruct (Part000.client g) as [c|]; step_run; [|now left].
  right. exists ur. split; [reflexivity|].
  destruct (env _ (ClientGet c (URL_String ur))) as [[resp|] [e|]]; step_run;
    try reflexivity.
  destruct (Part000.observer g) as [o|]; step_run;
    destruct (json.Decode unmarshal (Body resp)) as [[res|] [e|]]; step_run;
    try reflexivity;
    destruct (String.eqb (Status res) GRS_OVER_QUERY_LIMIT); reflexivity.
Qed.

(** C7.  When the limiter has let the call through, the URL is built and
    [Get] answers with a non-nil error (whatever response comes with it),
    [ReverseGeocode] returns a nil response and that very error; [Get]
    is the last call it makes (one [Get], no [SetLimit], no [Sleep], no
    second attempt) and the limiter is left as it was. *)
Theorem C7_transport_error_passthrough
  (env : Oracle) (ctx : Context) (lat lng : float64) (lim : rate.Limiter)
  (c : HTTPClient) (resp : option Response) (err : error) :
  env _ (LimiterWait ctx) = None ->
  (forall (g : GeocGo.Geocoder) (targetURL : string),
      GeocGo.signedURL url_Parse g lat lng = Ret (targetURL, None) ->
      GeocGo.client g = Some c ->
      env _ (ClientGet c targetURL) = (resp, Some err) ->
      run env (GeocGo.ReverseGeocode url_Parse unmarshal g ctx lat lng) lim
      = {| outcome := Returned (None, Some err);
           limiterAfter := lim;
           trace := [Ev (LimiterWait ctx) None;
                     Ev (ClientGet c targetURL) (resp, Some err)] |})
  /\ (forall (g : Part000.Geocoder) (ur : url.URL),
         Part000.buildURL url_Parse g lat lng = Ret (Some ur, None) ->
         Part000.client g = Some c ->
         env _ (ClientGet c (URL_String ur)) = (resp, Some err) ->
         run env (Part000.ReverseGeocode url_Parse URL_String unmarshal g ctx lat lng) lim
         = {| outcome := Returned (None, Some err);
              limiterAfter := lim;
              trace := [Ev (LimiterWait ctx) None;
                        Ev TimeNow (env _ TimeNow);
                        Ev (ClientGet c (URL_String ur)) (resp, Some err)] |}).
Proof.
  intros Hwait. split.
  - intros g targetURL Hurl Hc Hget.
    unfold GeocGo.ReverseGeocode. step_run. rewrite Hwait, Hurl. step_run.
    rewrite Hc. step_run. rewrite Hget. reflexivity.
  - intros g ur Hurl Hc Hget.
    unfold Part000.ReverseGeocode. step_run. rewrite Hwait, Hurl. step_run.
    rewrite Hc. step_run. rewrite Hget. reflexivity.
Qed.

(** The JSON literal [null] decodes to a nil response and no error. *)
Lemma Decode_null : json.Decode unmarshal "null" = (None, None).
Proof. reflexivity. Qed.

(** C10.  When the limiter has let the call through, the URL is built and
    [Get] answers with no error and a response whose body is the JSON
    literal [null], the decoder yields a nil response and no error, and
    [ReverseGeocode] does not return: it panics on the nil pointer it
    dereferences to read the status, in both variants. *)
Theorem C10_null_body_panics
  (env : Oracle) (ctx : Context) (lat lng : float64) (lim : rate.Limiter)
  (c : HTTPClient) :
  env _ (LimiterWait ctx) = None ->
  json.Decode unmarshal "null" = (None, None)
  /\ (forall (g : GeocGo.Geocoder) (targetURL : string),
         GeocGo.signedURL url_Parse g lat lng = Ret (targetURL, None) ->
         GeocGo.client g = Some c ->
         env _ (ClientGet c targetURL) = (Some {| Body := "null" |}, None) ->
         outcome (run env (GeocGo.ReverseGeocode url_Parse unmarshal g ctx lat lng) lim)
         = Panicked nilDereference)
  /\ (forall (g : Part000.Geocoder) (ur : url.URL),
         Part000.buildURL url_Parse g lat lng = Ret (Some ur, None) ->
         Part000.client g = Some c ->
         env _ (ClientGet c (URL_String ur)) = (Some {| Body := "null" |}, None) ->
         outcome (run env (Part000.ReverseGeocode url_Parse URL_String unmarshal
                             g ctx lat lng) lim)
         = Panicked nilDereference).
Proof.
  intros Hwait. split; [reflexivity|]. split.
  - intros g targetURL Hurl Hc Hget.
    unfold GeocGo.ReverseGeocode. step_run. rewrite Hwait, Hurl. step_run.
    rewrite Hc. step_run. rewrite Hget. reflexivity.
  - intros g ur Hurl Hc Hget.
    unfold Part000.ReverseGeocode. step_run. rewrite Hwait, Hurl. step_run.
    rewrite Hc. step_run. rewrite Hget. step_run.
    destruct (Part000.observer g); reflexivity.
Qed.

Lemma unit_answer (env : Oracle) (e : Effect unit) : env _ e = tt.
Proof. now destruct (env _ e). Qed.

(** geoc.go: a call that decodes a response returns it, after the pause
    when its status is OVER_QUERY_LIMIT. *)
Lemma GeocGo_run_decoded (env : Oracle) (g : GeocGo.Geocoder) (ctx : Context)
  (lat lng : float64) (lim : rate.Limiter) (resp : Response) (res : GoogleResponse) :
  decodesGeocGo url_Parse unmarshal env g ctx lat lng resp (Some res) None ->
  let r := run env (GeocGo.ReverseGeocode url_Parse unmarshal g ctx lat lng) lim in
  outcome r = Returned (Some res, None)
  /\ exists pre : list Event,
       throttleEvents pre = []
       /\ if String.eqb (Status res) GRS_OVER_QUERY_LIMIT
          then trace r = pre ++ cooldownEvents (GeocGo.rps g) (GeocGo.overQuerySleepDuration g)
                             ++ [Ev (BodyClose resp) tt]
               /\ limiterAfter r = rate.SetLimit lim (rate.Limit_of_int (GeocGo.rps g))
          else trace r = pre ++ [Ev (BodyClose resp) tt] /\ limiterAfter r = lim.
Proof.
  intros (Hwait & targetURL & c & Hurl & Hc & Hget & Hdec).
  unfold GeocGo.ReverseGeocode. step_run. rewrite Hwait, Hurl. step_run.
  rewrite Hc. step_run. rewrite Hget. step_run. rewrite Hdec. step_run.
  destruct (String.eqb (Status res) GRS_OVER_QUERY_LIMIT); step_run;
    rewrite !unit_answer; (split; [reflexivity|]);
    exists [Ev (LimiterWait ctx) None; Ev (ClientGet c targetURL) (Some resp, None)];
    repeat split.
Qed.

Lemma Part000_run_decoded (env : Oracle) (g : Part000.Geocoder) (ctx : Context)
  (lat lng : float64) (lim : rate.Limiter) (resp : Response) (res : GoogleResponse) :
  decodesPart000 url_Parse URL_String unmarshal env g ctx lat lng resp (Some res) None ->
  let r := run env (Part000.ReverseGeocode url_Parse URL_String unmarshal g ctx lat lng) lim in
  outcome r = Returned (Some res, None)
  /\ exists pre : list Event,
       throttleEvents pre = []
       /\ if String.eqb (Status res) GRS_OVER_QUERY_LIMIT
          then trace r = pre ++ cooldownEvents (Part000.rps g) (Part000.overQuerySleepDuration g)
                             ++ [Ev (BodyClose resp) tt]
               /\ limiterAfter r = rate.SetLimit lim (rate.Limit_of_int (Part000.rps g))
          else trace r = pre ++ [Ev (BodyClose resp) tt] /\ limiterAfter r = lim.
Proof.
  intros (Hwait & ur & c & Hurl & Hc & Hget & Hdec).
  unfold Part000.ReverseGeocode. step_run. rewrite Hwait, Hurl. step_run.
  rewrite Hc. step_run. rewrite Hget. step_run.
  destruct (Part000.observer g) as [o|]; step_run; rewrite Hdec; step_run;
    destruct (String.eqb (Status res) GRS_OVER_QUERY_LIMIT); step_run;
    rewrite !unit_answer; (split; [reflexivity|]).
  1,2: exists [Ev (LimiterWait ctx) None; Ev TimeNow (env _ TimeNow);
               Ev (ClientGet c (URL_String ur)) (Some resp, None);
               Ev (TimeSince (env _ TimeNow)) (env _ (TimeSince (env _ TimeNow)));
               Ev (ObserveHTTPRequest o "google" (env _ (TimeSince (env _ TimeNow)))) tt];
    repeat split.
  1,2: exists [Ev (LimiterWait ctx) None; Ev TimeNow (env _ TimeNow);
               Ev (ClientGet c (URL_String ur)) (Some resp, None)];
    repeat split.
Qed.

(** Closes a branch whose trace holds no throttle event. *)
Ltac no_throttle := step_run; try (intros Hthr; exfalso; apply Hthr; reflexivity).

(** geoc.go: a call touches the throttle only after it has decoded a
    response whose status is OVER_QUERY_LIMIT. *)
Lemma GeocGo_run_throttle (env : Oracle) (g : GeocGo.Geocoder) (ctx : Context)
  (lat lng : float64) (lim : rate.Limiter) :
  throttleEvents
    (trace (run env (GeocGo.ReverseGeocode url_Parse unmarshal g ctx lat lng) lim)) <> [] ->
  exists (resp : Response) (res : GoogleResponse),
    decodesGeocGo url_Parse unmarshal env g ctx lat lng resp (Some res) None
    /\ Status res = GRS_OVER_QUERY_LIMIT.
Proof.
  unfold GeocGo.ReverseGeocode. step_run.
  destruct (env _ (LimiterWait ctx)) as [e|] eqn:Hwait; no_throttle.
  destruct (pure_cases _ (GeocGo_signedURL_pure g lat lng)) as [[[t [e|]] Hurl]|[m Hurl]];
    rewrite Hurl; no_throttle.
  destruct (GeocGo.client g) as [c|] eqn:Hc; no_throttle.
  destruct (env _ (ClientGet c t)) as [[resp|] [e|]] eqn:Hget; no_throttle.
  destruct (json.Decode unmarshal (Body resp)) as [[res|] [e|]] eqn:Hdec; no_throttle.
  destruct (String.eqb_spec (Status res) GRS_OVER_QUERY_LIMIT) as [Hst|Hst]; no_throttle.
  intros _. exists resp, res. split; [|exact Hst].
  split; [exact Hwait|]. now exists t, c.
Qed.

Lemma Part000_run_throttle (env : Oracle) (g : Part000.Geocoder) (ctx : Context)
  (lat lng : float64) (lim : rate.Limiter) :
  throttleEvents
    (trace (run env (Part000.ReverseGeocode url_Parse URL_String unmarshal g ctx lat lng)
              lim)) <> [] ->
  exists (resp : Response) (res : GoogleResponse),
    decodesPart000 url_Parse URL_String unmarshal env g ctx lat lng resp (Some res) None
    /\ Status res = GRS_OVER_QUERY_LIMIT.
Proof.
  unfold Part000.ReverseGeocode. step_run.
  destruct (env _ (LimiterWait ctx)) as [e|] eqn:Hwait; no_throttle.
  destruct (pure_cases _ (Part000_buildURL_pure g lat lng)) as [[[ur [e|]] Hurl]|[m Hurl]];
    rewrite Hurl; no_throttle.
  destruct ur as [ur|]; no_throttle.
  destruct (Part000.client g) as [c|] eqn:Hc; no_throttle.
  destruct (env _ (ClientGet c (URL_String ur))) as [[resp|] [e|]] eqn:Hget; no_throttle.
  assert (Hgoal : forall tr lim',
    throttleEvents tr = [] ->
    throttleEvents
      (trace (runFrom env
         (deferred (perform (BodyClose resp))
            (let '(res, err) := json.Decode unmarshal (Body resp) in
             match err with
             | Some _ => Ret (None, err)
             | None =>
                 res <- deref res ;;
                 (if String.eqb (Status res) GRS_OVER_QUERY_LIMIT
                  then cooldown (Part000.rps g) (Part000.overQuerySleepDuration g)
                  else Ret tt) ;;;
                 Ret (Some res, None)
             end)) lim' tr)) <> [] ->
    exists (resp0 : Response) (res : GoogleResponse),
      decodesPart000 url_Parse URL_String unmarshal env g ctx lat lng resp0 (Some res) None
      /\ Status res = GRS_OVER_QUERY_LIMIT).
  { intros tr lim' Htr.
    destruct (json.Decode unmarshal (Body resp)) as [[res|] [e|]] eqn:Hdec; step_run;
      unfold throttleEvents in *; rewrite ?List.filter_app, ?Htr;
      try (intros Hthr; exfalso; apply Hthr; reflexivity).
    destruct (String.eqb_spec (Status res) GRS_OVER_QUERY_LIMIT) as [Hst|Hst]; step_run;
      rewrite ?List.filter_app, ?Htr;
      try (intros Hthr; exfalso; apply Hthr; reflexivity).
    intros _. exists resp, res. split; [|exact Hst].
    split; [exact Hwait|]. now exists ur, c. }
  destruct (Part000.observer g) as [o|]; step_run; apply Hgoal; reflexivity.
Qed.

(** C6.  In both variants a call touches the throttle if and only if it
    has decoded a response whose status is OVER_QUERY_LIMIT; it then sets
    the limit to 0, sleeps for the configured duration, sets the limit
    back to [rps], closes the body, and returns the decoded response with
    a nil error. *)
Theorem C6_over_query_limit_cooldown
  (env : Oracle) (ctx : Context) (lat lng : float64) (lim : rate.Limiter) :
  (forall g : GeocGo.Geocoder,
      let r := run env (GeocGo.ReverseGeocode url_Parse unmarshal g ctx lat lng) lim in
      (throttleEvents (trace r) <> [] <->
       exists (resp : Response) (res : GoogleResponse),
         decodesGeocGo url_Parse unmarshal env g ctx lat lng resp (Some res) None
         /\ Status res = GRS_OVER_QUERY_LIMIT)
      /\ (forall (resp : Response) (res : GoogleResponse),
             decodesGeocGo url_Parse unmarshal env g ctx lat lng resp (Some res) None ->
             Status res = GRS_OVER_QUERY_LIMIT ->
             outcome r = Returned (Some res, None)
             /\ limiterAfter r = rate.SetLimit lim (rate.Limit_of_int (GeocGo.rps g))
             /\ exists pre : list Event,
                  throttleEvents pre = []
                  /\ trace r
                     = pre ++ cooldownEvents (GeocGo.rps g) (GeocGo.overQuerySleepDuration g)
                           ++ [Ev (BodyClose resp) tt]))
  /\ (forall g : Part000.Geocoder,
         let r := run env (Part000.ReverseGeocode url_Parse URL_String unmarshal
                             g ctx lat lng) lim in
         (throttleEvents (trace r) <> [] <->
          exists (resp : Response) (res : GoogleResponse),
            decodesPart000 url_Parse URL_String unmarshal env g ctx lat lng resp (Some res) None
            /\ Status res = GRS_OVER_QUERY_LIMIT)
         /\ (forall (resp : Response) (res : GoogleResponse),
                decodesPart000 url_Parse URL_String unmarshal env g ctx lat lng
                  resp (Some res) None ->
                Status res = GRS_OVER_QUERY_LIMIT ->
                outcome r = Returned (Some res, None)
                /\ limiterAfter r = rate.SetLimit lim (rate.Limit_of_int (Part000.rps g))
                /\ exists pre : list Event,
                     throttleEvents pre = []
                     /\ trace r
                        = pre ++ cooldownEvents (Part000.rps g)
                                   (Part000.overQuerySleepDuration g)
                              ++ [Ev (BodyClose resp) tt])).
Proof.
  split; intros g r.
  - assert (Hthen : forall resp res,
               decodesGeocGo url_Parse unmarshal env g ctx lat lng resp (Some res) None ->
               Status res = GRS_OVER_QUERY_LIMIT ->
               outcome r = Returned (Some res, None)
               /\ limiterAfter r = rate.SetLimit lim (rate.Limit_of_int (GeocGo.rps g))
               /\ exists pre : list Event,
                    throttleEvents pre = []
                    /\ trace r
                       = pre ++ cooldownEvents (GeocGo.rps g) (GeocGo.overQuerySleepDuration g)
                             ++ [Ev (BodyClose resp) tt]).
    { intros resp res Hdec Hst.
      destruct (GeocGo_run_decoded lim Hdec) as (Hout & pre & Hpre & Hcase).
      rewrite Hst, String.eqb_refl in Hcase. destruct Hcase as [Htr Hlim].
      split; [exact Hout|]. split; [exact Hlim|]. now exists pre. }
    split; [split|exact Hthen].
    + apply GeocGo_run_throttle.
    + intros (resp & res & Hdec & Hst).
      destruct (Hthen resp res Hdec Hst) as (_ & _ & pre & Hpre & Htr).
      rewrite Htr. unfold throttleEvents in *. rewrite List.filter_app, Hpre. discriminate.
  - assert (Hthen : forall resp res,
               decodesPart000 url_Parse URL_String unmarshal env g ctx lat lng
                 resp (Some res) None ->
               Status res = GRS_OVER_QUERY_LIMIT ->
               outcome r = Returned (Some res, None)
               /\ limiterAfter r = rate.SetLimit lim (rate.Limit_of_int (Part000.rps g))
               /\ exists pre : list Event,
                    throttleEvents pre = []
                    /\ trace r
                       = pre ++ cooldownEvents (Part000.rps g)
                                  (Part000.overQuerySleepDuration g)
                             ++ [Ev (BodyClose resp) tt]).
    { intros resp res Hdec Hst.
      destruct (Part000_run_decoded lim Hdec) as (Hout & pre & Hpre & Hcase).
      rewrite Hst, String.eqb_refl in Hcase. destruct Hcase as [Htr Hlim].
      split; [exact Hout|]. split; [exact Hlim|]. now exists pre. }
    split; [split|exact Hthen].
    + apply Part000_run_throttle.
    + intros (resp & res & Hdec & Hst).
      destruct (Hthen resp res Hdec Hst) as (_ & _ & pre & Hpre & Htr).
      rewrite Htr. unfold throttleEvents in *. rewrite List.filter_app, Hpre. discriminate.
Qed.

End Calls.

(* ================================================================== *)
(** * The throttle *)
(* ================================================================== *)

Lemma binary_round_aux_sign (sx : bool) (mx ex : Z) (lx : location) :
  rate.negative (binary_round_aux 53 1024 sx mx ex lx) = true -> sx = true.
Proof.
  unfold binary_round_aux.
  destruct (shr_fexp 53 1024 mx ex lx) as [mrs' e'].
  destruct (shr_fexp 53 1024 _ e' loc_Exact) as [mrs'' e''].
  destruct (shr_m mrs'') as [|m|m]; cbn; try discriminate.
  destruct (e'' <=? 971); destruct sx; cbn; congruence.
Qed.

(** The conversion of a non-negative [int] is not a negative limit. *)
Lemma Limit_of_int_not_negative (n : Z) : 0 <= n -> rate.negative (rate.Limit_of_int n) = false.
Proof.
  intros Hn. destruct n as [|m|m]; [reflexivity| |lia].
  unfold rate.Limit_of_int, binary_normalize, binary_round.
  destruct (shl_align _ _ _) as [mz ez].
  destruct (rate.negative _) eqn:E; [|reflexivity].
  apply binary_round_aux_sign in E. discriminate.
Qed.

Lemma setsOnly_bind (ok : rate.Limit -> Prop) {A B : Type} (p : Prog A) (f : A -> Prog B) :
  setsOnly ok p -> (forall a, setsOnly ok (f a)) -> setsOnly ok (bind p f).
Proof.
  intros Hp Hf. induction p as [a|msg|X e k IH]; cbn.
  - apply Hf.
  - exact I.
  - destruct Hp as [He Hk]. split; [exact He|]. intros x. apply IH, Hk.
Qed.

Lemma setsOnly_perform (ok : rate.Limit -> Prop) {X : Type} (e : Effect X) :
  (forall l, installs e = Some l -> ok l) -> setsOnly ok (perform e).
Proof. intros He. split; [exact He|]. intros x. exact I. Qed.

Lemma setsOnly_deferred (ok : rate.Limit -> Prop) {A : Type} (cleanup : Prog unit)
  (body : Prog A) :
  setsOnly ok cleanup -> setsOnly ok body -> setsOnly ok (deferred cleanup body).
Proof.
  intros Hc Hb. induction body as [a|msg|X e k IH]; cbn [deferred].
  - apply setsOnly_bind; [exact Hc|]. intros _. exact I.
  - apply setsOnly_bind; [exact Hc|]. intros _. exact I.
  - destruct Hb as [He Hk]. split; [exact He|]. intros x. apply IH, Hk.
Qed.

Lemma setsOnly_pure (ok : rate.Limit -> Prop) {A : Type} (p : Prog A) :
  isPure p -> setsOnly ok p.
Proof. destruct p; cbn; tauto. Qed.

Lemma setsOnly_cooldown (rps : Z) (d : Duration) :
  setsOnly (steadyOrSuspended rps) (cooldown rps d).
Proof.
  unfold cooldown, steadyOrSuspended. cbn.
  repeat split; intros; try discriminate; try (injection H as <-); auto.
Qed.

(** Closes the obligations about effects that are no [SetLimit]. *)
Ltac sets_only :=
  repeat first
    [ exact I
    | apply setsOnly_cooldown
    | apply setsOnly_bind; [|intros ?]
    | apply setsOnly_deferred
    | apply setsOnly_perform; intros ? ?; discriminate
    | match goal with
      | |- setsOnly _ (match ?x with _ => _ end) => destruct x
      | |- setsOnly _ (if ?x then _ else _) => destruct x
      | |- setsOnly _ (deref ?x) => destruct x
      | |- setsOnly _ (let '(_, _) := ?x in _) => destruct x
      end ].

Section Throttle.

Variable url_Parse : string -> url.URL + error.
Variable URL_String : url.URL -> string.
Variable unmarshal : string -> GoogleResponse + error.

Lemma GeocGo_ReverseGeocode_setsOnly (g : GeocGo.Geocoder) (ctx : Context)
  (lat lng : float64) :
  setsOnly (steadyOrSuspended (GeocGo.rps g))
    (GeocGo.ReverseGeocode url_Parse unmarshal g ctx lat lng).
Proof.
  unfold GeocGo.ReverseGeocode.
  apply setsOnly_bind; [apply setsOnly_perform; intros ? ?; discriminate|].
  intros [e|]; [exact I|].
  apply setsOnly_bind; [apply setsOnly_pure, GeocGo_signedURL_pure|].
  intros [targetURL err]. sets_only.
Qed.

Lemma Part000_ReverseGeocode_setsOnly (g : Part000.Geocoder) (ctx : Context)
  (lat lng : float64) :
  setsOnly (steadyOrSuspended (Part000.rps g))
    (Part000.ReverseGeocode url_Parse URL_String unmarshal g ctx lat lng).
Proof.
  unfold Part000.ReverseGeocode.
  apply setsOnly_bind; [apply setsOnly_perform; intros ? ?; discriminate|].
  intros [e|]; [exact I|].
  apply setsOnly_bind; [apply setsOnly_pure, Part000_buildURL_pure|].
  intros [ur err]. sets_only.
Qed.

Section Steps.

Variable rps : Z.
Variable call : Context -> float64 -> float64 -> Prog Result.
Hypothesis call_setsOnly :
  forall ctx lat lng, setsOnly (steadyOrSuspended rps) (call ctx lat lng).

Lemma Forall_setNth {A : Type} (P : A -> Prop) (i : nat) (a : A) (l : list A) :
  P a -> Forall P l -> Forall P (setNth i a l).
Proof.
  intros Ha Hl. revert i. induction Hl as [|b l Hb Hl IH]; intros i; cbn.
  - constructor.
  - destruct i; constructor; auto.
Qed.

Lemma in_flight_setsOnly (s : Client) (i : nat) (X : Type) (e : Effect X)
  (k : X -> Prog Result) :
  throttleInvariant rps s ->
  nth_error (calls s) i = Some (Vis e k) ->
  (forall l, installs e = Some l -> steadyOrSuspended rps l)
  /\ (forall x, setsOnly (steadyOrSuspended rps) (k x)).
Proof.
  intros (_ & _ & Hcalls) Hnth.
  apply nth_error_In in Hnth.
  exact (proj1 (Forall_forall _ _) Hcalls _ Hnth).
Qed.

(** What a step does to the limiter. *)
Lemma step_mutation (s s' : Client) (ev : option Event) :
  throttleInvariant rps s ->
  clientStep call s ev s' ->
  throttle s' = throttle s
  \/ exists l : rate.Limit,
       steadyOrSuspended rps l
       /\ ev = Some (Ev (LimiterSetLimit l) tt)
       /\ throttle s' = rate.SetLimit (throttle s) l.
Proof.
  intros Hinv Hstep. destruct Hstep as [s ctx lat lng|s i X e k x Hnth].
  - left. reflexivity.
  - destruct (@in_flight_setsOnly s i X e k Hinv Hnth) as [He _].
    destruct e; cbn [throttle effectOn]; try (left; reflexivity).
    right. exists newLimit. destruct x. repeat split. apply He. reflexivity.
Qed.

Lemma step_invariant (s s' : Client) (ev : option Event) :
  throttleInvariant rps s -> clientStep call s ev s' -> throttleInvariant rps s'.
Proof.
  intros Hinv Hstep.
  destruct (step_mutation Hinv Hstep) as [Hsame|(l & Hl & _ & Hset)].
  - destruct Hinv as (Hlim & Hburst & Hcalls). rewrite <- Hsame in Hlim, Hburst.
    split; [exact Hlim|]. split; [exact Hburst|].
    destruct Hstep as [s ctx lat lng|s i X e k x Hnth]; cbn [calls].
    + apply Forall_app. split; [exact Hcalls|]. constructor; [apply call_setsOnly|constructor].
    + apply Forall_setNth; [|exact Hcalls].
      assert (Hinv : throttleInvariant rps s).
      { split; [|split]; try assumption; now rewrite <- Hsame. }
      apply (@in_flight_setsOnly s i X e k Hinv Hnth).
  - pose proof Hinv as (Hlim & Hburst & Hcalls).
    split; [rewrite Hset; exact Hl|]. split; [rewrite Hset; exact Hburst|].
    destruct Hstep as [s ctx lat lng|s i X e k x Hnth]; cbn [calls].
    + apply Forall_app. split; [exact Hcalls|]. constructor; [apply call_setsOnly|constructor].
    + apply Forall_setNth; [|exact Hcalls].
      apply (@in_flight_setsOnly s i X e k Hinv Hnth).
Qed.

Lemma reachable_invariant (lim0 : rate.Limiter) (s : Client) :
  steadyOrSuspended rps (rate.limit lim0) ->
  rate.burst lim0 = 1 ->
  reachable call lim0 s ->
  throttleInvariant rps s.
Proof.
  intros Hlim Hburst Hreach. induction Hreach as [|s s' ev Hreach IH Hstep].
  - split; [exact Hlim|]. split; [exact Hburst|]. constructor.
  - exact (step_invariant IH Hstep).
Qed.

Lemma steadyOrSuspended_not_negative (l : rate.Limit) :
  0 <= rps -> steadyOrSuspended rps l -> rate.negative l = false.
Proof. intros Hrps [->| ->]; apply Limit_of_int_not_negative; lia. Qed.

End Steps.

End Throttle.

Section ThrottleClaim.

Variable url_Parse : string -> url.URL + error.
Variable URL_String : url.URL -> string.
Variable unmarshal : string -> GoogleResponse + error.

Lemma throttleEvents_cooldown (pre post : list Event) (rps : Z) (d : Duration) :
  throttleEvents pre = [] ->
  throttleEvents post = [] ->
  throttleEvents (pre ++ cooldownEvents rps d ++ post) = cooldownEvents rps d.
Proof.
  unfold throttleEvents. intros Hpre Hpost.
  rewrite !List.filter_app, Hpre, Hpost. reflexivity.
Qed.

(** Within one call the throttle is untouched or goes through the pause. *)
Lemma GeocGo_call_throttle (env : Oracle) (g : GeocGo.Geocoder) (ctx : Context)
  (lat lng : float64) (lim : rate.Limiter) :
  let tr := throttleEvents
              (trace (run env (GeocGo.ReverseGeocode url_Parse unmarshal g ctx lat lng) lim)) in
  tr = [] \/ tr = cooldownEvents (GeocGo.rps g) (GeocGo.overQuerySleepDuration g).
Proof.
  cbv zeta.
  destruct (throttleEvents _) as [|ev tr] eqn:E; [now left|right].
  assert (Hne : throttleEvents
            (trace (run env (GeocGo.ReverseGeocode url_Parse unmarshal g ctx lat lng) lim))
            <> []) by (rewrite E; discriminate).
  apply GeocGo_run_throttle in Hne. destruct Hne as (resp & res & Hdec & Hst).
  destruct (@GeocGo_run_decoded url_Parse unmarshal env g ctx lat lng lim resp res Hdec)
    as (_ & pre & Hpre & Hcase).
  rewrite Hst, String.eqb_refl in Hcase. destruct Hcase as [Htr _].
  rewrite <- E, Htr. now apply throttleEvents_cooldown.
Qed.

Lemma Part000_call_throttle (env : Oracle) (g : Part000.Geocoder) (ctx : Context)
  (lat lng : float64) (lim : rate.Limiter) :
  let tr := throttleEvents
              (trace (run env (Part000.ReverseGeocode url_Parse URL_String unmarshal
                                 g ctx lat lng) lim)) in
  tr = [] \/ tr = cooldownEvents (Part000.rps g) (Part000.overQuerySleepDuration g).
Proof.
  cbv zeta.
  destruct (throttleEvents _) as [|ev tr] eqn:E; [now left|right].
  assert (Hne : throttleEvents
            (trace (run env (Part000.ReverseGeocode url_Parse URL_String unmarshal
                               g ctx lat lng) lim))
            <> []) by (rewrite E; discriminate).
  apply Part000_run_throttle in Hne. destruct Hne as (resp & res & Hdec & Hst).
  destruct (@Part000_run_decoded url_Parse URL_String unmarshal env g ctx lat lng lim
              resp res Hdec) as (_ & pre & Hpre & Hcase).
  rewrite Hst, String.eqb_refl in Hcase. destruct Hcase as [Htr _].
  rewrite <- E, Htr. now apply throttleEvents_cooldown.
Qed.

Lemma throttleLaw_intro (rps : Z) (d : Duration) (lim0 : rate.Limiter)
  (call : Context -> float64 -> float64 -> Prog Result) :
  0 <= rps ->
  lim0 = rate.NewLimiter (rate.Limit_of_int rps) 1 ->
  (forall ctx lat lng, setsOnly (steadyOrSuspended rps) (call ctx lat lng)) ->
  (forall env ctx lat lng lim,
      throttleEvents (trace (run env (call ctx lat lng) lim)) = []
      \/ throttleEvents (trace (run env (call ctx lat lng) lim)) = cooldownEvents rps d) ->
  throttleLaw rps d lim0 call.
Proof.
  intros Hrps -> Hcall Hshape. split; [|exact Hshape].
  intros s Hreach.
  assert (Hinv : throttleInvariant rps s).
  { apply (@reachable_invariant rps call Hcall (rate.NewLimiter (rate.Limit_of_int rps) 1));
      [now left|reflexivity|exact Hreach]. }
  pose proof Hinv as (Hlim & Hburst & _).
  split; [exact Hlim|]. split; [now apply steadyOrSuspended_not_negative with rps|].
  split; [exact Hburst|].
  intros ev s' Hstep. exact (step_mutation Hinv Hstep).
Qed.

(** C8.  For a client returned by [NewGeocoder], in either variant, and
    any interleaving of any number of [ReverseGeocode] calls on it: in
    every reachable state the limit of the limiter is the conversion of
    the configured [requestPerSecond] or that of 0, it is not negative,
    and the burst is 1; a step either leaves the limiter as it is or is a
    [SetLimit] to one of these two limits; and within one call the
    throttle is either untouched or taken through [SetLimit 0], [Sleep],
    [SetLimit rps], in this order. *)
Theorem C8_throttle_invariant
  (bkey : option BusinessKey) (baseURL language : string) (client : option HTTPClient)
  (requestPerSecond : Z) (overQuerySleepDuration : Duration)
  (observer : option RequestObserver) :
  (forall g : GeocGo.Geocoder,
      GeocGo.NewGeocoder bkey baseURL language client requestPerSecond
        overQuerySleepDuration = (Some g, None) ->
      throttleLaw requestPerSecond overQuerySleepDuration (GeocGo.limiter g)
        (GeocGo.ReverseGeocode url_Parse unmarshal g))
  /\ (forall g : Part000.Geocoder,
         Part000.NewGeocoder bkey baseURL language client requestPerSecond
           overQuerySleepDuration observer = (Some g, None) ->
         throttleLaw requestPerSecond overQuerySleepDuration (Part000.limiter g)
           (Part000.ReverseGeocode url_Parse URL_String unmarshal g)).
Proof.
  split; intros g Hnew.
  - unfold GeocGo.NewGeocoder in Hnew.
    destruct bkey as [bk|]; [|discriminate].
    destruct (String.eqb baseURL ""); [discriminate|].
    destruct client as [c|]; [|discriminate].
    destruct (Z.leb_spec requestPerSecond 0) as [Hr|Hr]; [discriminate|].
    injection Hnew as <-. cbn [GeocGo.limiter].
    match goal with
    | |- throttleLaw _ _ _ (GeocGo.ReverseGeocode _ _ ?g0) =>
        apply throttleLaw_intro; [lia|reflexivity| |];
        [ intros ctx lat lng;
          exact (GeocGo_ReverseGeocode_setsOnly url_Parse unmarshal g0 ctx lat lng)
        | intros env ctx lat lng lim;
          exact (GeocGo_call_throttle env g0 ctx lat lng lim) ]
    end.
  - unfold Part000.NewGeocoder in Hnew.
    destruct bkey as [bk|]; [|discriminate].
    destruct (String.eqb baseURL ""); [discriminate|].
    destruct client as [c|]; [|discriminate].
    destruct (Z.leb_spec requestPerSecond 0) as [Hr|Hr]; [discriminate|].
    injection Hnew as <-. cbn [Part000.limiter].
    match goal with
    | |- throttleLaw _ _ _ (Part000.ReverseGeocode _ _ _ ?g0) =>
        apply throttleLaw_intro; [lia|reflexivity| |];
        [ intros ctx lat lng;
          exact (Part000_ReverseGeocode_setsOnly url_Parse URL_String unmarshal g0 ctx lat lng)
        | intros env ctx lat lng lim;
          exact (Part000_call_throttle env g0 ctx lat lng lim) ]
    end.
Qed.

End ThrottleClaim.

(* ================================================================== *)
(** * Worked examples: the fixtures of the test suites *)
(* ================================================================== *)

(** [Test_SignRequest], first case, in both variants. *)
Lemma C1_witness :
  GeocGo.businessKey sampleGeocGo = Some fixtureKey
  /\ Part000.businessKey samplePart000 = Some fixtureKey
  /\ GeocGo.getSignature sampleGeocGo fixtureInput = Ret ("fGNFKf3Yt6Syb9dRF42E7vm1FwM=", None)
  /\ Part000.getSignature samplePart000 fixtureInput = Ret ("fGNFKf3Yt6Syb9dRF42E7vm1FwM=", None).
Proof.
  split; [reflexivity|]. split; [reflexivity|].
  apply (C1_getSignature_is_reference_signer sampleGeocGo samplePart000 fixtureInput
           (bk := fixtureKey)); reflexivity.
Defined.

(** A key that is not base64 gives an error and an empty signature. *)
Example getSignature_corrupt_key :
  Reference.sign "not base64!" fixtureInput = inl CorruptInputError.
Proof. reflexivity. Qed.

(** [Test_buildURL], first case. *)
Example buildURL_fixture :
  Part000.buildURL sampleParse samplePart000 f45_32 f12_67 = Ret (Some expectedURL, None).
Proof. vm_compute. reflexivity. Qed.

(** The sample coordinates are binary64 data. *)
Example sample_floats_valid :
  float64_valid f45_32 = true /\ float64_valid f12_67 = true
  /\ float64_valid f49_1758444 = true /\ float64_valid f7_3019607 = true.
Proof. repeat split; reflexivity. Qed.

(** The coordinates of [Test_ReverseGeocode], as geoc.go writes them. *)
Example buildURL_GeocGo_fixture :
  GeocGo.buildURL sampleGeocGo f49_1758444 f7_3019607
  = "https://maps.googleapis.com/maps/api/geocode/json?latlng=49.17584440,7.30196070&sensor=false&language=en&client=my_test_client&channel=grg-local".
Proof. vm_compute. reflexivity. Qed.

(** The URL geoc.go requests on the same input. *)
Example signedURL_fixture :
  GeocGo.signedURL sampleParse sampleGeocGo f45_32 f12_67 = Ret (requestedGeocGo, None).
Proof. vm_compute. reflexivity. Qed.





(** [Test_ReverseGeocode], second case: the over-limit answer is returned
    as a success after the pause. *)
Lemma C6_witness :
  decodesPart000 sampleParse sampleString sampleUnmarshal overLimitTransport samplePart000
    (ContextHandle 0) f45_32 f12_67 {| Body := overLimitBody |} (Some overLimitResponse) None
  /\ Status overLimitResponse = GRS_OVER_QUERY_LIMIT
  /\ outcome (run overLimitTransport
                (Part000.ReverseGeocode sampleParse sampleString sampleUnmarshal samplePart000
                   (ContextHandle 0) f45_32 f12_67)
                (Part000.limiter samplePart000))
     = Returned (Some overLimitResponse, None)
  /\ limiterAfter (run overLimitTransport
                     (Part000.ReverseGeocode sampleParse sampleString sampleUnmarshal
                        samplePart000 (ContextHandle 0) f45_32 f12_67)
                     (Part000.limiter samplePart000))
     = rate.SetLimit (Part000.limiter samplePart000) (rate.Limit_of_int 5).
Proof.
  assert (Hdec : decodesPart000 sampleParse sampleString sampleUnmarshal overLimitTransport
                   samplePart000 (ContextHandle 0) f45_32 f12_67 {| Body := overLimitBody |}
                   (Some overLimitResponse) None).
  { split; [reflexivity|]. exists expectedURL, (HTTPClientHandle 0).
    repeat split; vm_compute; reflexivity. }
  split; [exact Hdec|]. split; [reflexivity|].
  destruct (proj2 (C6_over_query_limit_cooldown sampleParse sampleString sampleUnmarshal
                     overLimitTransport (ContextHandle 0) f45_32 f12_67
                     (Part000.limiter samplePart000)) samplePart000) as [_ Hthen].
  destruct (Hthen _ _ Hdec eq_refl) as (Hout & Hlim & _).
  split; [exact Hout | exact Hlim].
Defined.

(** The whole trace of that call. *)
Example over_limit_trace :
  trace (run overLimitTransport
           (Part000.ReverseGeocode sampleParse sampleString sampleUnmarshal samplePart000
              (ContextHandle 0) f45_32 f12_67)
           (Part000.limiter samplePart000))
  = [Ev (LimiterWait (ContextHandle 0)) None;
     Ev TimeNow 0;
     Ev (ClientGet (HTTPClientHandle 0)
           ("https://maps.googleapis.com/maps/api/geocode/json?" +++ expectedQuery))
        (Some {| Body := overLimitBody |}, None);
     Ev (LimiterSetLimit (rate.Limit_of_int 0)) tt;
     Ev (TimeSleep 100000000) tt;
     Ev (LimiterSetLimit (rate.Limit_of_int 5)) tt;
     Ev (BodyClose {| Body := overLimitBody |}) tt].
Proof. vm_compute. reflexivity. Qed.

(** [Test_ReverseGeocode], first case: the error of the transport comes
    back as it is. *)
Lemma C7_witness :
  @failingTransport _ (LimiterWait (ContextHandle 0)) = None
  /\ Part000.buildURL sampleParse samplePart000 f45_32 f12_67 = Ret (Some expectedURL, None)
  /\ Part000.client samplePart000 = Some (HTTPClientHandle 0)
  /\ @failingTransport _ (ClientGet (HTTPClientHandle 0) (sampleString expectedURL))
     = (Some {| Body := "" |}, Some (ErrorsNew "failed"))
  /\ run failingTransport
       (Part000.ReverseGeocode sampleParse sampleString sampleUnmarshal samplePart000
          (ContextHandle 0) f45_32 f12_67)
       (Part000.limiter samplePart000)
     = {| outcome := Returned (None, Some (ErrorsNew "failed"));
          limiterAfter := Part000.limiter samplePart000;
          trace := [Ev (LimiterWait (ContextHandle 0)) None;
                    Ev TimeNow (@failingTransport _ TimeNow);
                    Ev (ClientGet (HTTPClientHandle 0) (sampleString expectedURL))
                       (Some {| Body := "" |}, Some (ErrorsNew "failed"))] |}.
Proof.
  split; [reflexivity|]. split; [vm_compute; reflexivity|].
  split; [reflexivity|]. split; [reflexivity|].
  apply (proj2 (C7_transport_error_passthrough sampleParse sampleString sampleUnmarshal
                  failingTransport (ContextHandle 0) f45_32 f12_67
                  (Part000.limiter samplePart000) (HTTPClientHandle 0)
                  (Some {| Body := "" |}) (ErrorsNew "failed") eq_refl)).
  - vm_compute. reflexivity.
  - reflexivity.
  - reflexivity.
Defined.

Lemma C8_witness :
  GeocGo.NewGeocoder (Some fixtureKey) fixtureEndpoint "en" (Some (HTTPClientHandle 0))
    5 100000000 = (Some sampleGeocGo, None)
  /\ throttleLaw 5 100000000 (GeocGo.limiter sampleGeocGo)
       (GeocGo.ReverseGeocode sampleParse sampleUnmarshal sampleGeocGo).
Proof.
  split; [reflexivity|].
  apply (proj1 (C8_throttle_invariant sampleParse sampleString sampleUnmarshal
                  (Some fixtureKey) fixtureEndpoint "en" (Some (HTTPClientHandle 0))
                  5 100000000 None)).
  reflexivity.
Defined.

(** Five requests per second is the limit 5, exactly. *)
Example Limit_of_int_5 :
  rate.Limit_of_int 5 = S754_finite false 5629499534213120 (-50)
  /\ 5629499534213120 = 5 * 2 ^ 50.
Proof. split; reflexivity. Qed.

Lemma C10_witness :
  @nullTransport _ (LimiterWait (ContextHandle 0)) = None
  /\ Part000.buildURL sampleParse samplePart000 f45_32 f12_67 = Ret (Some expectedURL, None)
  /\ Part000.client samplePart000 = Some (HTTPClientHandle 0)
  /\ @nullTransport _ (ClientGet (HTTPClientHandle 0) (sampleString expectedURL))
     = (Some {| Body := "null" |}, None)
  /\ outcome (run nullTransport
                (Part000.ReverseGeocode sampleParse sampleString sampleUnmarshal samplePart000
                   (ContextHandle 0) f45_32 f12_67)
                (Part000.limiter samplePart000))
     = Panicked nilDereference.
Proof.
  split; [reflexivity|]. split; [vm_compute; reflexivity|].
  split; [reflexivity|]. split; [reflexivity|].
  apply (proj2 (proj2 (C10_null_body_panics sampleParse sampleString sampleUnmarshal
                         nullTransport (ContextHandle 0) f45_32 f12_67
                         (Part000.limiter samplePart000) (HTTPClientHandle 0) eq_refl)))
    with (ur := expectedURL).
  - vm_compute. reflexivity.
  - reflexivity.
  - reflexivity.
Defined.

(** The same body in geoc.go. *)
Example null_body_GeocGo :
  outcome (run nullTransport
             (GeocGo.ReverseGeocode sampleParse sampleUnmarshal sampleGeocGo
                (ContextHandle 0) f45_32 f12_67)
             (GeocGo.limiter sampleGeocGo))
  = Panicked nilDereference.
Proof. vm_compute. reflexivity. Qed.

(* ================================================================== *)
(** * Further properties: the paths of a call that end early *)
(* ================================================================== *)

Section EarlyReturns.

Variable url_Parse : string -> url.URL + error.
Variable URL_String : url.URL -> string.
Variable unmarshal : string -> GoogleResponse + error.

(** X1.  When [limiter.Wait] answers with an error (a cancelled context, a
    deadline that cannot be met), [ReverseGeocode] returns a nil response
    and that very error, and [Wait] is the only call it has made: no URL is
    requested and the limiter is left as it was.  Both variants. *)
Theorem X1_wait_error_passthrough
  (env : Oracle) (ctx : Context) (lat lng : float64) (lim : rate.Limiter) (err : error) :
  env _ (LimiterWait ctx) = Some err ->
  (forall g : GeocGo.Geocoder,
      run env (GeocGo.ReverseGeocode url_Parse unmarshal g ctx lat lng) lim
      = {| outcome := Returned (None, Some err);
           limiterAfter := lim;
           trace := [Ev (LimiterWait ctx) (Some err)] |})
  /\ (forall g : Part000.Geocoder,
         run env (Part000.ReverseGeocode url_Parse URL_String unmarshal g ctx lat lng) lim
         = {| outcome := Returned (None, Some err);
              limiterAfter := lim;
              trace := [Ev (LimiterWait ctx) (Some err)] |}).
Proof.
  intros Hwait. split; intros g.
  - unfold GeocGo.ReverseGeocode. step_run. rewrite Hwait. reflexivity.
  - unfold Part000.ReverseGeocode. step_run. rewrite Hwait. reflexivity.
Qed.

(** X2.  When [url.Parse] refuses the URL (the built URL in geoc.go, the
    base URL in part_000), [ReverseGeocode] returns a nil response and the
    error of [url.Parse]; nothing is signed or requested, whatever the
    business key. *)
Theorem X2_parse_error_passthrough
  (env : Oracle) (ctx : Context) (lat lng : float64) (lim : rate.Limiter) (err : error) :
  env _ (LimiterWait ctx) = None ->
  (forall g : GeocGo.Geocoder,
      url_Parse (GeocGo.buildURL g lat lng) = inr err ->
      run env (GeocGo.ReverseGeocode url_Parse unmarshal g ctx lat lng) lim
      = {| outcome := Returned (None, Some err);
           limiterAfter := lim;
           trace := [Ev (LimiterWait ctx) None] |})
  /\ (forall g : Part000.Geocoder,
         url_Parse (Part000.baseURL g) = inr err ->
         run env (Part000.ReverseGeocode url_Parse URL_String unmarshal g ctx lat lng) lim
         = {| outcome := Returned (None, Some err);
              limiterAfter := lim;
              trace := [Ev (LimiterWait ctx) None] |}).
Proof.
  intros Hwait. split; intros g Hparse.
  - unfold GeocGo.ReverseGeocode, GeocGo.signedURL. step_run.
    rewrite Hwait, Hparse. reflexivity.
  - unfold Part000.ReverseGeocode, Part000.buildURL. step_run.
    rewrite Hwait, Hparse. reflexivity.
Qed.

(** X3.  When the signing key of the business key, once translated to the
    standard alphabet, is not valid base64, [ReverseGeocode] returns a nil
    response and the error of the decoder, and no URL is requested: a
    request is never sent unsigned.  Both variants. *)
Theorem X3_malformed_key_stops_the_call
  (env : Oracle) (ctx : Context) (lat lng : float64) (lim : rate.Limiter)
  (bk : BusinessKey) (ur : url.URL) (err : error) :
  env _ (LimiterWait ctx) = None ->
  snd (base64.DecodeString (ReplaceAll (ReplaceAll (SigningKey bk) "-" "+") "_" "/"))
  = Some err ->
  (forall g : GeocGo.Geocoder,
      GeocGo.businessKey g = Some bk ->
      url_Parse (GeocGo.buildURL g lat lng) = inl ur ->
      run env (GeocGo.ReverseGeocode url_Parse unmarshal g ctx lat lng) lim
      = {| outcome := Returned (None, Some err);
           limiterAfter := lim;
           trace := [Ev (LimiterWait ctx) None] |})
  /\ (forall g : Part000.Geocoder,
         Part000.businessKey g = Some bk ->
         url_Parse (Part000.baseURL g) = inl ur ->
         run env (Part000.ReverseGeocode url_Parse URL_String unmarshal g ctx lat lng) lim
         = {| outcome := Returned (None, Some err);
              limiterAfter := lim;
              trace := [Ev (LimiterWait ctx) None] |}).
Proof.
  intros Hwait Hkey. split; intros g Hbk Hparse.
  - unfold GeocGo.ReverseGeocode, GeocGo.signedURL, GeocGo.getSignature. step_run.
    rewrite Hwait, Hparse, Hbk. step_run.
    destruct (base64.DecodeString _) as [bytes e]. cbn [snd] in Hkey. subst e.
    reflexivity.
  - unfold Part000.ReverseGeocode, Part000.buildURL, Part000.getSignature. step_run.
    rewrite Hwait, Hparse, Hbk. step_run.
    destruct (base64.DecodeString _) as [bytes e]. cbn [snd] in Hkey. subst e.
    reflexivity.
Qed.

(** X4.  part_000, for a client that has a business key: [buildURL] does
    not panic and returns either an error alone or a URL alone.  It returns
    the error of [url.Parse] when the base URL does not parse, the error of
    the base64 decoder when the key does not decode, and otherwise a URL
    that keeps every component of the parsed base URL but its raw query,
    which is replaced (a query the base URL came with is dropped) by the
    encoding of the parameters and of the signature. *)
Theorem X4_buildURL_outcomes
  (g : Part000.Geocoder) (bk : BusinessKey) (lat lng : float64) :
  Part000.businessKey g = Some bk ->
  match url_Parse (Part000.baseURL g) with
  | inr err => Part000.buildURL url_Parse g lat lng = Ret (None, Some err)
  | inl u0 =>
      match snd (base64.DecodeString
                   (ReplaceAll (ReplaceAll (SigningKey bk) "-" "+") "_" "/")) with
      | Some err => Part000.buildURL url_Parse g lat lng = Ret (None, Some err)
      | None =>
          exists (ur : url.URL) (signature : string),
            Part000.buildURL url_Parse g lat lng = Ret (Some ur, None)
            /\ url.Scheme ur = url.Scheme u0
            /\ url.Opaque ur = url.Opaque u0
            /\ url.Host ur = url.Host u0
            /\ url.Path ur = url.Path u0
            /\ url.RawPath ur = url.RawPath u0
            /\ url.ForceQuery ur = url.ForceQuery u0
            /\ url.Fragment ur = url.Fragment u0
            /\ url.RawQuery ur
               = url.Encode (url.Add (Part000.unsignedQuery g lat lng) "signature" signature)
      end
  end.
Proof.
  intros Hbk. unfold Part000.buildURL, Part000.getSignature. rewrite Hbk.
  destruct (url_Parse (Part000.baseURL g)) as [u0|err]; [|reflexivity].
  step_run. destruct (base64.DecodeString _) as [bytes [e|]]; cbn [snd]; [reflexivity|].
  cbv beta iota zeta delta [hmac.Write]. step_run.
  eexists. eexists. split; [reflexivity|]. repeat split.
Qed.

End EarlyReturns.

Lemma X1_witness :
  @answering (Some (ContextError "context canceled")) (None, None) _
    (LimiterWait (ContextHandle 0))
  = Some (ContextError "context canceled")
  /\ run (answering (Some (ContextError "context canceled")) (None, None))
       (Part000.ReverseGeocode sampleParse sampleString sampleUnmarshal samplePart000
          (ContextHandle 0) f45_32 f12_67)
       (Part000.limiter samplePart000)
     = {| outcome := Returned (None, Some (ContextError "context canceled"));
          limiterAfter := Part000.limiter samplePart000;
          trace := [Ev (LimiterWait (ContextHandle 0))
                      (Some (ContextError "context canceled"))] |}.
Proof.
  split; [reflexivity|].
  apply (proj2 (X1_wait_error_passthrough sampleParse sampleString sampleUnmarshal
                  (answering (Some (ContextError "context canceled")) (None, None))
                  (ContextHandle 0) f45_32 f12_67 (Part000.limiter samplePart000)
                  eq_refl)).
Defined.

(* ================================================================== *)
(** * Further properties: every path of a call *)
(* ================================================================== *)

Section Paths.

Variable url_Parse : string -> url.URL + error.
Variable URL_String : url.URL -> string.
Variable unmarshal : string -> GoogleResponse + error.

(** Splits a run along every answer the outside world can give. *)
Ltac paths env :=
  repeat (step_run;
    match goal with
    | |- context [env _ (LimiterWait ?ctx)] =>
        destruct (env _ (LimiterWait ctx)) as [?e|] eqn:Hwait
    | |- context [Part000.buildURL url_Parse ?g ?lat ?lng] =>
        destruct (pure_cases _ (@Part000_buildURL_pure url_Parse g lat lng))
          as [[[[?ur|] [?e|]] Hurl]|[?m Hurl]]; rewrite Hurl
    | |- context [GeocGo.signedURL url_Parse ?g ?lat ?lng] =>
        destruct (pure_cases _ (@GeocGo_signedURL_pure url_Parse g lat lng))
          as [[[?t [?e|]] Hurl]|[?m Hurl]]; rewrite Hurl
    | |- context [deref (Part000.client ?g)] =>
        destruct (Part000.client g) as [?c|] eqn:Hc
    | |- context [deref (GeocGo.client ?g)] =>
        destruct (GeocGo.client g) as [?c|] eqn:Hc
    | |- context [env _ (ClientGet ?c ?u)] =>
        destruct (env _ (ClientGet c u)) as [[?resp|] [?e|]] eqn:Hget
    | |- context [Part000.observer ?g] =>
        destruct (Part000.observer g) as [?o|] eqn:Ho
    | |- context [json.Decode unmarshal (Body ?resp)] =>
        destruct (json.Decode unmarshal (Body resp)) as [[?res|] [?e|]] eqn:Hdec
    | |- context [String.eqb (Status ?res) GRS_OVER_QUERY_LIMIT] =>
        destruct (String.eqb_spec (Status res) GRS_OVER_QUERY_LIMIT) as [Hst|Hst]
    | |- context [deref ?x] => is_var x; destruct x
    end);
  step_run.

(** X5.  When the body does not decode, [ReverseGeocode] returns a nil
    response and the error of the decoder; the throttle is not touched and
    the limiter is left as it was.  Both variants. *)
Theorem X5_decode_error_passthrough
  (env : Oracle) (ctx : Context) (lat lng : float64) (lim : rate.Limiter)
  (resp : Response) (res : option GoogleResponse) (err : error) :
  (forall g : GeocGo.Geocoder,
      decodesGeocGo url_Parse unmarshal env g ctx lat lng resp res (Some err) ->
      let r := run env (GeocGo.ReverseGeocode url_Parse unmarshal g ctx lat lng) lim in
      outcome r = Returned (None, Some err)
      /\ limiterAfter r = lim
      /\ throttleEvents (trace r) = [])
  /\ (forall g : Part000.Geocoder,
         decodesPart000 url_Parse URL_String unmarshal env g ctx lat lng resp res (Some err) ->
         let r := run env (Part000.ReverseGeocode url_Parse URL_String unmarshal
                             g ctx lat lng) lim in
         outcome r = Returned (None, Some err)
         /\ limiterAfter r = lim
         /\ throttleEvents (trace r) = []).
Proof.
  split; intros g (Hwait & u & c & Hurl & Hc & Hget & Hdec).
  - unfold GeocGo.ReverseGeocode. step_run. rewrite Hwait, Hurl. step_run.
    rewrite Hc. step_run. rewrite Hget. step_run. rewrite Hdec. repeat split.
  - unfold Part000.ReverseGeocode. step_run. rewrite Hwait, Hurl. step_run.
    rewrite Hc. step_run. rewrite Hget. step_run.
    destruct (Part000.observer g); step_run; rewrite Hdec; repeat split.
Qed.

(** X6.  A decoded response whose status is anything but OVER_QUERY_LIMIT
    (OK, ZERO_RESULTS, REQUEST_DENIED, an unknown or an empty status) is
    returned as it is with a nil error; the throttle is not touched and the
    limiter is left as it was.  Both variants. *)
Theorem X6_other_statuses_pass_through
  (env : Oracle) (ctx : Context) (lat lng : float64) (lim : rate.Limiter)
  (resp : Response) (res : GoogleResponse) :
  Status res <> GRS_OVER_QUERY_LIMIT ->
  (forall g : GeocGo.Geocoder,
      decodesGeocGo url_Parse unmarshal env g ctx lat lng resp (Some res) None ->
      let r := run env (GeocGo.ReverseGeocode url_Parse unmarshal g ctx lat lng) lim in
      outcome r = Returned (Some res, None)
      /\ limiterAfter r = lim
      /\ throttleEvents (trace r) = [])
  /\ (forall g : Part000.Geocoder,
         decodesPart000 url_Parse URL_String unmarshal env g ctx lat lng resp (Some res) None ->
         let r := run env (Part000.ReverseGeocode url_Parse URL_String unmarshal
                             g ctx lat lng) lim in
         outcome r = Returned (Some res, None)
         /\ limiterAfter r = lim
         /\ throttleEvents (trace r) = []).
Proof.
  intros Hst. apply String.eqb_neq in Hst.
  split; intros g (Hwait & u & c & Hurl & Hc & Hget & Hdec).
  - unfold GeocGo.ReverseGeocode. step_run. rewrite Hwait, Hurl. step_run.
    rewrite Hc. step_run. rewrite Hget. step_run. rewrite Hdec. step_run.
    rewrite Hst. repeat split.
  - unfold Part000.ReverseGeocode. step_run. rewrite Hwait, Hurl. step_run.
    rewrite Hc. step_run. rewrite Hget. step_run.
    destruct (Part000.observer g); step_run; rewrite Hdec; step_run;
      rewrite Hst; repeat split.
Qed.

(** X7.  Closing the body.  part_000 defers the close as soon as the
    transport has answered without an error: the body of that response is
    closed exactly once, as the last thing the call does, whether decoding
    fails, the call panics on a nil response, or it pauses and returns; no
    body is closed on any other path.  geoc.go defers the close after
    decoding: the body is closed (once) when the decoder reports no error
    and is left open when it reports one. *)
Theorem X7_body_close_discipline
  (env : Oracle) (ctx : Context) (lat lng : float64) (lim : rate.Limiter) :
  (forall g : Part000.Geocoder,
      let r := run env (Part000.ReverseGeocode url_Parse URL_String unmarshal
                          g ctx lat lng) lim in
      (forall resp : Response,
          answersPart000 url_Parse URL_String env g ctx lat lng (Some resp, None) ->
          closedBodies (trace r) = [resp]
          /\ List.last (List.map closedBody (trace r)) None = Some resp)
      /\ ((forall resp : Response,
              ~ answersPart000 url_Parse URL_String env g ctx lat lng (Some resp, None)) ->
          closedBodies (trace r) = []))
  /\ (forall g : GeocGo.Geocoder,
         let r := run env (GeocGo.ReverseGeocode url_Parse unmarshal g ctx lat lng) lim in
         (forall (resp : Response) (res : option GoogleResponse) (err : option error),
             decodesGeocGo url_Parse unmarshal env g ctx lat lng resp res err ->
             closedBodies (trace r) = match err with Some _ => [] | None => [resp] end)
         /\ ((forall (resp : Response) (res : option GoogleResponse),
                 ~ decodesGeocGo url_Parse unmarshal env g ctx lat lng resp res None) ->
             closedBodies (trace r) = [])).
Proof.
  split; intros g r; subst r; split.
  - intros resp (Hwait & ur & c & Hurl & Hc & Hget).
    unfold Part000.ReverseGeocode. step_run. rewrite Hwait, Hurl. step_run.
    rewrite Hc. step_run. rewrite Hget. paths env; split; reflexivity.
  - intros Hno. unfold Part000.ReverseGeocode. paths env; try reflexivity;
      exfalso; apply (Hno resp); (split; [exact Hwait|]); exists ur, c; auto.
  - intros resp res err (Hwait & t & c & Hurl & Hc & Hget & Hdec).
    unfold GeocGo.ReverseGeocode. step_run. rewrite Hwait, Hurl. step_run.
    rewrite Hc. step_run. rewrite Hget. step_run. rewrite Hdec.
    destruct err as [e|]; [reflexivity|]. paths env; reflexivity.
  - intros Hno. unfold GeocGo.ReverseGeocode. paths env; try reflexivity;
      exfalso; eapply Hno; (split; [exact Hwait|]); exists t, c; eauto.
Qed.

(** X8.  The observer of part_000.  With no observer nothing is reported.
    With one, when the transport has answered without an error the call
    goes on by reading the time elapsed since the instant it read just
    before [Get] and reporting it once under the label [google], before it
    decodes the body and whatever the decoding gives; it reports nothing
    when the call ends before that, in particular when the transport
    fails. *)
Theorem X8_observer_discipline
  (env : Oracle) (g : Part000.Geocoder) (ctx : Context) (lat lng : float64)
  (lim : rate.Limiter) :
  let r := run env (Part000.ReverseGeocode url_Parse URL_String unmarshal g ctx lat lng) lim in
  (Part000.observer g = None -> observations (trace r) = [])
  /\ (forall (o : RequestObserver) (ur : url.URL) (c : HTTPClient) (resp : Response),
         Part000.observer g = Some o ->
         env _ (LimiterWait ctx) = None ->
         Part000.buildURL url_Parse g lat lng = Ret (Some ur, None) ->
         Part000.client g = Some c ->
         env _ (ClientGet c (URL_String ur)) = (Some resp, None) ->
         exists post : list Event,
           trace r
           = [Ev (LimiterWait ctx) None;
              Ev TimeNow (env _ TimeNow);
              Ev (ClientGet c (URL_String ur)) (Some resp, None);
              Ev (TimeSince (env _ TimeNow)) (env _ (TimeSince (env _ TimeNow)));
              Ev (ObserveHTTPRequest o "google" (env _ (TimeSince (env _ TimeNow)))) tt]
             ++ post
           /\ observations post = [])
  /\ ((forall resp : Response,
          ~ answersPart000 url_Parse URL_String env g ctx lat lng (Some resp, None)) ->
      observations (trace r) = []).
Proof.
  cbv zeta. split; [|split].
  - intros Ho. unfold Part000.ReverseGeocode. rewrite Ho. paths env; reflexivity.
  - intros o ur c resp Ho Hwait Hurl Hc Hget.
    unfold Part000.ReverseGeocode. step_run. rewrite Hwait, Hurl. step_run.
    rewrite Hc, Ho. step_run. rewrite Hget. step_run. rewrite !unit_answer.
    destruct (json.Decode unmarshal (Body resp)) as [[res|] [e|]]; step_run;
      try destruct (String.eqb (Status res) GRS_OVER_QUERY_LIMIT); step_run;
      rewrite ?unit_answer;
      eexists; (split; [reflexivity|reflexivity]).
  - intros Hno. unfold Part000.ReverseGeocode. paths env; try reflexivity;
      exfalso; apply (Hno resp); (split; [exact Hwait|]); exists ur, c; auto.
Qed.

(** X9.  A nil response with a nil error.  When the limiter lets the call
    through, the URL is built and the transport returns neither a response
    nor an error, the call panics on a nil dereference ([resp.Body] with a
    nil [resp]: at the decoder in geoc.go, at the [defer] in part_000).
    The answer of the transport is the last event: nothing is observed,
    closed or paused, and the limiter is left as it was.  Both
    variants. *)
Theorem X9_nil_response_panics
  (env : Oracle) (ctx : Context) (lat lng : float64) (lim : rate.Limiter) (c : HTTPClient) :
  env _ (LimiterWait ctx) = None ->
  (forall (g : GeocGo.Geocoder) (targetURL : string),
      GeocGo.signedURL url_Parse g lat lng = Ret (targetURL, None) ->
      GeocGo.client g = Some c ->
      env _ (ClientGet c targetURL) = (None, None) ->
      run env (GeocGo.ReverseGeocode url_Parse unmarshal g ctx lat lng) lim
      = {| outcome := Panicked nilDereference;
           limiterAfter := lim;
           trace := [Ev (LimiterWait ctx) None;
                     Ev (ClientGet c targetURL) (None, None)] |})
  /\ (forall (g : Part000.Geocoder) (ur : url.URL),
         Part000.buildURL url_Parse g lat lng = Ret (Some ur, None) ->
         Part000.client g = Some c ->
         env _ (ClientGet c (URL_String ur)) = (None, None) ->
         run env (Part000.ReverseGeocode url_Parse URL_String unmarshal g ctx lat lng) lim
         = {| outcome := Panicked nilDereference;
              limiterAfter := lim;
              trace := [Ev (LimiterWait ctx) None;
                        Ev TimeNow (env _ TimeNow);
                        Ev (ClientGet c (URL_String ur)) (None, None)] |}).
Proof.
  intros Hwait. split.
  - intros g t Hurl Hc Hget. unfold GeocGo.ReverseGeocode. step_run.
    rewrite Hwait, Hurl. step_run. rewrite Hc. step_run. rewrite Hget. reflexivity.
  - intros g ur Hurl Hc Hget. unfold Part000.ReverseGeocode. step_run.
    rewrite Hwait, Hurl. step_run. rewrite Hc. step_run. rewrite Hget. reflexivity.
Qed.

(** A call leaves a limiter that was at the configured rate as it was. *)
Lemma GeocGo_call_restores (env : Oracle) (g : GeocGo.Geocoder) (ctx : Context)
  (lat lng : float64) (lim : rate.Limiter) :
  rate.limit lim = rate.Limit_of_int (GeocGo.rps g) ->
  limiterAfter (run env (GeocGo.ReverseGeocode url_Parse unmarshal g ctx lat lng) lim) = lim.
Proof.
  intros Hlim. destruct lim as [l b]. cbn [rate.limit] in Hlim. subst l.
  unfold GeocGo.ReverseGeocode. paths env; reflexivity.
Qed.

Lemma Part000_call_restores (env : Oracle) (g : Part000.Geocoder) (ctx : Context)
  (lat lng : float64) (lim : rate.Limiter) :
  rate.limit lim = rate.Limit_of_int (Part000.rps g) ->
  limiterAfter (run env (Part000.ReverseGeocode url_Parse URL_String unmarshal g ctx lat lng)
                  lim)
  = lim.
Proof.
  intros Hlim. destruct lim as [l b]. cbn [rate.limit] in Hlim. subst l.
  unfold Part000.ReverseGeocode. paths env; reflexivity.
Qed.

(** X10.  A call that has run to its end, whatever its outcome, leaves a
    limiter that was at the configured rate exactly as it was: the pause of
    an over-limit answer is always followed by the resume.  Both
    variants. *)
Theorem X10_call_leaves_limiter_running
  (env : Oracle) (ctx : Context) (lat lng : float64) (lim : rate.Limiter) :
  (forall g : GeocGo.Geocoder,
      rate.limit lim = rate.Limit_of_int (GeocGo.rps g) ->
      limiterAfter (run env (GeocGo.ReverseGeocode url_Parse unmarshal g ctx lat lng) lim)
      = lim)
  /\ (forall g : Part000.Geocoder,
         rate.limit lim = rate.Limit_of_int (Part000.rps g) ->
         limiterAfter (run env (Part000.ReverseGeocode url_Parse URL_String unmarshal
                                  g ctx lat lng) lim)
         = lim).
Proof.
  split; intros g Hlim.
  - now apply GeocGo_call_restores.
  - now apply Part000_call_restores.
Qed.

(** X17.  A client as [NewGeocoder] returns it.  Its rate is positive, its
    limiter has that rate as its limit (not negative) and a burst of 1,
    and any number of calls made on it one after the other, whatever the
    outside world answers to each, leave the limiter as it was
    constructed.  Both variants. *)
Theorem X17_constructed_client_keeps_its_rate
  (bkey : option BusinessKey) (baseURL language : string) (client : option HTTPClient)
  (requestPerSecond : Z) (overQuerySleepDuration : Duration)
  (observer : option RequestObserver)
  (cs : list (Oracle * (Context * (float64 * float64)))) :
  (forall g : GeocGo.Geocoder,
      GeocGo.NewGeocoder bkey baseURL language client requestPerSecond
        overQuerySleepDuration = (Some g, None) ->
      0 < GeocGo.rps g
      /\ GeocGo.limiter g = rate.NewLimiter (rate.Limit_of_int (GeocGo.rps g)) 1
      /\ rate.negative (rate.limit (GeocGo.limiter g)) = false
      /\ limiterAfterCalls (GeocGo.ReverseGeocode url_Parse unmarshal g)
           (GeocGo.limiter g) cs
         = GeocGo.limiter g)
  /\ (forall g : Part000.Geocoder,
         Part000.NewGeocoder bkey baseURL language client requestPerSecond
           overQuerySleepDuration observer = (Some g, None) ->
         0 < Part000.rps g
         /\ Part000.limiter g = rate.NewLimiter (rate.Limit_of_int (Part000.rps g)) 1
         /\ rate.negative (rate.limit (Part000.limiter g)) = false
         /\ limiterAfterCalls (Part000.ReverseGeocode url_Parse URL_String unmarshal g)
              (Part000.limiter g) cs
            = Part000.limiter g).
Proof.
  split; intros g H.
  - unfold GeocGo.NewGeocoder in H.
    destruct bkey as [bk|]; [|discriminate].
    destruct (String.eqb baseURL ""); [discriminate|].
    destruct client as [c|]; [|discriminate].
    destruct (Z.leb_spec requestPerSecond 0) as [Hr|Hr]; [discriminate|].
    injection H as <-. cbn [GeocGo.rps GeocGo.limiter].
    split; [exact Hr|]. split; [reflexivity|].
    split; [apply Limit_of_int_not_negative; lia|].
    set (g := {| GeocGo.businessKey := Some bk; GeocGo.rps := requestPerSecond |}).
    assert (Hinv : forall lim, lim = GeocGo.limiter g ->
              limiterAfterCalls (GeocGo.ReverseGeocode url_Parse unmarshal g) lim cs = lim).
    { induction cs as [|[env [ctx [lat lng]]] cs' IH]; intros lim Hlim; [reflexivity|].
      cbn [limiterAfterCalls]. rewrite GeocGo_call_restores by (subst lim; reflexivity).
      now apply IH. }
    now apply Hinv.
  - unfold Part000.NewGeocoder in H.
    destruct bkey as [bk|]; [|discriminate].
    destruct (String.eqb baseURL ""); [discriminate|].
    destruct client as [c|]; [|discriminate].
    destruct (Z.leb_spec requestPerSecond 0) as [Hr|Hr]; [discriminate|].
    injection H as <-. cbn [Part000.rps Part000.limiter].
    split; [exact Hr|]. split; [reflexivity|].
    split; [apply Limit_of_int_not_negative; lia|].
    set (g := {| Part000.businessKey := Some bk; Part000.rps := requestPerSecond |}).
    assert (Hinv : forall lim, lim = Part000.limiter g ->
              limiterAfterCalls (Part000.ReverseGeocode url_Parse URL_String unmarshal g)
                lim cs = lim).
    { induction cs as [|[env [ctx [lat lng]]] cs' IH]; intros lim Hlim; [reflexivity|].
      cbn [limiterAfterCalls]. rewrite Part000_call_restores by (subst lim; reflexivity).
      now apply IH. }
    now apply Hinv.
Qed.

(** X18.  One wait, then at most one request.  Every call begins by
    waiting on the limiter with the context of the caller, and waits on it
    at no other point; it hands at most one URL to the transport, and none
    unless that wait has answered without an error.  Both variants. *)
Theorem X18_one_wait_before_the_request
  (env : Oracle) (ctx : Context) (lat lng : float64) (lim : rate.Limiter) :
  (forall g : GeocGo.Geocoder,
      let tr := trace (run env (GeocGo.ReverseGeocode url_Parse unmarshal g ctx lat lng) lim) in
      List.hd_error tr = Some (Ev (LimiterWait ctx) (env _ (LimiterWait ctx)))
      /\ waits tr = [ctx]
      /\ (List.length (requestedURLs tr) <= 1)%nat
      /\ (requestedURLs tr <> [] -> env _ (LimiterWait ctx) = None))
  /\ (forall g : Part000.Geocoder,
         let tr := trace (run env (Part000.ReverseGeocode url_Parse URL_String unmarshal
                                     g ctx lat lng) lim) in
         List.hd_error tr = Some (Ev (LimiterWait ctx) (env _ (LimiterWait ctx)))
         /\ waits tr = [ctx]
         /\ (List.length (requestedURLs tr) <= 1)%nat
         /\ (requestedURLs tr <> [] -> env _ (LimiterWait ctx) = None)).
Proof.
  split; intros g tr; subst tr.
  - unfold GeocGo.ReverseGeocode. paths env;
      (split; [reflexivity|]); (split; [reflexivity|]);
      (split; [cbn; lia|]); cbn; congruence.
  - unfold Part000.ReverseGeocode. paths env;
      (split; [reflexivity|]); (split; [reflexivity|]);
      (split; [cbn; lia|]); cbn; congruence.
Qed.

End Paths.

(* ================================================================== *)
(** * Further properties: two calls at once *)
(* ================================================================== *)

Lemma effectOn_other {X : Type} (e : Effect X) (lim : rate.Limiter) :
  installs e = None -> effectOn e lim = lim.
Proof. destruct e; cbn; congruence. Qed.

Lemma setNth_same {A : Type} (i : nat) (a : A) (l : list A) :
  nth_error l i = Some a -> setNth i a l = l.
Proof.
  revert i. induction l as [|b l IH]; intros [|i]; cbn; try discriminate.
  - now intros [= ->].
  - intros H. now rewrite (IH i H).
Qed.

Lemma setNth_twice {A : Type} (i : nat) (a b : A) (l : list A) :
  setNth i a (setNth i b l) = setNth i a l.
Proof.
  revert i. induction l as [|c l IH]; intros [|i]; cbn; try reflexivity.
  now rewrite IH.
Qed.

Lemma nth_error_setNth {A : Type} (i : nat) (a b : A) (l : list A) :
  nth_error l i = Some b -> nth_error (setNth i a l) i = Some a.
Proof.
  revert i. induction l as [|c l IH]; intros [|i]; cbn; try discriminate; auto.
Qed.

Section TwoCalls.

Variable call : Context -> float64 -> float64 -> Prog Result.
Variable lim0 : rate.Limiter.

(** A call in flight can be taken along any run of effects that leave the
    limiter alone. *)
Lemma reachable_advance (p p' : Prog Result) :
  advances p p' ->
  forall (s : Client) (i : nat),
    reachable call lim0 s ->
    nth_error (calls s) i = Some p ->
    reachable call lim0 {| throttle := throttle s; calls := setNth i p' (calls s) |}.
Proof.
  induction 1 as [p|X e k x p' He Hadv IH]; intros s i Hs Hnth.
  - rewrite (setNth_same _ _ Hnth). now destruct s.
  - pose proof (reachable_step Hs (@step_effect call s i X e k x Hnth)) as Hs'.
    specialize (IH _ i Hs' (nth_error_setNth _ (k x) _ Hnth)).
    cbn [throttle calls] in IH. now rewrite setNth_twice, (effectOn_other _ _ He) in IH.
Qed.

(** Two calls that can both get to the point where the pause begins. *)
Lemma resumedEarly_intro (rps : Z) (d : Duration) (ctx : Context) (lat lng : float64)
  (k : unit -> Prog Result) :
  advances (call ctx lat lng)
    (Vis (LimiterSetLimit (rate.Limit_of_int 0))
       (fun _ => Vis (TimeSleep d)
                   (fun _ => Vis (LimiterSetLimit (rate.Limit_of_int rps)) k))) ->
  resumedEarly call lim0 rps d.
Proof.
  intros Hadv.
  set (P2 := Vis (LimiterSetLimit (rate.Limit_of_int rps)) k).
  set (P1 := Vis (TimeSleep d) (fun _ : unit => P2)).
  set (P0 := Vis (LimiterSetLimit (rate.Limit_of_int 0)) (fun _ : unit => P1)).
  fold P2 P1 P0 in Hadv.
  (* the first call gets to the pause *)
  pose proof (reachable_new call lim0) as R.
  pose proof (reachable_step R (@step_start call _ ctx lat lng)) as Ra.
  cbn [throttle calls List.app] in Ra.
  pose proof (@reachable_advance _ _ Hadv _ 0%nat Ra eq_refl) as Ra'.
  cbn [throttle calls setNth] in Ra'.
  (* so does the second *)
  pose proof (reachable_step Ra' (@step_start call _ ctx lat lng)) as Rb.
  cbn [throttle calls List.app] in Rb.
  pose proof (@reachable_advance _ _ Hadv _ 1%nat Rb eq_refl) as Rb'.
  cbn [throttle calls setNth] in Rb'.
  (* both suspend, the first sleeps *)
  set (L0 := rate.Limit_of_int 0) in *.
  set (Lr := rate.Limit_of_int rps) in *.
  pose proof (reachable_step Rb'
                (@step_effect call {| throttle := lim0; calls := [P0; P0] |} 0%nat unit
                   (LimiterSetLimit L0) (fun _ => P1) tt eq_refl)) as R1.
  cbn [throttle calls setNth effectOn] in R1.
  pose proof (reachable_step R1
                (@step_effect call {| throttle := rate.SetLimit lim0 L0; calls := [P1; P0] |}
                   1%nat unit (LimiterSetLimit L0) (fun _ => P1) tt eq_refl)) as R2.
  cbn [throttle calls setNth effectOn] in R2.
  pose proof (reachable_step R2
                (@step_effect call
                   {| throttle := rate.SetLimit (rate.SetLimit lim0 L0) L0;
                      calls := [P1; P1] |}
                   0%nat unit (TimeSleep d) (fun _ => P2) tt eq_refl)) as R3.
  cbn [throttle calls setNth effectOn] in R3.
  (* and resumes *)
  exists {| throttle := rate.SetLimit (rate.SetLimit lim0 L0) L0; calls := [P2; P1] |}.
  eexists. eexists. exists 1%nat, P1. split; [exact R3|].
  split; [exact (@step_effect call
                   {| throttle := rate.SetLimit (rate.SetLimit lim0 L0) L0;
                      calls := [P2; P1] |}
                   0%nat unit (LimiterSetLimit Lr) k tt eq_refl)|].
  cbn [throttle calls setNth effectOn rate.limit rate.SetLimit nth_error].
  repeat split. now exists k.
Qed.

End TwoCalls.

Section Overlap.

Variable url_Parse : string -> url.URL + error.
Variable URL_String : url.URL -> string.
Variable unmarshal : string -> GoogleResponse + error.

(** X11.  Overlapping pauses.  When a body decodes to an OVER_QUERY_LIMIT
    response and the URL can be built, two calls on one client can
    interleave so that both set the limit to 0, and the first to wake sets
    it back to [rps] while the other has its whole sleep still ahead: the
    limiter runs at the configured rate during the pause of the second
    call.  The two writes of the pause are not guarded.  Both variants. *)
Theorem X11_overlapping_pauses
  (ctx : Context) (lat lng : float64) (c : HTTPClient) (resp : Response)
  (res : GoogleResponse) :
  json.Decode unmarshal (Body resp) = (Some res, None) ->
  Status res = GRS_OVER_QUERY_LIMIT ->
  (forall (g : GeocGo.Geocoder) (targetURL : string),
      GeocGo.signedURL url_Parse g lat lng = Ret (targetURL, None) ->
      GeocGo.client g = Some c ->
      resumedEarly (GeocGo.ReverseGeocode url_Parse unmarshal g) (GeocGo.limiter g)
        (GeocGo.rps g) (GeocGo.overQuerySleepDuration g))
  /\ (forall (g : Part000.Geocoder) (ur : url.URL),
         Part000.buildURL url_Parse g lat lng = Ret (Some ur, None) ->
         Part000.client g = Some c ->
         resumedEarly (Part000.ReverseGeocode url_Parse URL_String unmarshal g)
           (Part000.limiter g) (Part000.rps g) (Part000.overQuerySleepDuration g)).
Proof.
  intros Hdec Hst. split.
  - intros g t Hurl Hc.
    eapply resumedEarly_intro with (ctx := ctx) (lat := lat) (lng := lng).
    unfold GeocGo.ReverseGeocode. cbn [bind perform].
    eapply advances_step with (x := None); [reflexivity|].
    cbn [bind]. rewrite Hurl. cbn [bind]. rewrite Hc. cbn [bind deref perform].
    eapply advances_step with (x := (Some resp, None)); [reflexivity|].
    cbn [bind deref]. rewrite Hdec. cbn [bind deref deferred].
    rewrite Hst, String.eqb_refl. cbn [bind deref deferred cooldown perform].
    apply advances_refl.
  - intros g ur Hurl Hc.
    eapply resumedEarly_intro with (ctx := ctx) (lat := lat) (lng := lng).
    unfold Part000.ReverseGeocode. cbn [bind perform].
    eapply advances_step with (x := None); [reflexivity|].
    cbn [bind]. rewrite Hurl. cbn [bind perform].
    eapply advances_step with (x := 0); [reflexivity|].
    cbn [bind deref]. rewrite Hc. cbn [bind deref perform].
    eapply advances_step with (x := (Some resp, None)); [reflexivity|].
    cbn [bind deref]. destruct (Part000.observer g) as [o|].
    + cbn [bind deref deferred perform].
      eapply advances_step with (x := 0); [reflexivity|].
      cbn [bind deref deferred perform].
      eapply advances_step with (x := tt); [reflexivity|].
      cbn [bind deref deferred perform]. rewrite Hdec. cbn [bind deref deferred].
      rewrite Hst, String.eqb_refl. cbn [bind deref deferred cooldown perform].
      apply advances_refl.
    + cbn [bind deref deferred perform]. rewrite Hdec. cbn [bind deref deferred].
      rewrite Hst, String.eqb_refl. cbn [bind deref deferred cooldown perform].
      apply advances_refl.
Qed.

End Overlap.

(* ================================================================== *)
(** * Further properties: the signature as a text *)
(* ================================================================== *)

Lemma length_block (h p : list Z) : List.length (sha1.block h p) = 5%nat.
Proof. unfold sha1.block. destruct (sha1.rounds _ _ _). reflexivity. Qed.

Lemma length_blocks (fuel : nat) (h p : list Z) :
  List.length h = 5%nat -> List.length (sha1.blocks fuel h p) = 5%nat.
Proof.
  revert h p. induction fuel as [|fuel IH]; intros h p Hh; cbn [sha1.blocks]; [exact Hh|].
  destruct p; [exact Hh|]. apply IH, length_block.
Qed.

Lemma length_bigEndian (n : nat) (x : Z) : List.length (sha1.bigEndian n x) = n.
Proof. unfold sha1.bigEndian. now rewrite List.length_map, List.length_rev, List.length_seq. Qed.

(** A SHA-1 digest has 20 bytes. *)
Lemma length_sha1_Sum (msg : list Z) : List.length (sha1.Sum msg) = 20%nat.
Proof.
  unfold sha1.Sum.
  pose proof (length_blocks (List.length (sha1.pad msg)) sha1.init (sha1.pad msg) eq_refl) as H.
  destruct (sha1.blocks _ _ _) as [|a [|b [|c [|d [|e [|f l]]]]]]; try discriminate H.
  cbn [flat_map]. rewrite !List.length_app, !length_bigEndian. reflexivity.
Qed.

Lemma urlSafe_encodeChar (x : Z) :
  urlSafeChar (Reference.toURLSafe (base64.encodeChar (Z.land x 63))) = true.
Proof.
  assert (H : (Z.to_nat (Z.land x 63) < 64)%nat).
  { change 63 with (Z.ones 6). rewrite Z.land_ones by lia.
    pose proof (Z.mod_pos_bound x (2 ^ 6) eq_refl). lia. }
  unfold base64.encodeChar. revert H. generalize (Z.to_nat (Z.land x 63)) as n.
  intros n H. do 64 (destruct n as [|n]; [reflexivity|]). lia.
Qed.

(** The encoding of 20 bytes, once in the URL-safe alphabet: 27 characters
    of that alphabet and one [=]. *)
Lemma signature_of_digest (digest : list Z) :
  List.length digest = 20%nat ->
  let s := string_map Reference.toURLSafe (base64.EncodeToString digest) in
  isSignatureText s = true
  /\ string_forall (fun c => urlSafeChar c || Ascii.eqb c "=") s = true.
Proof.
  intros H.
  do 20 (destruct digest as [|? digest]; [discriminate H|]).
  destruct digest; [|discriminate H].
  cbv zeta. unfold isSignatureText.
  cbn [base64.encode base64.EncodeToString string_of_list_ascii string_map String.length
       String.substring string_forall Nat.eqb].
  rewrite !urlSafe_encodeChar. split; reflexivity.
Qed.

Lemma sign_shape (secretKey input signature : string) :
  Reference.sign secretKey input = inr signature ->
  isSignatureText signature = true
  /\ string_forall (fun c => urlSafeChar c || Ascii.eqb c "=") signature = true.
Proof.
  unfold Reference.sign.
  destruct (base64.DecodeString _) as [key [err|]]; [discriminate|].
  intros [= <-]. apply signature_of_digest.
  unfold Reference.HMAC_SHA1. apply length_sha1_Sum.
Qed.

Lemma asGoResult_ok (r : error + string) (signature : string) :
  Ret (Reference.asGoResult r) = Ret (signature, None) -> r = inr signature.
Proof. destruct r; cbn; intros [= <-]; reflexivity. Qed.

(** X12.  The shape of a signature.  Whenever [getSignature] returns
    without an error, whatever the key and the input, the signature has 28
    characters: 27 from the URL-safe alphabet (letters, digits, [-] and
    [_]; never [+] or [/]) and a final [=].  Both variants. *)
Theorem X12_signature_shape (bk : BusinessKey) (targetURL signature : string) :
  (forall g : GeocGo.Geocoder,
      GeocGo.businessKey g = Some bk ->
      GeocGo.getSignature g targetURL = Ret (signature, None) ->
      isSignatureText signature = true)
  /\ (forall g : Part000.Geocoder,
         Part000.businessKey g = Some bk ->
         Part000.getSignature g targetURL = Ret (signature, None) ->
         isSignatureText signature = true).
Proof.
  split; intros g Hbk H.
  - rewrite (GeocGo_getSignature_sign g _ Hbk) in H.
    exact (proj1 (sign_shape _ _ (asGoResult_ok _ H))).
  - rewrite (Part000_getSignature_sign g _ Hbk) in H.
    exact (proj1 (sign_shape _ _ (asGoResult_ok _ H))).
Qed.

(** X13.  The alphabet of the key.  Two keys that are the same once [-]
    is read as [+] and [_] as [/] (a key in the URL-safe alphabet, the same
    key in the standard alphabet, or a mix of both) sign every input
    identically, in either variant and across the variants. *)
Theorem X13_key_alphabet_is_immaterial
  (g1 : GeocGo.Geocoder) (g2 : Part000.Geocoder) (bk1 bk2 : BusinessKey)
  (targetURL : string) :
  GeocGo.businessKey g1 = Some bk1 ->
  Part000.businessKey g2 = Some bk2 ->
  ReplaceAll (ReplaceAll (SigningKey bk1) "-" "+") "_" "/"
  = ReplaceAll (ReplaceAll (SigningKey bk2) "-" "+") "_" "/" ->
  GeocGo.getSignature g1 targetURL = Part000.getSignature g2 targetURL
  /\ (forall g : GeocGo.Geocoder,
         GeocGo.businessKey g = Some bk2 ->
         GeocGo.getSignature g targetURL = GeocGo.getSignature g1 targetURL)
  /\ (forall g : Part000.Geocoder,
         Part000.businessKey g = Some bk1 ->
         Part000.getSignature g targetURL = Part000.getSignature g2 targetURL).
Proof.
  intros H1 H2 Hkeys. rewrite !ReplaceAll_toStandard in Hkeys.
  assert (Hsign : Reference.sign (SigningKey bk1) targetURL
                  = Reference.sign (SigningKey bk2) targetURL).
  { unfold Reference.sign. now rewrite Hkeys. }
  rewrite (GeocGo_getSignature_sign g1 _ H1), (Part000_getSignature_sign g2 _ H2), Hsign.
  split; [reflexivity|]. split; intros g Hg.
  - now rewrite (GeocGo_getSignature_sign g _ Hg).
  - now rewrite (Part000_getSignature_sign g _ Hg), Hsign.
Qed.

(* ================================================================== *)
(** * Further properties: the query read back *)
(* ================================================================== *)

Lemma no_amp_app (a b : string) :
  string_forall (fun c => negb (Ascii.eqb c "&")) (a +++ b)
  = string_forall (fun c => negb (Ascii.eqb c "&")) a
    && string_forall (fun c => negb (Ascii.eqb c "&")) b.
Proof. apply string_forall_app. Qed.

(** A query written from pairs whose keys hold no separator and whose
    values hold no [&] splits back into them: a value may hold [=]. *)
Lemma rawParams_joinRaw_values (ps : list (string * string)) :
  Forall (fun kv => string_forall wireSafe (fst kv) = true
                    /\ string_forall (fun c => negb (Ascii.eqb c "&")) (snd kv) = true) ps ->
  url.rawParams (url.joinRaw ps) = ps.
Proof.
  unfold url.rawParams, url.joinRaw.
  induction 1 as [|[k v] ps [Hk Hv] Hps IH]; [reflexivity|].
  cbn [fst snd] in Hk, Hv.
  assert (Hpiece : string_forall (fun c => negb (Ascii.eqb c "&")) (k +++ "=" +++ v) = true).
  { rewrite !no_amp_app, (wireSafe_no_amp _ Hk), Hv. reflexivity. }
  destruct ps as [|p ps].
  - cbn [List.map String.concat fst snd].
    rewrite (splitOn_none _ _ Hpiece). cbn [List.filter].
    rewrite piece_not_empty. cbn [negb List.map]. now rewrite keyValue_pair.
  - change (String.concat "&" (List.map _ ((k, v) :: p :: ps)))
      with ((k +++ "=" +++ v) +++ "&" +++
            String.concat "&" (List.map (fun kv => fst kv +++ "=" +++ snd kv) (p :: ps))).
    change ("&" +++ ?x) with (String "&" x).
    rewrite (splitOn_sep _ _ _ Hpiece). cbn [List.filter].
    rewrite piece_not_empty. cbn [negb List.map].
    rewrite keyValue_pair by assumption. f_equal. exact IH.
Qed.

Lemma joinRaw_snoc (ps : list (string * string)) (k v : string) :
  ps <> [] ->
  url.joinRaw (ps ++ [(k, v)]) = url.joinRaw ps +++ "&" +++ k +++ "=" +++ v.
Proof.
  unfold url.joinRaw. induction ps as [|p ps IH]; [congruence|]. intros _.
  destruct ps as [|q ps].
  - cbn. now rewrite !append_assoc.
  - change (String.concat "&" (List.map ?f ((p :: q :: ps) ++ [(k, v)])))
      with (f p +++ "&" +++ String.concat "&" (List.map f ((q :: ps) ++ [(k, v)]))).
    rewrite IH by discriminate.
    change (String.concat "&" (List.map ?f (p :: q :: ps)))
      with (f p +++ "&" +++ String.concat "&" (List.map f (q :: ps))).
    now rewrite !append_assoc.
Qed.

(** A text without [%] and [+] unescapes to itself. *)
Lemma QueryUnescape_plain (s : string) :
  string_forall (fun c => negb (Ascii.eqb c "%") && negb (Ascii.eqb c "+")) s = true ->
  url.QueryUnescape s = Some s.
Proof.
  induction s as [|c s IH]; [reflexivity|]. cbn [string_forall url.QueryUnescape].
  intros H. apply andb_prop in H as [Hc Hs]. apply andb_prop in Hc as [H1 H2].
  apply negb_true_iff in H1, H2. now rewrite H1, H2, (IH Hs).
Qed.

Lemma string_forall_impl (p q : ascii -> bool) (s : string) :
  (forall c, p c = true -> q c = true) ->
  string_forall p s = true -> string_forall q s = true.
Proof.
  intros Hpq. induction s as [|c s IH]; cbn; [reflexivity|]. intros H.
  apply andb_prop in H as [Hc Hs]. now rewrite (Hpq _ Hc), (IH Hs).
Qed.

Lemma signature_char_plain (c : ascii) :
  urlSafeChar c || Ascii.eqb c "=" = true ->
  negb (Ascii.eqb c "%") && negb (Ascii.eqb c "+") = true.
Proof. destruct c as [[] [] [] [] [] [] [] []]; cbn; congruence. Qed.

Lemma signature_char_no_amp (c : ascii) :
  urlSafeChar c || Ascii.eqb c "=" = true -> negb (Ascii.eqb c "&") = true.
Proof. destruct c as [[] [] [] [] [] [] [] []]; cbn; congruence. Qed.

Lemma writtenPairs_not_empty (g : GeocGo.Geocoder) (lat lng : float64) :
  writtenPairs g lat lng <> [].
Proof. unfold writtenPairs. cbn. discriminate. Qed.

Lemma unescapePairs_escapePair (ps : list (string * string)) :
  unescapePairs (List.map escapePair ps) = Some ps.
Proof.
  induction ps as [|[k v] ps IH]; [reflexivity|].
  cbn [List.map escapePair unescapePairs fst snd].
  now rewrite !QueryUnescape_QueryEscape, IH.
Qed.

Lemma digits_plain (s : string) :
  string_forall isDigit s = true ->
  string_forall (fun c => negb (Ascii.eqb c "%") && negb (Ascii.eqb c "+")) s = true.
Proof.
  apply string_forall_impl. intros c.
  destruct c as [[] [] [] [] [] [] [] []]; cbn; congruence.
Qed.

(** The text of a finite coordinate unescapes to itself. *)
Lemma Sprintf_8f_plain (x : float64) :
  isFinite x = true ->
  string_forall (fun c => negb (Ascii.eqb c "%") && negb (Ascii.eqb c "+"))
    (fmt.Sprintf_8f x) = true.
Proof.
  destruct x as [s|s| |s m e]; cbn [isFinite]; try discriminate; intros _.
  - destruct s; reflexivity.
  - unfold fmt.Sprintf_8f. rewrite !string_forall_app.
    rewrite (digits_plain _ (isDigit_decimal _)), (digits_plain _ (isDigit_fixedDigits _ _)).
    destruct s; reflexivity.
Qed.

Section ReadBack.

Variable url_Parse : string -> url.URL + error.

(** X14.  geoc.go appends the signature as it is, without escaping it.
    Whenever the URL is signed, the requested URL is the built URL, the
    text [&signature=] and a signature of 27 URL-safe characters and one
    [=]; read as a
    query, the text after the base URL and its [?] then splits into the
    pairs of the built URL and one more pair, [signature], whose value
    unescapes to the signature itself: nothing in it is taken for a
    separator or an escape. *)
Theorem X14_raw_signature_is_well_formed
  (g : GeocGo.Geocoder) (lat lng : float64) (targetURL : string) :
  GeocGo.signedURL url_Parse g lat lng = Ret (targetURL, None) ->
  exists q signature : string,
    GeocGo.buildURL g lat lng = GeocGo.baseURL g +++ "?" +++ q
    /\ targetURL = GeocGo.baseURL g +++ "?" +++ q +++ "&signature=" +++ signature
    /\ isSignatureText signature = true
    /\ url.rawParams (q +++ "&signature=" +++ signature)
       = url.rawParams q ++ [("signature", signature)]
    /\ url.QueryUnescape signature = Some signature.
Proof.
  intros H. destruct (GeocGo_signedURL_ok _ _ _ _ H) as (ur & sig & _ & Hsig & ->).
  assert (Hbk : exists bk, GeocGo.businessKey g = Some bk).
  { unfold GeocGo.getSignature in Hsig.
    destruct (GeocGo.businessKey g) as [bk|]; [now exists bk|discriminate]. }
  destruct Hbk as [bk Hbk].
  rewrite (GeocGo_getSignature_sign g _ Hbk) in Hsig.
  destruct (sign_shape _ _ (asGoResult_ok _ Hsig)) as [Hshape Hchars].
  exists (url.joinRaw (writtenPairs g lat lng)), sig.
  split; [apply GeocGo_buildURL_pairs|].
  split; [rewrite GeocGo_buildURL_pairs; now rewrite !append_assoc|].
  split; [exact Hshape|]. split.
  - change ("&signature=" +++ sig) with ("&" +++ "signature" +++ "=" +++ sig).
    rewrite <- joinRaw_snoc by apply writtenPairs_not_empty.
    rewrite rawParams_writtenPairs. apply rawParams_joinRaw_values.
    apply Forall_app. split.
    + eapply Forall_impl; [|apply writtenPairs_wireSafe].
      intros [k v] [Hk Hv]. split; [exact Hk|]. now apply wireSafe_no_amp.
    + constructor; [|constructor]. split; [reflexivity|].
      exact (@string_forall_impl _ _ sig signature_char_no_amp Hchars).
  - apply QueryUnescape_plain.
    exact (@string_forall_impl _ _ sig signature_char_plain Hchars).
Qed.

(** X15.  part_000: reading the query back.  Splitting the query of a
    built URL into pairs and unescaping them succeeds, and gives every key
    exactly the values the function had put under it in its [url.Values]
    (the one coordinate text, [false], the language, the client
    identifier, the channel, the signature, each as configured), and gives
    no value to any other key: escaping loses nothing. *)
Theorem X15_query_reads_back
  (g : Part000.Geocoder) (lat lng : float64) (ur : url.URL) :
  Part000.buildURL url_Parse g lat lng = Ret (Some ur, None) ->
  exists (signature : string) (ps : list (string * string)),
    unescapePairs (url.rawParams (url.RawQuery ur)) = Some ps
    /\ forall key : string,
         valuesOf key ps
         = url.lookup (url.Add (Part000.unsignedQuery g lat lng) "signature" signature) key.
Proof.
  intros H.
  destruct (Part000_buildURL_ok _ _ _ _ H) as (_ & bk & _ & _ & Hbk & _ & _).
  destruct (Part000_buildURL_params _ _ _ _ H) as (sig & Hps & _ & _).
  exists sig, (canonicalPairs g lat lng ++ [("signature", sig)]).
  rewrite Hps. split; [apply unescapePairs_escapePair|].
  unfold canonicalPairs, Part000.unsignedQuery, valuesOf. rewrite Hbk.
  destruct (String.eqb (Channel bk) ""); destruct (String.eqb (Part000.language g) "");
    match goal with
    | |- forall key, _ = url.lookup ?q key =>
        let q' := eval cbn in q in change q with q'
    end;
    intros key; cbn [List.app List.filter List.map fst snd url.lookup];
    repeat (match goal with
            | |- context [String.eqb ?k key] =>
                destruct (String.eqb_spec k key) as [<-|?]
            end; cbn [List.app List.filter List.map fst snd url.lookup]);
    reflexivity.
Qed.

(** X16.  The two variants send the same parameters.  For finite
    coordinates and clients with the same business key and language, the
    query geoc.go builds and the query of the URL part_000 builds unescape
    to pairs that give every key but [signature] the same values: they
    differ in the order of the pairs, in the escaping of the comma of
    [latlng], and in what the signature is computed over. *)
Theorem X16_variants_send_the_same_parameters
  (g1 : GeocGo.Geocoder) (g2 : Part000.Geocoder) (lat lng : float64) (ur : url.URL) :
  isFinite lat = true ->
  isFinite lng = true ->
  GeocGo.businessKey g1 = Part000.businessKey g2 ->
  GeocGo.language g1 = Part000.language g2 ->
  Part000.buildURL url_Parse g2 lat lng = Ret (Some ur, None) ->
  exists (q : string) (ps1 ps2 : list (string * string)),
    GeocGo.buildURL g1 lat lng = GeocGo.baseURL g1 +++ "?" +++ q
    /\ unescapePairs (url.rawParams q) = Some ps1
    /\ unescapePairs (url.rawParams (url.RawQuery ur)) = Some ps2
    /\ forall key : string, key <> "signature" -> valuesOf key ps1 = valuesOf key ps2.
Proof.
  intros Hlat Hlng Hkey Hlang H.
  destruct (Part000_buildURL_ok _ _ _ _ H) as (_ & bk & _ & _ & Hbk & _ & _).
  destruct (Part000_buildURL_params _ _ _ _ H) as (sig & Hps & _ & _).
  assert (Hll : url.QueryUnescape (fmt.Sprintf_latlng lat lng)
                = Some (fmt.Sprintf_latlng lat lng)).
  { apply QueryUnescape_plain. unfold fmt.Sprintf_latlng.
    now rewrite !string_forall_app, !Sprintf_8f_plain. }
  exists (url.joinRaw (writtenPairs g1 lat lng)).
  exists ([("latlng", fmt.Sprintf_latlng lat lng); ("sensor", "false")]
          ++ (if String.eqb (Part000.language g2) "" then []
              else [("language", Part000.language g2)])
          ++ [("client", ClientID bk)]
          ++ (if String.eqb (Channel bk) "" then [] else [("channel", Channel bk)])).
  exists (canonicalPairs g2 lat lng ++ [("signature", sig)]).
  split; [apply GeocGo_buildURL_pairs|].
  rewrite rawParams_writtenPairs, Hps. split; [|split].
  - unfold writtenPairs. rewrite Hkey, Hbk, Hlang.
    destruct (String.eqb (Channel bk) ""); destruct (String.eqb (Part000.language g2) "");
      cbn [List.app unescapePairs]; rewrite Hll, ?QueryUnescape_QueryEscape; reflexivity.
  - apply unescapePairs_escapePair.
  - intros key Hsig. unfold canonicalPairs, valuesOf. rewrite Hbk.
    destruct (String.eqb (Channel bk) ""); destruct (String.eqb (Part000.language g2) "");
      cbn [List.app List.filter List.map fst snd];
      destruct (String.eqb_spec "signature" key) as [<-|_]; try congruence;
      repeat (match goal with
              | |- context [String.eqb ?k key] =>
                  destruct (String.eqb_spec k key) as [<-|?]
              end; cbn [List.app List.filter List.map fst snd]);
      reflexivity.
Qed.

End ReadBack.

(* ================================================================== *)
(** * The signature round trip *)
(* ================================================================== *)

Lemma cutAt_none (sep : ascii) (s : string) :
  string_forall (fun c => negb (Ascii.eqb c sep)) s = true -> url.cutAt sep s = (s, None).
Proof.
  induction s as [|c s IH]; cbn; intros H; [reflexivity|].
  apply andb_prop in H as [Hc Hs]. apply negb_true_iff in Hc.
  now rewrite Hc, (IH Hs).
Qed.

Lemma endpointChar_no_query (c : ascii) :
  endpointChar c = true -> negb (Ascii.eqb c "?") = true.
Proof. unfold endpointChar. intros H. now apply andb_prop in H as [H _]. Qed.

Lemma endpointChar_noHash (c : ascii) : endpointChar c = true -> noHash c = true.
Proof. unfold endpointChar, noHash. intros H. now apply andb_prop in H as [_ H]. Qed.

(** [url.Parse] reads as the raw query what follows a base URL without
    [?] and [#] and a [?], up to the first [#]. *)
Lemma parsedRawQuery_built (base q : string) :
  string_forall endpointChar base = true ->
  string_forall noHash q = true ->
  parsedRawQuery (base +++ "?" +++ q) = q.
Proof.
  intros Hb Hq. unfold parsedRawQuery, queryOf.
  rewrite (@cutAt_none "#"%char (base +++ "?" +++ q)).
  - cbn [fst]. change ("?" +++ q) with (String "?" q).
    rewrite cutAt_sep; [reflexivity|].
    exact (@string_forall_impl _ _ base endpointChar_no_query Hb).
  - change (string_forall noHash (base +++ "?" +++ q) = true).
    rewrite string_forall_app.
    rewrite (@string_forall_impl _ _ base endpointChar_noHash Hb).
    cbn. exact Hq.
Qed.

Lemma escapeByte_noHash (c : ascii) : string_forall noHash (url.escapeByte c) = true.
Proof. destruct c as [[] [] [] [] [] [] [] []]; reflexivity. Qed.

Lemma QueryEscape_noHash (s : string) : string_forall noHash (url.QueryEscape s) = true.
Proof.
  induction s as [|c s IH]; [reflexivity|].
  cbn [url.QueryEscape]. now rewrite string_forall_app, escapeByte_noHash, IH.
Qed.

Lemma Sprintf_8f_noHash (x : float64) : string_forall noHash (fmt.Sprintf_8f x) = true.
Proof.
  assert (Hd : forall s, string_forall isDigit s = true -> string_forall noHash s = true).
  { intros s. apply string_forall_impl. intros c.
    destruct c as [[] [] [] [] [] [] [] []]; cbn; congruence. }
  destruct x as [s|s| |s m e]; try (destruct s; reflexivity); try reflexivity.
  unfold fmt.Sprintf_8f. rewrite !string_forall_app.
  rewrite (Hd _ (isDigit_decimal _)), (Hd _ (isDigit_fixedDigits _ _)).
  destruct s; reflexivity.
Qed.

Lemma Sprintf_latlng_noHash (lat lng : float64) :
  string_forall noHash (fmt.Sprintf_latlng lat lng) = true.
Proof.
  unfold fmt.Sprintf_latlng. now rewrite !string_forall_app, !Sprintf_8f_noHash.
Qed.

Lemma joinRaw_noHash (ps : list (string * string)) :
  Forall (fun kv => string_forall noHash (fst kv) = true
                    /\ string_forall noHash (snd kv) = true) ps ->
  string_forall noHash (url.joinRaw ps) = true.
Proof.
  unfold url.joinRaw. induction 1 as [|[k v] ps [Hk Hv] Hps IH]; [reflexivity|].
  cbn [fst snd] in Hk, Hv.
  destruct ps as [|p ps].
  - cbn [List.map String.concat fst snd]. rewrite !string_forall_app, Hk, Hv. reflexivity.
  - change (String.concat "&" (List.map ?f ((k, v) :: p :: ps)))
      with ((k +++ "=" +++ v) +++ "&" +++ String.concat "&" (List.map f (p :: ps))).
    rewrite !string_forall_app, Hk, Hv, IH. reflexivity.
Qed.

(** The query geoc.go writes holds no [#]. *)
Lemma writtenQuery_noHash (g : GeocGo.Geocoder) (lat lng : float64) :
  string_forall noHash (url.joinRaw (writtenPairs g lat lng)) = true.
Proof.
  apply joinRaw_noHash. unfold writtenPairs.
  destruct (GeocGo.businessKey g) as [bk|];
    [destruct (String.eqb (Channel bk) "")|];
    destruct (String.eqb (GeocGo.language g) "");
    cbn [List.app];
    repeat (constructor; [split;
      first [reflexivity | apply Sprintf_latlng_noHash | apply QueryEscape_noHash]|]);
    constructor.
Qed.

Lemma signature_char_noHash (c : ascii) :
  urlSafeChar c || Ascii.eqb c "=" = true -> noHash c = true.
Proof. destruct c as [[] [] [] [] [] [] [] []]; cbn; congruence. Qed.

(** The query geoc.go has written, followed by a raw signature, splits
    into the pairs written and the pair of the signature. *)
Lemma rawParams_signed (g : GeocGo.Geocoder) (lat lng : float64) (signature : string) :
  string_forall (fun c => urlSafeChar c || Ascii.eqb c "=") signature = true ->
  url.joinRaw (writtenPairs g lat lng) +++ "&signature=" +++ signature
  = url.joinRaw (writtenPairs g lat lng ++ [("signature", signature)])
  /\ url.rawParams (url.joinRaw (writtenPairs g lat lng ++ [("signature", signature)]))
     = writtenPairs g lat lng ++ [("signature", signature)].
Proof.
  intros Hchars. split.
  - now rewrite joinRaw_snoc by apply writtenPairs_not_empty.
  - apply rawParams_joinRaw_values. apply Forall_app. split.
    + eapply Forall_impl; [|apply writtenPairs_wireSafe].
      intros [k v] [Hk Hv]. split; [exact Hk|]. now apply wireSafe_no_amp.
    + constructor; [|constructor]. split; [reflexivity|].
      exact (@string_forall_impl _ _ signature signature_char_no_amp Hchars).
Qed.

Section RoundTrip.

Variable url_Parse : string -> url.URL + error.
Variable URL_String : url.URL -> string.
Variable unmarshal : string -> GoogleResponse + error.

(** C2.  part_000: in the URL a successful [buildURL] returns, the last
    parameter of the query is [signature], its value is the escaped form
    of (and unescapes to) the result of [getSignature] on the path of that
    URL, a [?] and the query re-serialized without that last parameter,
    which is the canonical encoding of the unsigned parameters; and the
    only URL a call hands to the transport is that URL.
    geoc.go: the only URL a call hands to the transport is the built URL
    followed by [&signature=] and the result of [getSignature] on the
    path, a [?] and the raw query of the built URL as parsed.  When the
    base URL holds no [?] and no [#], the built URL parses and
    [url.Parse] reads its raw query as net/url does, then either the key
    does not decode and nothing is signed, or the URL is signed and, in
    the query [url.Parse] reads off the URL that is sent, the last
    parameter is [signature], its value is (and unescapes to) the result
    of [getSignature] on the path, a [?] and that query re-serialized
    without its last parameter, which is the query as [buildURL] wrote
    it.  In both variants a call that the limiter lets through on a
    client with a transport hands the signed URL to the transport, once. *)
Theorem C2_signature_round_trip
  (g1 : GeocGo.Geocoder) (g2 : Part000.Geocoder) (lat lng : float64) :
  (forall ur : url.URL,
      Part000.buildURL url_Parse g2 lat lng = Ret (Some ur, None) ->
      let ps := url.rawParams (url.RawQuery ur) in
      exists signature : string,
        url.RawQuery ur = url.joinRaw ps
        /\ List.last ps ("", "") = ("signature", url.QueryEscape signature)
        /\ url.QueryUnescape (url.QueryEscape signature) = Some signature
        /\ url.joinRaw (List.removelast ps) = url.Encode (Part000.unsignedQuery g2 lat lng)
        /\ Part000.getSignature g2
             (url.Path ur +++ "?" +++ url.joinRaw (List.removelast ps))
           = Ret (signature, None))
  /\ (forall (env : Oracle) (ctx : Context) (lim : rate.Limiter),
         let urls :=
           requestedURLs
             (trace (run env (Part000.ReverseGeocode url_Parse URL_String unmarshal
                                g2 ctx lat lng) lim)) in
         urls = []
         \/ exists ur : url.URL,
              Part000.buildURL url_Parse g2 lat lng = Ret (Some ur, None)
              /\ urls = [URL_String ur])
  /\ (forall targetURL : string,
         GeocGo.signedURL url_Parse g1 lat lng = Ret (targetURL, None) ->
         exists (ur : url.URL) (signature : string),
           url_Parse (GeocGo.buildURL g1 lat lng) = inl ur
           /\ GeocGo.getSignature g1 (url.Path ur +++ "?" +++ url.RawQuery ur)
              = Ret (signature, None)
           /\ targetURL = GeocGo.buildURL g1 lat lng +++ "&signature=" +++ signature)
  /\ (forall (env : Oracle) (ctx : Context) (lim : rate.Limiter),
         let urls :=
           requestedURLs
             (trace (run env (GeocGo.ReverseGeocode url_Parse unmarshal g1 ctx lat lng) lim)) in
         urls = []
         \/ exists targetURL : string,
              GeocGo.signedURL url_Parse g1 lat lng = Ret (targetURL, None)
              /\ urls = [targetURL])
  /\ (forall (bk : BusinessKey) (ur : url.URL),
         GeocGo.businessKey g1 = Some bk ->
         string_forall endpointChar (GeocGo.baseURL g1) = true ->
         url_Parse (GeocGo.buildURL g1 lat lng) = inl ur ->
         url.RawQuery ur = parsedRawQuery (GeocGo.buildURL g1 lat lng) ->
         match snd (base64.DecodeString
                      (ReplaceAll (ReplaceAll (SigningKey bk) "-" "+") "_" "/")) with
         | Some err => GeocGo.signedURL url_Parse g1 lat lng = Ret ("", Some err)
         | None =>
             exists targetURL signature : string,
               GeocGo.signedURL url_Parse g1 lat lng = Ret (targetURL, None)
               /\ targetURL = GeocGo.buildURL g1 lat lng +++ "&signature=" +++ signature
               /\ let ps := url.rawParams (parsedRawQuery targetURL) in
                  parsedRawQuery targetURL = url.joinRaw ps
                  /\ List.last ps ("", "") = ("signature", signature)
                  /\ url.QueryUnescape signature = Some signature
                  /\ url.joinRaw (List.removelast ps)
                     = parsedRawQuery (GeocGo.buildURL g1 lat lng)
                  /\ GeocGo.getSignature g1
                       (url.Path ur +++ "?" +++ url.joinRaw (List.removelast ps))
                     = Ret (signature, None)
         end)
  /\ (forall (env : Oracle) (ctx : Context) (lim : rate.Limiter) (c : HTTPClient)
             (targetURL : string),
         env _ (LimiterWait ctx) = None ->
         GeocGo.signedURL url_Parse g1 lat lng = Ret (targetURL, None) ->
         GeocGo.client g1 = Some c ->
         requestedURLs
           (trace (run env (GeocGo.ReverseGeocode url_Parse unmarshal g1 ctx lat lng) lim))
         = [targetURL])
  /\ (forall (env : Oracle) (ctx : Context) (lim : rate.Limiter) (c : HTTPClient)
             (ur : url.URL),
         env _ (LimiterWait ctx) = None ->
         Part000.buildURL url_Parse g2 lat lng = Ret (Some ur, None) ->
         Part000.client g2 = Some c ->
         requestedURLs
           (trace (run env (Part000.ReverseGeocode url_Parse URL_String unmarshal
                              g2 ctx lat lng) lim))
         = [URL_String ur]).
Proof.
  split; [|split; [|split; [|split; [|split; [|split]]]]];
    [| | | | |
     intros env ctx lim c t Hwait Hurl Hc; unfold GeocGo.ReverseGeocode; step_run;
     rewrite Hwait, Hurl; step_run; rewrite Hc; step_run;
     destruct (env _ (ClientGet c t)) as [[resp|] [e|]]; step_run; try reflexivity;
     destruct (json.Decode unmarshal (Body resp)) as [[res|] [e|]]; step_run;
     try reflexivity;
     destruct (String.eqb (Status res) GRS_OVER_QUERY_LIMIT); reflexivity
    |intros env ctx lim c ur Hwait Hurl Hc; unfold Part000.ReverseGeocode; step_run;
     rewrite Hwait, Hurl; step_run; rewrite Hc; step_run;
     destruct (env _ (ClientGet c (URL_String ur))) as [[resp|] [e|]]; step_run;
     try reflexivity;
     destruct (Part000.observer g2); step_run;
     destruct (json.Decode unmarshal (Body resp)) as [[res|] [e|]]; step_run;
     try reflexivity;
     destruct (String.eqb (Status res) GRS_OVER_QUERY_LIMIT); reflexivity].
  - intros ur H ps. subst ps.
    destruct (Part000_buildURL_params _ _ _ _ H) as (sig & Hps & Hq & Hsig).
    exists sig. rewrite Hps, List.map_app. cbn [List.map].
    rewrite List.last_last, List.removelast_last, <- Encode_unsignedQuery.
    repeat split.
    + rewrite Hq at 1. rewrite Hps, List.map_app. reflexivity.
    + apply QueryUnescape_QueryEscape.
    + exact Hsig.
  - intros env ctx lim. apply Part000_requests.
  - intros targetURL H. exact (GeocGo_signedURL_ok _ _ _ _ H).
  - intros env ctx lim. apply GeocGo_requests.
  - intros bk ur Hbk Hbase Hparse Hquery.
    assert (Hbuilt : parsedRawQuery (GeocGo.buildURL g1 lat lng)
                     = url.joinRaw (writtenPairs g1 lat lng)).
    { rewrite GeocGo_buildURL_pairs.
      apply parsedRawQuery_built; [exact Hbase | apply writtenQuery_noHash]. }
    rewrite Hbuilt in *.
    unfold GeocGo.signedURL. rewrite Hparse, (GeocGo_getSignature_sign g1 _ Hbk).
    rewrite ReplaceAll_toStandard.
    destruct (Reference.sign (SigningKey bk) (url.Path ur +++ "?" +++ url.RawQuery ur))
      as [err|sig] eqn:Hsign.
    + unfold Reference.sign in Hsign.
      destruct (base64.DecodeString _) as [key [e|]]; [|discriminate].
      injection Hsign as ->. reflexivity.
    + destruct (sign_shape _ _ Hsign) as [_ Hchars].
      unfold Reference.sign in Hsign.
      destruct (base64.DecodeString (string_map Reference.toStandard (SigningKey bk)))
        as [key [e|]] eqn:Hkey; [discriminate|]. cbn [snd].
      assert (Hsign' : Reference.sign (SigningKey bk)
                         (url.Path ur +++ "?" +++ url.RawQuery ur) = inr sig)
        by (unfold Reference.sign; now rewrite Hkey).
      destruct (rawParams_signed g1 lat lng sig Hchars) as [Hjoin Hsplit].
      exists (GeocGo.buildURL g1 lat lng +++ "&signature=" +++ sig), sig.
      split; [reflexivity|]. split; [reflexivity|].
      assert (Hsent : parsedRawQuery (GeocGo.buildURL g1 lat lng +++ "&signature=" +++ sig)
                      = url.joinRaw (writtenPairs g1 lat lng ++ [("signature", sig)])).
      { rewrite GeocGo_buildURL_pairs, !append_assoc, <- Hjoin.
        apply parsedRawQuery_built; [exact Hbase|].
        rewrite !string_forall_app, writtenQuery_noHash.
        rewrite (@string_forall_impl _ _ sig signature_char_noHash Hchars). reflexivity. }
      cbv zeta. rewrite Hsent, Hsplit, List.last_last, List.removelast_last.
      split; [reflexivity|]. split; [reflexivity|].
      split; [apply QueryUnescape_plain;
              exact (@string_forall_impl _ _ sig signature_char_plain Hchars)|].
      split; [reflexivity|].
      rewrite <- Hquery, (GeocGo_getSignature_sign g1 _ Hbk), Hsign'. reflexivity.
Qed.

End RoundTrip.

(** [Test_buildURL], first case, and the URL geoc.go requests on the same
    input, both read back. *)
Lemma C2_witness :
  (Part000.buildURL sampleParse samplePart000 f45_32 f12_67 = Ret (Some expectedURL, None)
   /\ exists signature : string,
        url.RawQuery expectedURL = url.joinRaw (url.rawParams (url.RawQuery expectedURL))
        /\ List.last (url.rawParams (url.RawQuery expectedURL)) ("", "")
           = ("signature", url.QueryEscape signature)
        /\ url.QueryUnescape (url.QueryEscape signature) = Some signature
        /\ url.joinRaw (List.removelast (url.rawParams (url.RawQuery expectedURL)))
           = url.Encode (Part000.unsignedQuery samplePart000 f45_32 f12_67)
        /\ Part000.getSignature samplePart000
             (url.Path expectedURL +++ "?"
                +++ url.joinRaw (List.removelast (url.rawParams (url.RawQuery expectedURL))))
           = Ret (signature, None))
  /\ (GeocGo.businessKey sampleGeocGo = Some fixtureKey
      /\ string_forall endpointChar (GeocGo.baseURL sampleGeocGo) = true
      /\ sampleParse (GeocGo.buildURL sampleGeocGo f45_32 f12_67) = inl parsedBuiltURL
      /\ url.RawQuery parsedBuiltURL
         = parsedRawQuery (GeocGo.buildURL sampleGeocGo f45_32 f12_67)
      /\ exists targetURL signature : string,
           GeocGo.signedURL sampleParse sampleGeocGo f45_32 f12_67 = Ret (targetURL, None)
           /\ targetURL
              = GeocGo.buildURL sampleGeocGo f45_32 f12_67 +++ "&signature=" +++ signature
           /\ parsedRawQuery targetURL = url.joinRaw (url.rawParams (parsedRawQuery targetURL))
           /\ List.last (url.rawParams (parsedRawQuery targetURL)) ("", "")
              = ("signature", signature)
           /\ url.QueryUnescape signature = Some signature
           /\ url.joinRaw (List.removelast (url.rawParams (parsedRawQuery targetURL)))
              = parsedRawQuery (GeocGo.buildURL sampleGeocGo f45_32 f12_67)
           /\ GeocGo.getSignature sampleGeocGo
                (url.Path parsedBuiltURL +++ "?"
                   +++ url.joinRaw
                         (List.removelast (url.rawParams (parsedRawQuery targetURL))))
              = Ret (signature, None)).
Proof.
  assert (Hbuilt : Part000.buildURL sampleParse samplePart000 f45_32 f12_67
                   = Ret (Some expectedURL, None)) by (vm_compute; reflexivity).
  assert (Hbase : string_forall endpointChar (GeocGo.baseURL sampleGeocGo) = true)
    by (vm_compute; reflexivity).
  assert (Hparse : sampleParse (GeocGo.buildURL sampleGeocGo f45_32 f12_67)
                   = inl parsedBuiltURL) by (vm_compute; reflexivity).
  assert (Hquery : url.RawQuery parsedBuiltURL
                   = parsedRawQuery (GeocGo.buildURL sampleGeocGo f45_32 f12_67))
    by (vm_compute; reflexivity).
  pose proof (@C2_signature_round_trip sampleParse sampleString sampleUnmarshal
                sampleGeocGo samplePart000 f45_32 f12_67) as (H1 & _ & _ & _ & H5 & _).
  split.
  - split; [exact Hbuilt|]. exact (H1 expectedURL Hbuilt).
  - split; [reflexivity|]. split; [exact Hbase|]. split; [exact Hparse|].
    split; [exact Hquery|].
    exact (H5 fixtureKey parsedBuiltURL eq_refl Hbase Hparse Hquery).
Defined.

(** C2 as stated fails in geoc.go.  [NewGeocoder] accepts a base URL that
    ends in a fragment; the query [buildURL] writes then lands in the
    fragment, what is signed is the path and a bare [?] whatever the
    coordinates, and the URL that is requested has no query, hence no
    [signature] parameter. *)
Lemma C2_counterexample :
  GeocGo.NewGeocoder (Some fixtureKey) "https://maps.googleapis.com/maps/api/geocode/json#v1"
    "en" (Some (HTTPClientHandle 0)) 5 100000000
  = (Some fragmentGeocGo, None)
  /\ sampleParseFragment (GeocGo.buildURL fragmentGeocGo f45_32 f12_67) = inl fragmentParsed
  /\ GeocGo.signedURL sampleParseFragment fragmentGeocGo f45_32 f12_67
     = Ret (fragmentRequested, None)
  /\ requestedURLs
       (trace (run overLimitTransport
                 (GeocGo.ReverseGeocode sampleParseFragment sampleUnmarshal fragmentGeocGo
                    (ContextHandle 0) f45_32 f12_67)
                 (GeocGo.limiter fragmentGeocGo)))
     = [fragmentRequested]
  /\ sampleParseFragment fragmentRequested
     = inl {| url.Scheme := "https";
              url.Opaque := "";
              url.Host := "maps.googleapis.com";
              url.Path := "/maps/api/geocode/json";
              url.RawPath := "";
              url.ForceQuery := false;
              url.RawQuery := "";
              url.Fragment :=
                "v1?latlng=45.32000000,12.67000000&sensor=false&language=en&client=my_test_client&channel=grg-local&signature=ugYjcHwmCGDPhvXxkIo6rMzi5NE=" |}
  /\ parsedRawQuery fragmentRequested = ""
  /\ url.rawParams (parsedRawQuery fragmentRequested) = []
  /\ List.last (url.rawParams (parsedRawQuery fragmentRequested)) ("", "")
     <> ("signature", "ugYjcHwmCGDPhvXxkIo6rMzi5NE=")
  /\ GeocGo.getSignature fragmentGeocGo "/maps/api/geocode/json?"
     = Ret ("ugYjcHwmCGDPhvXxkIo6rMzi5NE=", None)
  /\ GeocGo.signedURL sampleParseFragment fragmentGeocGo f12_67 f45_32
     = Ret ("https://maps.googleapis.com/maps/api/geocode/json#v1?latlng=12.67000000,45.32000000&sensor=false&language=en&client=my_test_client&channel=grg-local&signature=ugYjcHwmCGDPhvXxkIo6rMzi5NE=",
            None).
Proof.
  repeat split; try (vm_compute; reflexivity).
  vm_compute. discriminate.
Qed.



(* ================================================================== *)
(** * Further properties: worked examples *)
(* ================================================================== *)

Lemma X2_witness :
  @answering None (None, None) _ (LimiterWait (ContextHandle 0)) = None
  /\ sampleParse (Part000.baseURL strayPart000) = inr (UrlError "parse")
  /\ run (answering None (None, None))
       (Part000.ReverseGeocode sampleParse sampleString sampleUnmarshal strayPart000
          (ContextHandle 0) f45_32 f12_67)
       (Part000.limiter strayPart000)
     = {| outcome := Returned (None, Some (UrlError "parse"));
          limiterAfter := Part000.limiter strayPart000;
          trace := [Ev (LimiterWait (ContextHandle 0)) None] |}.
Proof.
  split; [reflexivity|]. split; [reflexivity|].
  exact (proj2 (@X2_parse_error_passthrough sampleParse sampleString sampleUnmarshal
                  (answering None (None, None)) (ContextHandle 0) f45_32 f12_67
                  (Part000.limiter strayPart000) (UrlError "parse") eq_refl)
           strayPart000 eq_refl).
Defined.

Lemma X3_witness :
  @answering None (None, None) _ (LimiterWait (ContextHandle 0)) = None
  /\ snd (base64.DecodeString
            (ReplaceAll (ReplaceAll (SigningKey malformedKey) "-" "+") "_" "/"))
     = Some CorruptInputError
  /\ Part000.businessKey malformedKeyPart000 = Some malformedKey
  /\ sampleParse (Part000.baseURL malformedKeyPart000) = inl parsedEndpoint
  /\ run (answering None (None, None))
       (Part000.ReverseGeocode sampleParse sampleString sampleUnmarshal malformedKeyPart000
          (ContextHandle 0) f45_32 f12_67)
       (Part000.limiter malformedKeyPart000)
     = {| outcome := Returned (None, Some CorruptInputError);
          limiterAfter := Part000.limiter malformedKeyPart000;
          trace := [Ev (LimiterWait (ContextHandle 0)) None] |}.
Proof.
  assert (Hkey : snd (base64.DecodeString
                        (ReplaceAll (ReplaceAll (SigningKey malformedKey) "-" "+") "_" "/"))
                 = Some CorruptInputError) by (vm_compute; reflexivity).
  assert (Hparse : sampleParse (Part000.baseURL malformedKeyPart000) = inl parsedEndpoint)
    by (vm_compute; reflexivity).
  split; [reflexivity|]. split; [exact Hkey|]. split; [reflexivity|]. split; [exact Hparse|].
  exact (proj2 (@X3_malformed_key_stops_the_call sampleParse sampleString sampleUnmarshal
                  (answering None (None, None)) (ContextHandle 0) f45_32 f12_67
                  (Part000.limiter malformedKeyPart000) malformedKey parsedEndpoint
                  CorruptInputError eq_refl Hkey)
           malformedKeyPart000 eq_refl Hparse).
Defined.

Lemma X4_witness :
  Part000.businessKey samplePart000 = Some fixtureKey
  /\ exists (ur : url.URL) (signature : string),
       Part000.buildURL sampleParse samplePart000 f45_32 f12_67 = Ret (Some ur, None)
       /\ url.Scheme ur = "https"
       /\ url.Opaque ur = ""
       /\ url.Host ur = "maps.googleapis.com"
       /\ url.Path ur = "/maps/api/geocode/json"
       /\ url.RawPath ur = ""
       /\ url.ForceQuery ur = false
       /\ url.Fragment ur = ""
       /\ url.RawQuery ur
          = url.Encode (url.Add (Part000.unsignedQuery samplePart000 f45_32 f12_67)
                          "signature" signature).
Proof.
  split; [reflexivity|].
  exact (@X4_buildURL_outcomes sampleParse samplePart000 fixtureKey f45_32 f12_67 eq_refl).
Defined.

Lemma X5_witness :
  decodesPart000 sampleParse sampleString sampleUnmarshal truncatedTransport samplePart000
    (ContextHandle 0) f45_32 f12_67 {| Body := "{" |} None
    (Some (JsonError "unexpected end of JSON input"))
  /\ outcome (run truncatedTransport
                (Part000.ReverseGeocode sampleParse sampleString sampleUnmarshal samplePart000
                   (ContextHandle 0) f45_32 f12_67)
                (Part000.limiter samplePart000))
     = Returned (None, Some (JsonError "unexpected end of JSON input"))
  /\ limiterAfter (run truncatedTransport
                     (Part000.ReverseGeocode sampleParse sampleString sampleUnmarshal
                        samplePart000 (ContextHandle 0) f45_32 f12_67)
                     (Part000.limiter samplePart000))
     = Part000.limiter samplePart000
  /\ throttleEvents (trace (run truncatedTransport
                              (Part000.ReverseGeocode sampleParse sampleString
                                 sampleUnmarshal samplePart000 (ContextHandle 0)
                                 f45_32 f12_67)
                              (Part000.limiter samplePart000)))
     = [].
Proof.
  assert (Hdec : decodesPart000 sampleParse sampleString sampleUnmarshal truncatedTransport
                   samplePart000 (ContextHandle 0) f45_32 f12_67 {| Body := "{" |} None
                   (Some (JsonError "unexpected end of JSON input"))).
  { split; [reflexivity|]. exists expectedURL, (HTTPClientHandle 0).
    repeat split; vm_compute; reflexivity. }
  split; [exact Hdec|].
  exact (proj2 (@X5_decode_error_passthrough sampleParse sampleString sampleUnmarshal
                  truncatedTransport (ContextHandle 0) f45_32 f12_67
                  (Part000.limiter samplePart000) {| Body := "{" |} None
                  (JsonError "unexpected end of JSON input"))
           samplePart000 Hdec).
Defined.

Lemma X6_witness :
  Status okResponse <> GRS_OVER_QUERY_LIMIT
  /\ decodesGeocGo sampleParse sampleUnmarshal okTransport sampleGeocGo
       (ContextHandle 0) f45_32 f12_67 {| Body := okBody |} (Some okResponse) None
  /\ outcome (run okTransport
                (GeocGo.ReverseGeocode sampleParse sampleUnmarshal sampleGeocGo
                   (ContextHandle 0) f45_32 f12_67)
                (GeocGo.limiter sampleGeocGo))
     = Returned (Some okResponse, None)
  /\ limiterAfter (run okTransport
                     (GeocGo.ReverseGeocode sampleParse sampleUnmarshal sampleGeocGo
                        (ContextHandle 0) f45_32 f12_67)
                     (GeocGo.limiter sampleGeocGo))
     = GeocGo.limiter sampleGeocGo
  /\ throttleEvents (trace (run okTransport
                              (GeocGo.ReverseGeocode sampleParse sampleUnmarshal sampleGeocGo
                                 (ContextHandle 0) f45_32 f12_67)
                              (GeocGo.limiter sampleGeocGo)))
     = [].
Proof.
  assert (Hst : Status okResponse <> GRS_OVER_QUERY_LIMIT)
    by (apply String.eqb_neq; reflexivity).
  assert (Hdec : decodesGeocGo sampleParse sampleUnmarshal okTransport sampleGeocGo
                   (ContextHandle 0) f45_32 f12_67 {| Body := okBody |} (Some okResponse)
                   None).
  { split; [reflexivity|]. exists requestedGeocGo, (HTTPClientHandle 0).
    repeat split; vm_compute; reflexivity. }
  split; [exact Hst|]. split; [exact Hdec|].
  exact (proj1 (@X6_other_statuses_pass_through sampleParse sampleString sampleUnmarshal
                  okTransport (ContextHandle 0) f45_32 f12_67 (GeocGo.limiter sampleGeocGo)
                  {| Body := okBody |} okResponse Hst)
           sampleGeocGo Hdec).
Defined.

Lemma X7_witness :
  answersPart000 sampleParse sampleString truncatedTransport samplePart000
    (ContextHandle 0) f45_32 f12_67 (Some {| Body := "{" |}, None)
  /\ closedBodies (trace (run truncatedTransport
                            (Part000.ReverseGeocode sampleParse sampleString sampleUnmarshal
                               samplePart000 (ContextHandle 0) f45_32 f12_67)
                            (Part000.limiter samplePart000)))
     = [{| Body := "{" |}]
  /\ List.last (List.map closedBody
                  (trace (run truncatedTransport
                            (Part000.ReverseGeocode sampleParse sampleString sampleUnmarshal
                               samplePart000 (ContextHandle 0) f45_32 f12_67)
                            (Part000.limiter samplePart000))))
       None
     = Some {| Body := "{" |}.
Proof.
  assert (Hans : answersPart000 sampleParse sampleString truncatedTransport samplePart000
                   (ContextHandle 0) f45_32 f12_67 (Some {| Body := "{" |}, None)).
  { split; [reflexivity|]. exists expectedURL, (HTTPClientHandle 0).
    repeat split; vm_compute; reflexivity. }
  split; [exact Hans|].
  exact (proj1 (proj1 (@X7_body_close_discipline sampleParse sampleString sampleUnmarshal
                         truncatedTransport (ContextHandle 0) f45_32 f12_67
                         (Part000.limiter samplePart000))
                  samplePart000)
           {| Body := "{" |} Hans).
Defined.

Lemma X8_witness :
  Part000.observer observedPart000 = Some (RequestObserverHandle 0)
  /\ @okTransport _ (LimiterWait (ContextHandle 0)) = None
  /\ Part000.buildURL sampleParse observedPart000 f45_32 f12_67 = Ret (Some expectedURL, None)
  /\ Part000.client observedPart000 = Some (HTTPClientHandle 0)
  /\ @okTransport _ (ClientGet (HTTPClientHandle 0) (sampleString expectedURL))
     = (Some {| Body := okBody |}, None)
  /\ exists post : list Event,
       trace (run okTransport
                (Part000.ReverseGeocode sampleParse sampleString sampleUnmarshal
                   observedPart000 (ContextHandle 0) f45_32 f12_67)
                (Part000.limiter observedPart000))
       = [Ev (LimiterWait (ContextHandle 0)) None;
          Ev TimeNow 0;
          Ev (ClientGet (HTTPClientHandle 0) (sampleString expectedURL))
            (Some {| Body := okBody |}, None);
          Ev (TimeSince 0) 0;
          Ev (ObserveHTTPRequest (RequestObserverHandle 0) "google" 0) tt]
         ++ post
       /\ observations post = [].
Proof.
  assert (Hurl : Part000.buildURL sampleParse observedPart000 f45_32 f12_67
                 = Ret (Some expectedURL, None)) by (vm_compute; reflexivity).
  split; [reflexivity|]. split; [reflexivity|]. split; [exact Hurl|].
  split; [reflexivity|]. split; [reflexivity|].
  exact (proj1 (proj2 (@X8_observer_discipline sampleParse sampleString sampleUnmarshal
                         okTransport observedPart000 (ContextHandle 0) f45_32 f12_67
                         (Part000.limiter observedPart000)))
           (RequestObserverHandle 0) expectedURL (HTTPClientHandle 0) {| Body := okBody |}
           eq_refl eq_refl Hurl eq_refl eq_refl).
Defined.

Lemma X9_witness :
  @silentTransport _ (LimiterWait (ContextHandle 0)) = None
  /\ GeocGo.signedURL sampleParse sampleGeocGo f45_32 f12_67 = Ret (requestedGeocGo, None)
  /\ GeocGo.client sampleGeocGo = Some (HTTPClientHandle 0)
  /\ @silentTransport _ (ClientGet (HTTPClientHandle 0) requestedGeocGo) = (None, None)
  /\ run silentTransport
       (GeocGo.ReverseGeocode sampleParse sampleUnmarshal sampleGeocGo
          (ContextHandle 0) f45_32 f12_67)
       (GeocGo.limiter sampleGeocGo)
     = {| outcome := Panicked nilDereference;
          limiterAfter := GeocGo.limiter sampleGeocGo;
          trace := [Ev (LimiterWait (ContextHandle 0)) None;
                    Ev (ClientGet (HTTPClientHandle 0) requestedGeocGo) (None, None)] |}.
Proof.
  assert (Hurl : GeocGo.signedURL sampleParse sampleGeocGo f45_32 f12_67
                 = Ret (requestedGeocGo, None)) by (vm_compute; reflexivity).
  split; [reflexivity|]. split; [exact Hurl|]. split; [reflexivity|]. split; [reflexivity|].
  exact (proj1 (@X9_nil_response_panics sampleParse sampleString sampleUnmarshal
                  silentTransport (ContextHandle 0) f45_32 f12_67
                  (GeocGo.limiter sampleGeocGo) (HTTPClientHandle 0) eq_refl)
           sampleGeocGo requestedGeocGo Hurl eq_refl eq_refl).
Defined.

Lemma X10_witness :
  rate.limit (Part000.limiter samplePart000) = rate.Limit_of_int (Part000.rps samplePart000)
  /\ limiterAfter (run overLimitTransport
                     (Part000.ReverseGeocode sampleParse sampleString sampleUnmarshal
                        samplePart000 (ContextHandle 0) f45_32 f12_67)
                     (Part000.limiter samplePart000))
     = Part000.limiter samplePart000.
Proof.
  split; [reflexivity|].
  exact (proj2 (@X10_call_leaves_limiter_running sampleParse sampleString sampleUnmarshal
                  overLimitTransport (ContextHandle 0) f45_32 f12_67
                  (Part000.limiter samplePart000))
           samplePart000 eq_refl).
Defined.

Lemma X11_witness :
  json.Decode sampleUnmarshal (Body {| Body := overLimitBody |})
  = (Some overLimitResponse, None)
  /\ Status overLimitResponse = GRS_OVER_QUERY_LIMIT
  /\ GeocGo.signedURL sampleParse sampleGeocGo f45_32 f12_67 = Ret (requestedGeocGo, None)
  /\ GeocGo.client sampleGeocGo = Some (HTTPClientHandle 0)
  /\ resumedEarly (GeocGo.ReverseGeocode sampleParse sampleUnmarshal sampleGeocGo)
       (GeocGo.limiter sampleGeocGo) 5 100000000.
Proof.
  assert (Hdec : json.Decode sampleUnmarshal (Body {| Body := overLimitBody |})
                 = (Some overLimitResponse, None)) by (vm_compute; reflexivity).
  assert (Hurl : GeocGo.signedURL sampleParse sampleGeocGo f45_32 f12_67
                 = Ret (requestedGeocGo, None)) by (vm_compute; reflexivity).
  split; [exact Hdec|]. split; [reflexivity|]. split; [exact Hurl|]. split; [reflexivity|].
  exact (proj1 (@X11_overlapping_pauses sampleParse sampleString sampleUnmarshal
                  (ContextHandle 0) f45_32 f12_67 (HTTPClientHandle 0)
                  {| Body := overLimitBody |} overLimitResponse Hdec eq_refl)
           sampleGeocGo requestedGeocGo Hurl eq_refl).
Defined.

Lemma X12_witness :
  GeocGo.businessKey sampleGeocGo = Some fixtureKey
  /\ GeocGo.getSignature sampleGeocGo fixtureInput = Ret ("fGNFKf3Yt6Syb9dRF42E7vm1FwM=", None)
  /\ isSignatureText "fGNFKf3Yt6Syb9dRF42E7vm1FwM=" = true.
Proof.
  assert (Hsig : GeocGo.getSignature sampleGeocGo fixtureInput
                 = Ret ("fGNFKf3Yt6Syb9dRF42E7vm1FwM=", None)) by (vm_compute; reflexivity).
  split; [reflexivity|]. split; [exact Hsig|].
  exact (proj1 (@X12_signature_shape fixtureKey fixtureInput "fGNFKf3Yt6Syb9dRF42E7vm1FwM=")
           sampleGeocGo eq_refl Hsig).
Defined.

Lemma X13_witness :
  GeocGo.businessKey urlSafeKeyGeocGo = Some urlSafeKey
  /\ Part000.businessKey standardKeyPart000 = Some standardKey
  /\ ReplaceAll (ReplaceAll (SigningKey urlSafeKey) "-" "+") "_" "/"
     = ReplaceAll (ReplaceAll (SigningKey standardKey) "-" "+") "_" "/"
  /\ GeocGo.getSignature urlSafeKeyGeocGo fixtureInput
     = Part000.getSignature standardKeyPart000 fixtureInput.
Proof.
  split; [reflexivity|]. split; [reflexivity|]. split; [reflexivity|].
  exact (proj1 (@X13_key_alphabet_is_immaterial urlSafeKeyGeocGo standardKeyPart000
                  urlSafeKey standardKey fixtureInput eq_refl eq_refl eq_refl)).
Defined.

Lemma X14_witness :
  GeocGo.signedURL sampleParse sampleGeocGo f45_32 f12_67 = Ret (requestedGeocGo, None)
  /\ exists q signature : string,
       GeocGo.buildURL sampleGeocGo f45_32 f12_67
       = GeocGo.baseURL sampleGeocGo +++ "?" +++ q
       /\ requestedGeocGo
          = GeocGo.baseURL sampleGeocGo +++ "?" +++ q +++ "&signature=" +++ signature
       /\ isSignatureText signature = true
       /\ url.rawParams (q +++ "&signature=" +++ signature)
          = url.rawParams q ++ [("signature", signature)]
       /\ url.QueryUnescape signature = Some signature.
Proof.
  assert (Hurl : GeocGo.signedURL sampleParse sampleGeocGo f45_32 f12_67
                 = Ret (requestedGeocGo, None)) by (vm_compute; reflexivity).
  split; [exact Hurl|].
  exact (@X14_raw_signature_is_well_formed sampleParse sampleGeocGo f45_32 f12_67
           requestedGeocGo Hurl).
Defined.

Lemma X15_witness :
  Part000.buildURL sampleParse samplePart000 f45_32 f12_67 = Ret (Some expectedURL, None)
  /\ exists (signature : string) (ps : list (string * string)),
       unescapePairs (url.rawParams (url.RawQuery expectedURL)) = Some ps
       /\ forall key : string,
            valuesOf key ps
            = url.lookup (url.Add (Part000.unsignedQuery samplePart000 f45_32 f12_67)
                            "signature" signature) key.
Proof.
  assert (Hurl : Part000.buildURL sampleParse samplePart000 f45_32 f12_67
                 = Ret (Some expectedURL, None)) by (vm_compute; reflexivity).
  split; [exact Hurl|].
  exact (@X15_query_reads_back sampleParse samplePart000 f45_32 f12_67 expectedURL Hurl).
Defined.

Lemma X16_witness :
  isFinite f45_32 = true
  /\ isFinite f12_67 = true
  /\ GeocGo.businessKey sampleGeocGo = Part000.businessKey samplePart000
  /\ GeocGo.language sampleGeocGo = Part000.language samplePart000
  /\ Part000.buildURL sampleParse samplePart000 f45_32 f12_67 = Ret (Some expectedURL, None)
  /\ exists (q : string) (ps1 ps2 : list (string * string)),
       GeocGo.buildURL sampleGeocGo f45_32 f12_67
       = GeocGo.baseURL sampleGeocGo +++ "?" +++ q
       /\ unescapePairs (url.rawParams q) = Some ps1
       /\ unescapePairs (url.rawParams (url.RawQuery expectedURL)) = Some ps2
       /\ forall key : string,
            key <> "signature" -> valuesOf key ps1 = valuesOf key ps2.
Proof.
  assert (Hurl : Part000.buildURL sampleParse samplePart000 f45_32 f12_67
                 = Ret (Some expectedURL, None)) by (vm_compute; reflexivity).
  split; [reflexivity|]. split; [reflexivity|]. split; [reflexivity|].
  split; [reflexivity|]. split; [exact Hurl|].
  exact (@X16_variants_send_the_same_parameters sampleParse sampleGeocGo samplePart000
           f45_32 f12_67 expectedURL eq_refl eq_refl eq_refl eq_refl Hurl).
Defined.

Lemma X17_witness :
  Part000.NewGeocoder (Some fixtureKey) fixtureEndpoint "en" (Some (HTTPClientHandle 0)) 5
    100000000 None
  = (Some samplePart000, None)
  /\ 0 < Part000.rps samplePart000
  /\ Part000.limiter samplePart000
     = rate.NewLimiter (rate.Limit_of_int (Part000.rps samplePart000)) 1
  /\ rate.negative (rate.limit (Part000.limiter samplePart000)) = false
  /\ limiterAfterCalls (Part000.ReverseGeocode sampleParse sampleString sampleUnmarshal
                          samplePart000)
       (Part000.limiter samplePart000)
       [(overLimitTransport, (ContextHandle 0, (f45_32, f12_67)));
        (failingTransport, (ContextHandle 1, (f12_67, f45_32)));
        (nullTransport, (ContextHandle 2, (f45_32, f12_67)))]
     = Part000.limiter samplePart000.
Proof.
  split; [reflexivity|].
  exact (proj2 (@X17_constructed_client_keeps_its_rate sampleParse sampleString
                  sampleUnmarshal (Some fixtureKey) fixtureEndpoint "en"
                  (Some (HTTPClientHandle 0)) 5 100000000 None
                  [(overLimitTransport, (ContextHandle 0, (f45_32, f12_67)));
                   (failingTransport, (ContextHandle 1, (f12_67, f45_32)));
                   (nullTransport, (ContextHandle 2, (f45_32, f12_67)))])
           samplePart000 eq_refl).
Defined.

Lemma X18_witness :
  List.hd_error
    (trace (run overLimitTransport
              (GeocGo.ReverseGeocode sampleParse sampleUnmarshal sampleGeocGo
                 (ContextHandle 0) f45_32 f12_67)
              (GeocGo.limiter sampleGeocGo)))
  = Some (Ev (LimiterWait (ContextHandle 0)) None)
  /\ waits (trace (run overLimitTransport
                     (GeocGo.ReverseGeocode sampleParse sampleUnmarshal sampleGeocGo
                        (ContextHandle 0) f45_32 f12_67)
                     (GeocGo.limiter sampleGeocGo)))
     = [ContextHandle 0]
  /\ (List.length
        (requestedURLs
           (trace (run overLimitTransport
                     (GeocGo.ReverseGeocode sampleParse sampleUnmarshal sampleGeocGo
                        (ContextHandle 0) f45_32 f12_67)
                     (GeocGo.limiter sampleGeocGo)))) <= 1)%nat
  /\ (requestedURLs
        (trace (run overLimitTransport
                  (GeocGo.ReverseGeocode sampleParse sampleUnmarshal sampleGeocGo
                     (ContextHandle 0) f45_32 f12_67)
                  (GeocGo.limiter sampleGeocGo))) <> []
      -> @overLimitTransport _ (LimiterWait (ContextHandle 0)) = None).
Proof.
  exact (proj1 (@X18_one_wait_before_the_request sampleParse sampleString sampleUnmarshal
                  overLimitTransport (ContextHandle 0) f45_32 f12_67
                  (GeocGo.limiter sampleGeocGo))
           sampleGeocGo).
Defined.
